(** * MemProcFS plugin manager (vmm/pluginmanager.c)

    A shallow embedding of the plugin registry and of its dispatch, broadcast,
    bring-up and teardown functions, together with the properties the
    specification states about them.

    Modelling conventions.
    - The singly linked list headed by [ctxVmm->pVmmVfsModuleList] is a Rocq
      list of entries; [NULL] is [[]] and [FLink] is the tail.
    - Handles and function pointers are machine addresses in [Z]; [0] is
      [NULL].  A pointer whose target is read ([pProcess], [pRegInfo],
      [wszPath]) is an [option].
    - A wide string is a list of code units, read up to its first NUL or to
      its end.
    - Everything outside the translation unit (module capabilities, plugin
      entry points, the loader, the heap, the file system) is answered by an
      [Environment], as a function of the call and of the history of external
      calls so far.  The calls that act on the world (heap, loader, master
      lock, initializers, module capabilities) are appended to that history;
      the queries ([Util_GetPathDll], the directory scan of [FindFirstFileA]
      and [FindNextFileA]) are answered from it and leave no record.  A
      module capability does not call back into the plugin manager; an
      initializer does so only through [pfnPluginManager_Register].
    - The timing instrumentation ([Statistics_CallStart], [Statistics_CallEnd])
      and the diagnostics ([vmmprintf] and friends) do not take part in the
      control flow and are left outside the modelled state. *)

From Stdlib Require Import ZArith List Bool String Ascii Lia.
Import ListNotations.
Local Open Scope Z_scope.

(** ** Scalar types of the Windows headers *)

Definition BOOL := bool.
Definition TRUE : BOOL := true.
Definition FALSE : BOOL := false.
Definition WORD := Z.
Definition DWORD := Z.
Definition QWORD := Z.
Definition NTSTATUS := Z.
Definition BYTE := Z.
Definition WCHAR := Z.
Definition HMODULE := Z.
Definition HANDLE := Z.
Definition PVOID := Z.
(** An address of code; [0] is the null function pointer. *)
Definition FNPTR := Z.
Definition LPWSTR := list WCHAR.
Definition NULL : Z := 0.

(** [if(p)] on a handle or function pointer. *)
Definition nonnull (p : Z) : bool := negb (p =? 0).

(** ** The C runtime on wide strings *)

(** [towlower] in the "C" locale: only the letters A to Z are folded. *)
Definition towlower (c : WCHAR) : WCHAR :=
  if (65 <=? c) && (c <=? 90) then c + 32 else c.

(** [_wcsicmp]: compares the two strings code unit by code unit after folding
    to lower case, up to the first difference or the terminating NUL; the sign
    of the result orders them and [0] means equal.  The end of a list reads
    as the NUL. *)
Fixpoint _wcsicmp (s1 s2 : LPWSTR) : Z :=
  match s1, s2 with
  | [], [] => 0
  | [], c2 :: _ => 0 - towlower c2
  | c1 :: _, [] => towlower c1
  | c1 :: t1, c2 :: t2 =>
      if towlower c1 =? towlower c2 then
        if c1 =? 0 then 0 else _wcsicmp t1 t2
      else towlower c1 - towlower c2
  end.

(** [wcslen]: the number of code units before the NUL. *)
Fixpoint wcslen (s : LPWSTR) : Z :=
  match s with
  | [] => 0
  | c :: t => if c =? 0 then 0 else 1 + wcslen t
  end.

(** [wcsncpy_s(dst, n, src, count)]: the code units of [src] before its NUL,
    at most [count] of them; they and the terminator have to fit into the [n]
    units of [dst]. *)
Fixpoint wcsncpy_s (n : nat) (src : LPWSTR) (count : nat) : LPWSTR :=
  match count, src with
  | O, _ => []
  | _, [] => []
  | S k, c :: t => if c =? 0 then [] else c :: wcsncpy_s n t k
  end.

(** ** Records of vmm.h, vmmdll.h and of this file *)

(** The part of [VMM_PROCESS] the plugin manager reads. *)
Record VMM_PROCESS := mkProcess {
  proc_dwPID : DWORD
}.

Record VMMDLL_PLUGIN_CONTEXT := mkContext {
  ctx_magic : QWORD;
  ctx_wVersion : WORD;
  ctx_wSize : WORD;
  ctx_dwPID : DWORD;
  ctx_pProcess : option VMM_PROCESS;
  ctx_wszModule : LPWSTR;
  ctx_wszPath : LPWSTR
}.

(** [reg_info] and [reg_fn] are the two nested structs a plugin fills in.  The
    field [pfnPluginManager_Register] of the record always points to
    [PluginManager_Register]; calling through it is [Init_Register] below. *)
Record REG_INFO := mkRegInfoName {
  ri_wszModuleName : LPWSTR;
  ri_fRootModule : BOOL;
  ri_fProcessModule : BOOL
}.

Record REG_FN := mkRegFn {
  ri_pfnList : FNPTR;
  ri_pfnRead : FNPTR;
  ri_pfnWrite : FNPTR;
  ri_pfnNotify : FNPTR;
  ri_pfnClose : FNPTR
}.

Record VMMDLL_PLUGIN_REGINFO := mkRegInfo {
  magic : QWORD;
  wVersion : WORD;
  wSize : WORD;
  tpMemoryModel : Z;
  tpSystem : Z;
  hDLL : HMODULE;
  hReservedDllPython3X : HMODULE;
  hReservedDllPython3 : HMODULE;
  reg_info : REG_INFO;
  reg_fn : REG_FN
}.

(** [PLUGIN_LISTENTRY]; the [FLink] field is the tail of the list that holds
    the entry. *)
Record PLUGIN_LISTENTRY := mkEntry {
  pm_hDLL : HMODULE;
  wszModuleName : LPWSTR;
  fRootModule : BOOL;
  fProcessModule : BOOL;
  pfnList : FNPTR;
  pfnRead : FNPTR;
  pfnWrite : FNPTR;
  pfnNotify : FNPTR;
  pfnClose : FNPTR
}.

(** ** External calls *)

(** The built-in modules of m_modules.h, named after their initializers
    [M_Virt2Phys_Initialize], [M_Phys2Virt_Initialize], ... *)
Inductive BUILTIN :=
| M_Virt2Phys | M_Phys2Virt | M_LdrModules | M_MemMap | M_Status
| M_WinReg | M_PEDump | M_HandleInfo | M_ThreadInfo | M_SysInfo.

Inductive Event :=
| EvLocalAlloc (ok : bool)
| EvLocalFree (pm : PLUGIN_LISTENTRY)
| EvLoadLibrary (path : string) (dwFlags : Z) (h : HMODULE)
| EvFreeLibrary (h : HMODULE)
| EvGetProcAddress (h : HMODULE) (name : string) (pfn : FNPTR)
| EvEnterCriticalSection
| EvLeaveCriticalSection
| EvInitializeBuiltin (m : BUILTIN) (ri : VMMDLL_PLUGIN_REGINFO)
| EvInitializeVmmPlugin (pfn : FNPTR) (ri : VMMDLL_PLUGIN_REGINFO)
| EvList (pfn : FNPTR) (ctx : VMMDLL_PLUGIN_CONTEXT) (pFileList : HANDLE)
| EvRead (pfn : FNPTR) (ctx : VMMDLL_PLUGIN_CONTEXT) (cb : DWORD) (cbOffset : QWORD)
| EvWrite (pfn : FNPTR) (ctx : VMMDLL_PLUGIN_CONTEXT) (pb : list BYTE) (cb : DWORD) (cbOffset : QWORD)
| EvNotify (pfn : FNPTR) (fEvent : DWORD) (pvEvent : PVOID) (cbEvent : DWORD)
| EvClose (pfn : FNPTR).

(** What a plugin initializer does with the registration template it is
    handed: it returns, or it calls [pRegInfo->pfnPluginManager_Register] on a
    record of its choice and goes on according to the answer. *)
Inductive PLUGIN_INIT :=
| Init_Return
| Init_Register (pRegInfo : option VMMDLL_PLUGIN_REGINFO) (k : BOOL -> PLUGIN_INIT).

(** What a read or write capability leaves behind: its status, the value it
    stored through [pcbRead] / [pcbWrite] if it stored one, and for a read the
    bytes it put into the buffer. *)
Record IO_RESULT := mkIo {
  io_nt : NTSTATUS;
  io_pcb : option DWORD;
  io_pb : list BYTE
}.

(** Modelled from the spec: vmmdll.h is not among the sources.  Its constants
    and sizes are the fields of this class, so that what is proved holds for
    every value of them; nothing is assumed of them. *)
Class VmmDllHeader := {
  VMMDLL_PLUGIN_CONTEXT_MAGIC : QWORD;
  VMMDLL_PLUGIN_CONTEXT_VERSION : WORD;
  sizeof_VMMDLL_PLUGIN_CONTEXT : WORD;
  VMMDLL_PLUGIN_REGINFO_MAGIC : QWORD;
  VMMDLL_PLUGIN_REGINFO_VERSION : WORD;
  sizeof_VMMDLL_PLUGIN_REGINFO : WORD;
  VMMDLL_STATUS_SUCCESS : NTSTATUS;
  VMMDLL_STATUS_FILE_INVALID : NTSTATUS
}.

(** The world around the plugin manager. *)
Class Environment := {
  LocalAlloc_succeeds : list Event -> bool;
  LoadLibraryExA_result : string -> Z -> list Event -> HMODULE;
  GetProcAddress_result : HMODULE -> string -> list Event -> FNPTR;
  Util_GetPathDll : HMODULE -> list Event -> string;
  FindFiles : string -> list Event -> list string;
  builtin_initializer : BUILTIN -> VMMDLL_PLUGIN_REGINFO -> list Event -> PLUGIN_INIT;
  plugin_entry_point : FNPTR -> VMMDLL_PLUGIN_REGINFO -> list Event -> PLUGIN_INIT;
  pfnList_result : FNPTR -> VMMDLL_PLUGIN_CONTEXT -> HANDLE -> list Event -> BOOL;
  pfnRead_result : FNPTR -> VMMDLL_PLUGIN_CONTEXT -> DWORD -> QWORD -> list Event -> IO_RESULT;
  pfnWrite_result : FNPTR -> VMMDLL_PLUGIN_CONTEXT -> list BYTE -> DWORD -> QWORD -> list Event -> IO_RESULT
}.

(** ** Global state: [ctxVmm], [ctxMain] and the history of external calls *)

Record World := mkWorld {
  pVmmVfsModuleList : list PLUGIN_LISTENTRY;
  ctxVmm_tpMemoryModel : Z;
  ctxVmm_tpSystem : Z;
  cfg_szPythonPath : string;
  trace : list Event
}.

Definition set_pVmmVfsModuleList (l : list PLUGIN_LISTENTRY) (w : World) : World :=
  mkWorld l (ctxVmm_tpMemoryModel w) (ctxVmm_tpSystem w) (cfg_szPythonPath w) (trace w).

Definition set_szPythonPath (s : string) (w : World) : World :=
  mkWorld (pVmmVfsModuleList w) (ctxVmm_tpMemoryModel w) (ctxVmm_tpSystem w) s (trace w).

Definition log (e : Event) (w : World) : World :=
  mkWorld (pVmmVfsModuleList w) (ctxVmm_tpMemoryModel w) (ctxVmm_tpSystem w)
          (cfg_szPythonPath w) (trace w ++ [e]).

(** ** A state monad over [World] *)

Definition M (A : Type) : Type := World -> A * World.

Definition ret {A} (a : A) : M A := fun w => (a, w).

Definition bind {A B} (m : M A) (f : A -> M B) : M B :=
  fun w => let r := m w in f (fst r) (snd r).

Definition gets {A} (f : World -> A) : M A := fun w => (f w, w).
Definition modify (f : World -> World) : M unit := fun w => (tt, f w).
Definition emit (e : Event) : M unit := modify (log e).
Definition when (b : bool) (m : M unit) : M unit := if b then m else ret tt.

Declare Scope vmm_scope.
Delimit Scope vmm_scope with vmm.
Notation "x <- m ;; k" := (bind m (fun x => k))
  (at level 61, m at next level, right associativity) : vmm_scope.
Notation "m ;; k" := (bind m (fun _ => k))
  (at level 61, right associativity) : vmm_scope.
Local Open Scope vmm_scope.

Section PluginManager.

Context {HDR : VmmDllHeader} {ENV : Environment}.

(** ** Wrappers of the external calls *)

Definition LocalAlloc : M bool :=
  ok <- gets (fun w => LocalAlloc_succeeds (trace w)) ;;
  emit (EvLocalAlloc ok) ;;
  ret ok.

Definition LocalFree (pm : PLUGIN_LISTENTRY) : M unit := emit (EvLocalFree pm).

Definition LoadLibraryExA (path : string) (dwFlags : Z) : M HMODULE :=
  h <- gets (fun w => LoadLibraryExA_result path dwFlags (trace w)) ;;
  emit (EvLoadLibrary path dwFlags h) ;;
  ret h.

(** [LoadLibraryA(p)] is [LoadLibraryExA(p, NULL, 0)]. *)
Definition LoadLibraryA (path : string) : M HMODULE := LoadLibraryExA path 0.

Definition FreeLibrary (h : HMODULE) : M unit := emit (EvFreeLibrary h).

Definition GetProcAddress (h : HMODULE) (name : string) : M FNPTR :=
  pfn <- gets (fun w => GetProcAddress_result h name (trace w)) ;;
  emit (EvGetProcAddress h name pfn) ;;
  ret pfn.

Definition GetPathDll (h : HMODULE) : M string :=
  gets (fun w => Util_GetPathDll h (trace w)).

(** ** MODULES CORE FUNCTIONALITY *)

Definition PluginManager_ContextInitialize (pModule : PLUGIN_LISTENTRY)
    (pProcess : option VMM_PROCESS) (wszPath : LPWSTR) : VMMDLL_PLUGIN_CONTEXT :=
  {| ctx_magic := VMMDLL_PLUGIN_CONTEXT_MAGIC;
     ctx_wVersion := VMMDLL_PLUGIN_CONTEXT_VERSION;
     ctx_wSize := sizeof_VMMDLL_PLUGIN_CONTEXT;
     ctx_dwPID := match pProcess with
                  | Some p => proc_dwPID p
                  | None => 4294967295   (* (DWORD)-1 *)
                  end;
     ctx_pProcess := if nonnull (pm_hDLL pModule) then None else pProcess;
     ctx_wszModule := wszModuleName pModule;
     ctx_wszPath := wszPath |}.

(** [(pProcess && pModule->fProcessModule) || (!pProcess && pModule->fRootModule)] *)
Definition scope_matches (pProcess : option VMM_PROCESS) (pModule : PLUGIN_LISTENTRY) : bool :=
  let given := match pProcess with Some _ => true | None => false end in
  (given && fProcessModule pModule) || (negb given && fRootModule pModule).

(** [wszPath ? wszPath : L""] *)
Definition path_or_empty (wszPath : option LPWSTR) : LPWSTR :=
  match wszPath with Some p => p | None => [] end.

(** The scanning loop shared by List, Read and Write: skip the entries out of
    scope, stop at the first one with the wanted capability and the wanted
    name. *)
Fixpoint dispatch_scan (cap : PLUGIN_LISTENTRY -> FNPTR) (pProcess : option VMM_PROCESS)
    (wszModule : LPWSTR) (pModule : list PLUGIN_LISTENTRY) : option PLUGIN_LISTENTRY :=
  match pModule with
  | [] => None
  | pm :: FLink =>
      if negb (scope_matches pProcess pm) then dispatch_scan cap pProcess wszModule FLink
      else if nonnull (cap pm) && (_wcsicmp wszModule (wszModuleName pm) =? 0) then Some pm
      else dispatch_scan cap pProcess wszModule FLink
  end.

Definition PluginManager_List (pProcess : option VMM_PROCESS) (wszModule : LPWSTR)
    (wszPath : option LPWSTR) (pFileList : HANDLE) : M BOOL :=
  l <- gets pVmmVfsModuleList ;;
  match dispatch_scan pfnList pProcess wszModule l with
  | Some pModule =>
      let ctx := PluginManager_ContextInitialize pModule pProcess (path_or_empty wszPath) in
      result <- gets (fun w => pfnList_result (pfnList pModule) ctx pFileList (trace w)) ;;
      emit (EvList (pfnList pModule) ctx pFileList) ;;
      ret result
  | None => ret FALSE
  end.

(** The status, and what the call left in [*pcbRead] and in the buffer, if
    anything. *)
Definition PluginManager_Read (pProcess : option VMM_PROCESS) (wszModule : LPWSTR)
    (wszPath : option LPWSTR) (cb : DWORD) (cbOffset : QWORD) : M IO_RESULT :=
  l <- gets pVmmVfsModuleList ;;
  match dispatch_scan pfnRead pProcess wszModule l with
  | Some pModule =>
      let ctx := PluginManager_ContextInitialize pModule pProcess (path_or_empty wszPath) in
      nt <- gets (fun w => pfnRead_result (pfnRead pModule) ctx cb cbOffset (trace w)) ;;
      emit (EvRead (pfnRead pModule) ctx cb cbOffset) ;;
      ret nt
  | None => ret (mkIo VMMDLL_STATUS_FILE_INVALID None [])
  end.

Definition PluginManager_Write (pProcess : option VMM_PROCESS) (wszModule : LPWSTR)
    (wszPath : option LPWSTR) (pb : list BYTE) (cb : DWORD) (cbOffset : QWORD) : M IO_RESULT :=
  l <- gets pVmmVfsModuleList ;;
  match dispatch_scan pfnWrite pProcess wszModule l with
  | Some pModule =>
      let ctx := PluginManager_ContextInitialize pModule pProcess (path_or_empty wszPath) in
      nt <- gets (fun w => pfnWrite_result (pfnWrite pModule) ctx pb cb cbOffset (trace w)) ;;
      emit (EvWrite (pfnWrite pModule) ctx pb cb cbOffset) ;;
      ret nt
  | None => ret (mkIo VMMDLL_STATUS_FILE_INVALID None [])
  end.

Fixpoint notify_loop (fEvent : DWORD) (pvEvent : PVOID) (cbEvent : DWORD)
    (pModule : list PLUGIN_LISTENTRY) : M unit :=
  match pModule with
  | [] => ret tt
  | pm :: FLink =>
      when (nonnull (pfnNotify pm)) (emit (EvNotify (pfnNotify pm) fEvent pvEvent cbEvent)) ;;
      notify_loop fEvent pvEvent cbEvent FLink
  end.

Definition PluginManager_Notify (fEvent : DWORD) (pvEvent : PVOID) (cbEvent : DWORD) : M BOOL :=
  l <- gets pVmmVfsModuleList ;;
  notify_loop fEvent pvEvent cbEvent l ;;
  ret TRUE.

Fixpoint module_exists (hDLL : HMODULE) (wszModule : option LPWSTR)
    (pModule : list PLUGIN_LISTENTRY) : BOOL :=
  match pModule with
  | [] => FALSE
  | pm :: FLink =>
      if nonnull hDLL && (hDLL =? pm_hDLL pm) then TRUE
      else if match wszModule with
              | Some s => _wcsicmp s (wszModuleName pm) =? 0
              | None => false
              end then TRUE
      else module_exists hDLL wszModule FLink
  end.

Definition PluginManager_ModuleExists (hDLL : HMODULE) (wszModule : option LPWSTR) : M BOOL :=
  gets (fun w => module_exists hDLL wszModule (pVmmVfsModuleList w)).

Definition PluginManager_Register (pRegInfo : option VMMDLL_PLUGIN_REGINFO) : M BOOL :=
  match pRegInfo with
  | None => ret FALSE
  | Some ri =>
      (* 1: tests if module is valid *)
      if negb (magic ri =? VMMDLL_PLUGIN_REGINFO_MAGIC)
         || (wVersion ri >? VMMDLL_PLUGIN_REGINFO_VERSION) then ret FALSE
      else if negb (nonnull (ri_pfnList (reg_fn ri)))
              || negb (nonnull (hd 0 (ri_wszModuleName (reg_info ri))))
              || (wcslen (ri_wszModuleName (reg_info ri)) >? 31) then ret FALSE
      else
        dup <- PluginManager_ModuleExists NULL (Some (ri_wszModuleName (reg_info ri))) ;;
        if dup then ret FALSE
        else
          ok <- LocalAlloc ;;
          if negb ok then ret FALSE
          else if negb (ri_fRootModule (reg_info ri)) && negb (ri_fProcessModule (reg_info ri))
          then ret FALSE
          else
            (* 2: register module *)
            let pModule :=
              {| pm_hDLL := hDLL ri;
                 wszModuleName := wcsncpy_s 32 (ri_wszModuleName (reg_info ri)) 32;
                 fRootModule := ri_fRootModule (reg_info ri);
                 fProcessModule := ri_fProcessModule (reg_info ri);
                 pfnList := ri_pfnList (reg_fn ri);
                 pfnRead := ri_pfnRead (reg_fn ri);
                 pfnWrite := ri_pfnWrite (reg_fn ri);
                 pfnNotify := ri_pfnNotify (reg_fn ri);
                 pfnClose := ri_pfnClose (reg_fn ri) |} in
            modify (fun w => set_pVmmVfsModuleList (pModule :: pVmmVfsModuleList w) w) ;;
            ret TRUE
  end.

(** The loop of [PluginManager_Close] on the entries still linked. *)
Fixpoint close_loop (l : list PLUGIN_LISTENTRY) : M unit :=
  match l with
  | [] => ret tt
  | pm :: FLink =>
      (* 1: Detach current module list entry from list *)
      modify (set_pVmmVfsModuleList FLink) ;;
      (* 2: Close module callback *)
      when (nonnull (pfnClose pm)) (emit (EvClose (pfnClose pm))) ;;
      (* 3: FreeLibrary (if last module belonging to specific Library) *)
      shared <- PluginManager_ModuleExists (pm_hDLL pm) None ;;
      when (nonnull (pm_hDLL pm) && negb shared) (FreeLibrary (pm_hDLL pm)) ;;
      (* 4: LocalFree this ListEntry *)
      LocalFree pm ;;
      close_loop FLink
  end.

Definition PluginManager_Close : M unit :=
  l <- gets pVmmVfsModuleList ;;
  close_loop l.

(** ** Bring-up *)

Definition PluginManager_Initialize_RegInfoInit (h : HMODULE) : M VMMDLL_PLUGIN_REGINFO :=
  gets (fun w =>
    {| magic := VMMDLL_PLUGIN_REGINFO_MAGIC;
       wVersion := VMMDLL_PLUGIN_REGINFO_VERSION;
       wSize := sizeof_VMMDLL_PLUGIN_REGINFO;
       tpMemoryModel := ctxVmm_tpMemoryModel w;
       tpSystem := ctxVmm_tpSystem w;
       hDLL := h;
       hReservedDllPython3X := NULL;
       hReservedDllPython3 := NULL;
       reg_info := mkRegInfoName [] FALSE FALSE;
       reg_fn := mkRegFn NULL NULL NULL NULL NULL |}).

(** Runs what an initializer does, each of its registration calls going
    through [PluginManager_Register]. *)
Fixpoint run_init (p : PLUGIN_INIT) : M unit :=
  match p with
  | Init_Return => ret tt
  | Init_Register pRegInfo k =>
      b <- PluginManager_Register pRegInfo ;;
      run_init (k b)
  end.

Definition call_builtin (m : BUILTIN) (ri : VMMDLL_PLUGIN_REGINFO) : M unit :=
  p <- gets (fun w => builtin_initializer m ri (trace w)) ;;
  emit (EvInitializeBuiltin m ri) ;;
  run_init p.

Definition call_InitializeVmmPlugin (pfn : FNPTR) (ri : VMMDLL_PLUGIN_REGINFO) : M unit :=
  p <- gets (fun w => plugin_entry_point pfn ri (trace w)) ;;
  emit (EvInitializeVmmPlugin pfn ri) ;;
  run_init p.

Definition is_empty (s : string) : bool :=
  match s with EmptyString => true | String _ _ => false end.

Definition szPYTHON_VERSIONS_SUPPORTED : list string :=
  ["python36.dll"; "python37.dll"; "python38.dll"]%string.

Definition LOAD_WITH_ALTERED_SEARCH_PATH : Z := 8.

(** [for(i ...) { hDllPython3X = LoadLibraryExA(path(i), 0, flags);
    if(hDllPython3X) { break; } }], from the value [h] the variable has before
    the loop. *)
Fixpoint load_first (path : string -> M string) (dwFlags : Z) (names : list string)
    (h : HMODULE) : M HMODULE :=
  match names with
  | [] => ret h
  | n :: rest =>
      p <- path n ;;
      h' <- LoadLibraryExA p dwFlags ;;
      if nonnull h' then ret h' else load_first path dwFlags rest h'
  end.

(** The code after the label [fail]. *)
Definition python_fail (hDllPyPlugin hDllPython3X hDllPython3 : HMODULE) : M unit :=
  when (nonnull hDllPyPlugin) (FreeLibrary hDllPyPlugin) ;;
  when (nonnull hDllPython3X) (FreeLibrary hDllPython3X) ;;
  when (nonnull hDllPython3) (FreeLibrary hDllPython3).

Definition with_python_handles (x3X x3 : HMODULE) (ri : VMMDLL_PLUGIN_REGINFO)
    : VMMDLL_PLUGIN_REGINFO :=
  {| magic := magic ri; wVersion := wVersion ri; wSize := wSize ri;
     tpMemoryModel := tpMemoryModel ri; tpSystem := tpSystem ri; hDLL := hDLL ri;
     hReservedDllPython3X := x3X; hReservedDllPython3 := x3;
     reg_info := reg_info ri; reg_fn := reg_fn ri |}.

Definition PluginManager_Initialize_Python : M unit :=
  (* 1: Locate Python by trying user-defined path *)
  user <- gets cfg_szPythonPath ;;
  h1 <- (if is_empty user then ret NULL
         else load_first (fun n => ret (user ++ "\" ++ n)%string)
                         LOAD_WITH_ALTERED_SEARCH_PATH szPYTHON_VERSIONS_SUPPORTED NULL) ;;
  if negb (is_empty user) && negb (nonnull h1) then
    modify (set_szPythonPath EmptyString)
  else
    (* 2: the python sub-directory relative to the current executable *)
    p2 <- gets cfg_szPythonPath ;;
    h2 <- (if is_empty p2 then
             h <- load_first (fun n => d <- GetPathDll NULL ;; ret (d ++ "python\" ++ n)%string)
                             LOAD_WITH_ALTERED_SEARCH_PATH szPYTHON_VERSIONS_SUPPORTED h1 ;;
             when (nonnull h)
                  (d <- GetPathDll NULL ;; modify (set_szPythonPath (d ++ "python\")%string)) ;;
             ret h
           else ret h1) ;;
    (* 3: Try locate Python by loading from the current path *)
    p3 <- gets cfg_szPythonPath ;;
    h3 <- (if is_empty p3 then
             h <- load_first (fun n => ret n) 0 szPYTHON_VERSIONS_SUPPORTED h2 ;;
             when (nonnull h) (d <- GetPathDll h ;; modify (set_szPythonPath d)) ;;
             ret h
           else ret h2) ;;
    (* 4: Python is not found? *)
    p4 <- gets cfg_szPythonPath ;;
    if is_empty p4 then python_fail NULL h3 NULL
    else
      (* 5: Load Python3.dll as well *)
      d <- GetPathDll h3 ;;
      hDllPython3 <- LoadLibraryExA (d ++ "python3.dll")%string LOAD_WITH_ALTERED_SEARCH_PATH ;;
      (* 6: process 'special status' python plugin manager *)
      hDllPyPlugin <- LoadLibraryA "vmmpycplugin.dll"%string ;;
      if negb (nonnull hDllPyPlugin) then python_fail hDllPyPlugin h3 hDllPython3
      else
        pfn <- GetProcAddress hDllPyPlugin "InitializeVmmPlugin"%string ;;
        if negb (nonnull pfn) then python_fail hDllPyPlugin h3 hDllPython3
        else
          ri <- PluginManager_Initialize_RegInfoInit hDllPyPlugin ;;
          call_InitializeVmmPlugin pfn (with_python_handles h3 hDllPython3 ri) ;;
          registered <- PluginManager_ModuleExists hDllPyPlugin None ;;
          if negb registered then ret tt
          else when (nonnull h3) (FreeLibrary h3).

Definition builtin_modules : list BUILTIN :=
  [M_Virt2Phys; M_Phys2Virt; M_LdrModules; M_MemMap; M_Status;
   M_WinReg; M_PEDump; M_HandleInfo; M_ThreadInfo; M_SysInfo].

(** 1: process built-in modules *)
Fixpoint init_builtins (l : list BUILTIN) : M unit :=
  match l with
  | [] => ret tt
  | m :: rest =>
      ri <- PluginManager_Initialize_RegInfoInit NULL ;;
      call_builtin m ri ;;
      init_builtins rest
  end.

(** 2: process dll modules; the body of the do-while loop on each file the
    search returns. *)
Fixpoint load_plugins (base : string) (files : list string) : M unit :=
  match files with
  | [] => ret tt
  | cFileName :: rest =>
      h <- LoadLibraryExA (base ++ "plugins\" ++ cFileName)%string 0 ;;
      (if negb (nonnull h) then ret tt
       else
         pfn <- GetProcAddress h "InitializeVmmPlugin"%string ;;
         if negb (nonnull pfn) then FreeLibrary h
         else
           ri <- PluginManager_Initialize_RegInfoInit h ;;
           call_InitializeVmmPlugin pfn ri ;;
           registered <- PluginManager_ModuleExists h None ;;
           when (negb registered) (FreeLibrary h)) ;;
      load_plugins base rest
  end.

Definition PluginManager_Initialize : M BOOL :=
  l <- gets pVmmVfsModuleList ;;
  match l with
  | _ :: _ => ret FALSE   (* already initialized *)
  | [] =>
      emit EvEnterCriticalSection ;;
      init_builtins builtin_modules ;;
      base <- GetPathDll NULL ;;
      files <- gets (fun w => FindFiles (base ++ "plugins\m_*.dll")%string (trace w)) ;;
      load_plugins base files ;;
      PluginManager_Initialize_Python ;;
      emit EvLeaveCriticalSection ;;
      ret TRUE
  end.

End PluginManager.

(** ** The notions the specification speaks in *)

Section Notions.

Context {HDR : VmmDllHeader} {ENV : Environment}.

(** The code units of a string before its NUL, and their lower-case folding,
    which is what [_wcsicmp] compares. *)
Fixpoint wcs (s : LPWSTR) : LPWSTR :=
  match s with
  | [] => []
  | c :: t => if c =? 0 then [] else c :: wcs t
  end.

Definition casefold (s : LPWSTR) : LPWSTR := map towlower (wcs s).

(** Some registered entry bears [name], case-insensitively. *)
Definition name_collides (name : LPWSTR) (l : list PLUGIN_LISTENTRY) : bool :=
  existsb (fun pm => _wcsicmp name (wszModuleName pm) =? 0) l.

(** The validation of section 4.1 as the specification words it, the declared
    size being taken as supported when it is the size of the record. *)
Definition validation_as_specified (ri : VMMDLL_PLUGIN_REGINFO)
    (l : list PLUGIN_LISTENTRY) : bool :=
  (magic ri =? VMMDLL_PLUGIN_REGINFO_MAGIC)
  && (wVersion ri <=? VMMDLL_PLUGIN_REGINFO_VERSION)
  && (wSize ri =? sizeof_VMMDLL_PLUGIN_REGINFO)
  && (1 <=? wcslen (ri_wszModuleName (reg_info ri)))
  && (wcslen (ri_wszModuleName (reg_info ri)) <=? 31)
  && nonnull (ri_pfnList (reg_fn ri))
  && (ri_fRootModule (reg_info ri) || ri_fProcessModule (reg_info ri))
  && negb (name_collides (ri_wszModuleName (reg_info ri)) l).

(** The same without the test of the declared size. *)
Definition validation_without_size (ri : VMMDLL_PLUGIN_REGINFO)
    (l : list PLUGIN_LISTENTRY) : bool :=
  (magic ri =? VMMDLL_PLUGIN_REGINFO_MAGIC)
  && (wVersion ri <=? VMMDLL_PLUGIN_REGINFO_VERSION)
  && (1 <=? wcslen (ri_wszModuleName (reg_info ri)))
  && (wcslen (ri_wszModuleName (reg_info ri)) <=? 31)
  && nonnull (ri_pfnList (reg_fn ri))
  && (ri_fRootModule (reg_info ri) || ri_fProcessModule (reg_info ri))
  && negb (name_collides (ri_wszModuleName (reg_info ri)) l).

(** The tests of [PluginManager_Register] that come before the allocation. *)
Definition passes_first_tests (ri : VMMDLL_PLUGIN_REGINFO) (l : list PLUGIN_LISTENTRY) : bool :=
  (magic ri =? VMMDLL_PLUGIN_REGINFO_MAGIC)
  && (wVersion ri <=? VMMDLL_PLUGIN_REGINFO_VERSION)
  && nonnull (ri_pfnList (reg_fn ri))
  && (1 <=? wcslen (ri_wszModuleName (reg_info ri)))
  && (wcslen (ri_wszModuleName (reg_info ri)) <=? 31)
  && negb (name_collides (ri_wszModuleName (reg_info ri)) l).

(** The entry a successful registration of [ri] links in. *)
Definition entry_of (ri : VMMDLL_PLUGIN_REGINFO) : PLUGIN_LISTENTRY :=
  {| pm_hDLL := hDLL ri;
     wszModuleName := wcsncpy_s 32 (ri_wszModuleName (reg_info ri)) 32;
     fRootModule := ri_fRootModule (reg_info ri);
     fProcessModule := ri_fProcessModule (reg_info ri);
     pfnList := ri_pfnList (reg_fn ri);
     pfnRead := ri_pfnRead (reg_fn ri);
     pfnWrite := ri_pfnWrite (reg_fn ri);
     pfnNotify := ri_pfnNotify (reg_fn ri);
     pfnClose := ri_pfnClose (reg_fn ri) |}.

(** The invariant of section 3 on the registry. *)
Fixpoint names_distinct (l : list PLUGIN_LISTENTRY) : bool :=
  match l with
  | [] => true
  | pm :: rest => negb (name_collides (wszModuleName pm) rest) && names_distinct rest
  end.

Definition entry_ok (pm : PLUGIN_LISTENTRY) : bool :=
  (fRootModule pm || fProcessModule pm) && nonnull (pfnList pm).

Definition registry_inv (l : list PLUGIN_LISTENTRY) : bool :=
  names_distinct l && forallb entry_ok l.

(** A computation that keeps the invariant of the registry. *)
Definition preserves {A : Type} (m : M A) : Prop :=
  forall w : World,
    registry_inv (pVmmVfsModuleList w) = true ->
    registry_inv (pVmmVfsModuleList (snd (m w))) = true.

(** A computation that leaves the registry alone. *)
Definition keeps_registry {A : Type} (m : M A) : Prop :=
  forall w : World, pVmmVfsModuleList (snd (m w)) = pVmmVfsModuleList w.

(** The lookup of section 4.2: the first entry in scope that bears the name. *)
Definition lookup (pProcess : option VMM_PROCESS) (wszModule : LPWSTR)
    (l : list PLUGIN_LISTENTRY) : option PLUGIN_LISTENTRY :=
  find (fun pm => scope_matches pProcess pm && (_wcsicmp wszModule (wszModuleName pm) =? 0)) l.

(** The scope rule in the words of section 4.2, on the two flags of an entry:
    an entry registered for the root scope serves the calls without a
    process, an entry registered for the process scope the calls with one. *)
Definition in_scope_as_specified (pProcess : option VMM_PROCESS) (pm : PLUGIN_LISTENTRY)
    : bool :=
  match pProcess with
  | None => fRootModule pm
  | Some _ => fProcessModule pm
  end.

(** The entry section 4.2 sends a call to: the first one whose scope matches
    the call shape and whose name matches the requested one whatever the
    case. *)
Definition lookup_as_specified (pProcess : option VMM_PROCESS) (wszModule : LPWSTR)
    (l : list PLUGIN_LISTENTRY) : option PLUGIN_LISTENTRY :=
  find (fun pm => in_scope_as_specified pProcess pm
                  && (_wcsicmp wszModule (wszModuleName pm) =? 0)) l.

(** What section 4.2 says of the byte count of a read or write: filled in on
    success only, and not on the invalid-target path. *)
Definition count_only_on_success (r : IO_RESULT) : Prop :=
  (io_pcb r <> None -> io_nt r = VMMDLL_STATUS_SUCCESS)
  /\ (io_nt r = VMMDLL_STATUS_FILE_INVALID -> io_pcb r = None).

(** The operations on the registry and the states they reach from a registry
    handle that is null. *)
Inductive Op :=
| Op_Register (pRegInfo : option VMMDLL_PLUGIN_REGINFO)
| Op_List (pProcess : option VMM_PROCESS) (wszModule : LPWSTR) (wszPath : option LPWSTR)
          (pFileList : HANDLE)
| Op_Read (pProcess : option VMM_PROCESS) (wszModule : LPWSTR) (wszPath : option LPWSTR)
          (cb : DWORD) (cbOffset : QWORD)
| Op_Write (pProcess : option VMM_PROCESS) (wszModule : LPWSTR) (wszPath : option LPWSTR)
           (pb : list BYTE) (cb : DWORD) (cbOffset : QWORD)
| Op_Notify (fEvent : DWORD) (pvEvent : PVOID) (cbEvent : DWORD)
| Op_Close
| Op_Initialize.

Definition exec (o : Op) (w : World) : World :=
  match o with
  | Op_Register pRegInfo => snd (PluginManager_Register pRegInfo w)
  | Op_List pProcess wszModule wszPath pFileList =>
      snd (PluginManager_List pProcess wszModule wszPath pFileList w)
  | Op_Read pProcess wszModule wszPath cb cbOffset =>
      snd (PluginManager_Read pProcess wszModule wszPath cb cbOffset w)
  | Op_Write pProcess wszModule wszPath pb cb cbOffset =>
      snd (PluginManager_Write pProcess wszModule wszPath pb cb cbOffset w)
  | Op_Notify fEvent pvEvent cbEvent => snd (PluginManager_Notify fEvent pvEvent cbEvent w)
  | Op_Close => snd (PluginManager_Close w)
  | Op_Initialize => snd (PluginManager_Initialize w)
  end.

Definition is_dispatch (o : Op) : bool :=
  match o with
  | Op_List _ _ _ _ | Op_Read _ _ _ _ _ | Op_Write _ _ _ _ _ _ => true
  | _ => false
  end.

(** The arguments of a dispatch call. *)
Definition op_pProcess (o : Op) : option VMM_PROCESS :=
  match o with
  | Op_List p _ _ _ | Op_Read p _ _ _ _ | Op_Write p _ _ _ _ _ => p
  | _ => None
  end.

Definition op_wszModule (o : Op) : LPWSTR :=
  match o with
  | Op_List _ m _ _ | Op_Read _ m _ _ _ | Op_Write _ m _ _ _ _ => m
  | _ => []
  end.


(** The capability of an entry that a dispatch call asks for. *)
Definition op_capability (o : Op) (pm : PLUGIN_LISTENTRY) : FNPTR :=
  match o with
  | Op_List _ _ _ _ => pfnList pm
  | Op_Read _ _ _ _ _ => pfnRead pm
  | Op_Write _ _ _ _ _ _ => pfnWrite pm
  | _ => NULL
  end.

(** The target module of a dispatch call: the first entry whose scope matches
    the call shape, that bears the requested name and that has the capability
    asked for. *)
Definition dispatch_target (o : Op) (l : list PLUGIN_LISTENTRY) : option PLUGIN_LISTENTRY :=
  find (fun pm => in_scope_as_specified (op_pProcess o) pm
                  && (_wcsicmp (op_wszModule o) (wszModuleName pm) =? 0)
                  && nonnull (op_capability o pm)) l.

(** The call of the function [pfn] with the context [ctx] and the remaining
    arguments of the dispatch call [o]. *)
Definition capability_call (o : Op) (pfn : FNPTR) (ctx : VMMDLL_PLUGIN_CONTEXT)
    : option Event :=
  match o with
  | Op_List _ _ _ pFileList => Some (EvList pfn ctx pFileList)
  | Op_Read _ _ _ cb cbOffset => Some (EvRead pfn ctx cb cbOffset)
  | Op_Write _ _ _ pb cb cbOffset => Some (EvWrite pfn ctx pb cb cbOffset)
  | _ => None
  end.

Inductive reachable : World -> Prop :=
| reachable_start : forall w, pVmmVfsModuleList w = [] -> reachable w
| reachable_step : forall w o, reachable w -> reachable (exec o w).


Definition is_FreeLibrary (h : HMODULE) (e : Event) : bool :=
  match e with EvFreeLibrary h' => h' =? h | _ => false end.

Definition is_LoadLibrary (h : HMODULE) (e : Event) : bool :=
  match e with EvLoadLibrary _ _ h' => h' =? h | _ => false end.

Definition is_Close (e : Event) : bool :=
  match e with EvClose _ => true | _ => false end.

Definition is_LocalFree (e : Event) : bool :=
  match e with EvLocalFree _ => true | _ => false end.

Definition count (p : Event -> bool) (t : list Event) : nat := List.length (filter p t).

(** The events of teardown that belong to the entry [pm] when [rest] is what
    remains linked after it. *)
Definition close_events (pm : PLUGIN_LISTENTRY) (rest : list PLUGIN_LISTENTRY) : list Event :=
  (if nonnull (pfnClose pm) then [EvClose (pfnClose pm)] else [])
  ++ (if nonnull (pm_hDLL pm) && negb (existsb (fun pm' => pm_hDLL pm' =? pm_hDLL pm) rest)
      then [EvFreeLibrary (pm_hDLL pm)] else [])
  ++ [EvLocalFree pm].

Fixpoint teardown_events (l : list PLUGIN_LISTENTRY) : list Event :=
  match l with
  | [] => []
  | pm :: rest => close_events pm rest ++ teardown_events rest
  end.

(** The handles the scripting-bridge phase took and did not give back: what
    it loaded, counted with multiplicity, against what it freed. *)
Definition acquired (h : HMODULE) (t : list Event) : nat := count (is_LoadLibrary h) t.
Definition released (h : HMODULE) (t : list Event) : nat := count (is_FreeLibrary h) t.

End Notions.

(** ** A concrete header and environment to run the code on *)

Module Demo.

Local Open Scope string_scope.

#[export] Instance header : VmmDllHeader := {|
  VMMDLL_PLUGIN_CONTEXT_MAGIC := 0xc0ffee663df9301c;
  VMMDLL_PLUGIN_CONTEXT_VERSION := 1;
  sizeof_VMMDLL_PLUGIN_CONTEXT := 56;
  VMMDLL_PLUGIN_REGINFO_MAGIC := 0xc0ffee663df9301d;
  VMMDLL_PLUGIN_REGINFO_VERSION := 1;
  sizeof_VMMDLL_PLUGIN_REGINFO := 208;
  VMMDLL_STATUS_SUCCESS := 0;
  VMMDLL_STATUS_FILE_INVALID := 0xC0000098
|}.

(** Handles and entry points of the libraries of this environment. *)
Definition hPython36 : HMODULE := 0x7000.
Definition hPython3 : HMODULE := 0x7100.
Definition hPyPlugin : HMODULE := 0x7200.
Definition hGood : HMODULE := 0x6000.
Definition hNoEntry : HMODULE := 0x6100.
Definition pfnPyPluginInit : FNPTR := 0x7210.
Definition pfnGoodInit : FNPTR := 0x6010.

Definition fill (ri : VMMDLL_PLUGIN_REGINFO) (name : LPWSTR) (fRoot fProcess : BOOL)
    (fn : REG_FN) : VMMDLL_PLUGIN_REGINFO :=
  {| magic := magic ri; wVersion := wVersion ri; wSize := wSize ri;
     tpMemoryModel := tpMemoryModel ri; tpSystem := tpSystem ri; hDLL := hDLL ri;
     hReservedDllPython3X := hReservedDllPython3X ri;
     hReservedDllPython3 := hReservedDllPython3 ri;
     reg_info := mkRegInfoName name fRoot fProcess; reg_fn := fn |}.

(** Each built-in registers one module, named by one letter "a" .. "j". *)
Definition builtin_letter (m : BUILTIN) : Z :=
  match m with
  | M_Virt2Phys => 97 | M_Phys2Virt => 98 | M_LdrModules => 99 | M_MemMap => 100
  | M_Status => 101 | M_WinReg => 102 | M_PEDump => 103 | M_HandleInfo => 104
  | M_ThreadInfo => 105 | M_SysInfo => 106
  end.

#[export] Instance env : Environment := {|
  LocalAlloc_succeeds := fun _ => true;
  LoadLibraryExA_result := fun path _ _ =>
    if String.eqb path "C:\py\python36.dll" then hPython36
    else if String.eqb path "C:\py\python3.dll" then hPython3
    else if String.eqb path "vmmpycplugin.dll" then hPyPlugin
    else if String.eqb path "C:\mfs\plugins\m_good.dll" then hGood
    else if String.eqb path "C:\mfs\plugins\m_noentry.dll" then hNoEntry
    else NULL;
  GetProcAddress_result := fun h _ _ =>
    if (h =? hPyPlugin)%Z then pfnPyPluginInit
    else if (h =? hGood)%Z then pfnGoodInit
    else NULL;
  Util_GetPathDll := fun h _ =>
    if (h =? NULL)%Z then "C:\mfs\" else if (h =? hPython36)%Z then "C:\py\" else "";
  FindFiles := fun _ _ => ["m_good.dll"; "m_noentry.dll"; "m_missing.dll"];
  builtin_initializer := fun m ri _ =>
    Init_Register (Some (fill ri [builtin_letter m] true true
                              (mkRegFn 0x1000 0x1001 0 0x1003 0)))
                  (fun _ => Init_Return);
  plugin_entry_point := fun pfn ri _ =>
    if (pfn =? pfnGoodInit)%Z then
      Init_Register (Some (fill ri [71; 111; 111; 100] true false
                                (mkRegFn 0x6020 0x6021 0x6022 0x6023 0x6024)))
                    (fun _ => Init_Return)
    else Init_Return;
  pfnList_result := fun _ _ _ _ => TRUE;
  pfnRead_result := fun _ _ cb _ _ => mkIo 0 (Some cb) [];
  pfnWrite_result := fun _ _ _ cb _ _ => mkIo 0 (Some cb) []
|}.

(** The same environment with a bridge library that lacks its entry point. *)
#[export] Instance env_corrupt_bridge : Environment | 10 := {|
  LocalAlloc_succeeds := @LocalAlloc_succeeds env;
  LoadLibraryExA_result := @LoadLibraryExA_result env;
  GetProcAddress_result := fun h _ _ => if (h =? hGood)%Z then pfnGoodInit else NULL;
  Util_GetPathDll := @Util_GetPathDll env;
  FindFiles := @FindFiles env;
  builtin_initializer := @builtin_initializer env;
  plugin_entry_point := @plugin_entry_point env;
  pfnList_result := @pfnList_result env;
  pfnRead_result := @pfnRead_result env;
  pfnWrite_result := @pfnWrite_result env
|}.

(** The same environment with read and write capabilities that report the
    end of the file: no byte transferred, which they write to the count, and
    a status that is not the success status. *)
Definition STATUS_END_OF_FILE : NTSTATUS := 0xC0000011.

#[export] Instance env_end_of_file : Environment | 10 := {|
  LocalAlloc_succeeds := @LocalAlloc_succeeds env;
  LoadLibraryExA_result := @LoadLibraryExA_result env;
  GetProcAddress_result := @GetProcAddress_result env;
  Util_GetPathDll := @Util_GetPathDll env;
  FindFiles := @FindFiles env;
  builtin_initializer := @builtin_initializer env;
  plugin_entry_point := @plugin_entry_point env;
  pfnList_result := @pfnList_result env;
  pfnRead_result := fun _ _ _ _ _ => mkIo STATUS_END_OF_FILE (Some 0) [];
  pfnWrite_result := fun _ _ _ _ _ _ => mkIo STATUS_END_OF_FILE (Some 0) []
|}.

(** Before bring-up, without and with a user-defined path to Python. *)
Definition w0 : World := mkWorld [] 1 2 "" [].
Definition w_py : World := mkWorld [] 1 2 "C:\py" [].

(** A registration record as a plugin would fill it in. *)
Definition reginfo (name : LPWSTR) (size : WORD) (h : HMODULE) (fRoot fProcess : BOOL)
    (fn : REG_FN) : VMMDLL_PLUGIN_REGINFO :=
  {| magic := 0xc0ffee663df9301d; wVersion := 1; wSize := size;
     tpMemoryModel := 1; tpSystem := 2; hDLL := h;
     hReservedDllPython3X := 0; hReservedDllPython3 := 0;
     reg_info := mkRegInfoName name fRoot fProcess; reg_fn := fn |}.

(** Module "A", process scope only, with every capability but write. *)
Definition modA : VMMDLL_PLUGIN_REGINFO :=
  reginfo [65] 208 0 false true (mkRegFn 0x2000 0x2001 0 0x2003 0x2004).

(** Modules "B" and "C" of one native library, and "a", the name of "A" in
    lower case. *)
Definition modB : VMMDLL_PLUGIN_REGINFO :=
  reginfo [66] 208 0x5000 true true (mkRegFn 0x5010 0x5011 0x5012 0x5013 0x5014).
Definition modC : VMMDLL_PLUGIN_REGINFO :=
  reginfo [67] 208 0x5000 true false (mkRegFn 0x5020 0 0 0 0x5024).
Definition mod_a : VMMDLL_PLUGIN_REGINFO :=
  reginfo [97] 208 0 true true (mkRegFn 0x3000 0 0 0 0).

(** "S" declares a size no version of the record has. *)
Definition modS : VMMDLL_PLUGIN_REGINFO :=
  reginfo [83] 0 0 true false (mkRegFn 0x4000 0 0 0 0).

Definition register_all (l : list VMMDLL_PLUGIN_REGINFO) (w : World) : World :=
  fold_left (fun w ri => snd (PluginManager_Register (Some ri) w)) l w.

(** The registry after "A", "B" and "C" registered in this order. *)
Definition w_abc : World := register_all [modA; modB; modC] w0.

Definition proc : VMM_PROCESS := mkProcess 4.

End Demo.

(** * The rest of pluginmanager.c *)

(** [PluginManager_ListAll]: the loop over the registry, as the module names
    it hands to [VMMDLL_VfsList_AddDirectoryEx], in the order of the calls.
    That function belongs to vmmdll and the file list behind [pFileList] is
    its own, so the calls are what this file contributes to it. *)
Fixpoint list_all_loop (pProcess : option VMM_PROCESS) (pModule : list PLUGIN_LISTENTRY)
    : list LPWSTR :=
  match pModule with
  | [] => []
  | pm :: FLink =>
      if scope_matches pProcess pm
      then wszModuleName pm :: list_all_loop pProcess FLink
      else list_all_loop pProcess FLink
  end.

Definition PluginManager_ListAll (pProcess : option VMM_PROCESS) : M (list LPWSTR) :=
  l <- gets pVmmVfsModuleList ;;
  ret (list_all_loop pProcess l).

(** ** Notions for bring-up *)

(** What a plugin does to the template it is handed before it registers: it
    fills in [reg_info] and [reg_fn] and leaves the rest. *)
Definition fill_in (ri : VMMDLL_PLUGIN_REGINFO) (info : REG_INFO) (fn : REG_FN)
    : VMMDLL_PLUGIN_REGINFO :=
  {| magic := magic ri; wVersion := wVersion ri; wSize := wSize ri;
     tpMemoryModel := tpMemoryModel ri; tpSystem := tpSystem ri; hDLL := hDLL ri;
     hReservedDllPython3X := hReservedDllPython3X ri;
     hReservedDllPython3 := hReservedDllPython3 ri;
     reg_info := info; reg_fn := fn |}.

Definition is_LocalAlloc (e : Event) : bool :=
  match e with EvLocalAlloc _ => true | _ => false end.

Definition is_InitializeVmmPlugin (e : Event) : bool :=
  match e with EvInitializeVmmPlugin _ _ => true | _ => false end.

Definition is_lock (e : Event) : bool :=
  match e with EvEnterCriticalSection | EvLeaveCriticalSection => true | _ => false end.

(** The external calls a capability of a registered module answers. *)
Definition is_capability_call (e : Event) : bool :=
  match e with
  | EvList _ _ _ | EvRead _ _ _ _ | EvWrite _ _ _ _ _ | EvNotify _ _ _ _ | EvClose _ => true
  | _ => false
  end.

(** How bring-up code moves the world: the memory model and system type stay,
    the registry grows at its head, and the history grows by events of the
    class [P]. *)
Definition steps_up (P : Event -> bool) (w w' : World) : Prop :=
  ctxVmm_tpMemoryModel w' = ctxVmm_tpMemoryModel w
  /\ ctxVmm_tpSystem w' = ctxVmm_tpSystem w
  /\ (exists added, pVmmVfsModuleList w' = added ++ pVmmVfsModuleList w)
  /\ (exists new, trace w' = trace w ++ new /\ forallb P new = true).

Definition bringup (P : Event -> bool) {A : Type} (m : M A) : Prop :=
  forall w : World, steps_up P w (snd (m w)).

(** The external calls of bring-up: the heap, the loader and the initializers
    of built-in modules and plugins. *)
Definition is_bringup_call (e : Event) : bool :=
  match e with
  | EvLocalAlloc _ | EvLoadLibrary _ _ _ | EvFreeLibrary _ | EvGetProcAddress _ _ _
  | EvInitializeBuiltin _ _ | EvInitializeVmmPlugin _ _ => true
  | _ => false
  end.

(** The calls of the directory scan and of the scripting-bridge phase. *)
Definition is_loader_call (e : Event) : bool :=
  match e with
  | EvLocalAlloc _ | EvLoadLibrary _ _ _ | EvFreeLibrary _ | EvGetProcAddress _ _ _
  | EvInitializeVmmPlugin _ _ => true
  | _ => false
  end.

(** The calls of the built-in phase. *)
Definition is_builtin_call (e : Event) : bool :=
  match e with
  | EvLocalAlloc _ | EvInitializeBuiltin _ _ => true
  | _ => false
  end.

(** The calls of a plugin entry point and of what it registers. *)
Definition is_entry_call (e : Event) : bool :=
  match e with
  | EvLocalAlloc _ | EvInitializeVmmPlugin _ _ => true
  | _ => false
  end.

(** A stretch of the scripting-bridge phase before the bridge is entered: it
    leaves the registry, the configured path aside, and the entry points
    alone, frees nothing, and of the libraries it asked for it got [got]
    (null handles count for nothing). *)
Definition loads (got : list HMODULE) (w w' : World) : Prop :=
  pVmmVfsModuleList w' = pVmmVfsModuleList w
  /\ (forall x, x <> NULL ->
        acquired x (trace w') = (acquired x (trace w) + count_occ Z.eq_dec got x)%nat)
  /\ (forall x, released x (trace w') = released x (trace w))
  /\ count is_InitializeVmmPlugin (trace w') = count is_InitializeVmmPlugin (trace w).

(** [1] when the two handles are the same, for counting. *)
Definition same_handle (h x : HMODULE) : nat := if h =? x then 1%nat else 0%nat.

(** What the phase has released of what it loaded, from [w] to [w']: as many
    times as it loaded it, for every library. *)
Definition balanced (w w' : World) : Prop :=
  forall x : HMODULE, x <> NULL ->
    (acquired x (trace w') + released x (trace w)
     = acquired x (trace w) + released x (trace w'))%nat.

Section ScriptingBridge.

Context {HDR : VmmDllHeader} {ENV : Environment}.

(** Steps 5 and 6 of [PluginManager_Initialize_Python], from the interpreter
    library [hDllPython3X] that steps 1 to 3 found. *)
Definition python_bridge (hDllPython3X : HMODULE) : M unit :=
  d <- GetPathDll hDllPython3X ;;
  hDllPython3 <- LoadLibraryExA (d ++ "python3.dll")%string LOAD_WITH_ALTERED_SEARCH_PATH ;;
  hDllPyPlugin <- LoadLibraryA "vmmpycplugin.dll"%string ;;
  if negb (nonnull hDllPyPlugin) then python_fail hDllPyPlugin hDllPython3X hDllPython3
  else
    pfn <- GetProcAddress hDllPyPlugin "InitializeVmmPlugin"%string ;;
    if negb (nonnull pfn) then python_fail hDllPyPlugin hDllPython3X hDllPython3
    else
      ri <- PluginManager_Initialize_RegInfoInit hDllPyPlugin ;;
      call_InitializeVmmPlugin pfn (with_python_handles hDllPython3X hDllPython3 ri) ;;
      registered <- PluginManager_ModuleExists hDllPyPlugin None ;;
      if negb registered then ret tt
      else when (nonnull hDllPython3X) (FreeLibrary hDllPython3X).

(** The three places steps 1 to 3 look for the interpreter in. *)
Definition python_path_user (user : string) (n : string) : M string :=
  ret (user ++ "\" ++ n)%string.

Definition python_path_subdir (n : string) : M string :=
  d <- GetPathDll NULL ;; ret (d ++ "python\" ++ n)%string.

Definition python_path_current (n : string) : M string := ret n.

End ScriptingBridge.

(** * Helpers of the Python binding (vmmpyc/vmmpyc.c) *)

(** The part of [VMMDLL_MAP_VADENTRY] the two formatting helpers read.
    [Protection] is the value of the bit field as the helper receives it. *)
Record VMMDLL_MAP_VADENTRY := mkVad {
  Protection : Z;
  fImage : BOOL;
  fFile : BOOL;
  fPageFile : BOOL;
  fPrivateMemory : BOOL;
  fTeb : BOOL;
  fStack : BOOL;
  fHeap : BOOL
}.

(** [(BYTE)x] *)
Definition to_BYTE (x : Z) : Z := x mod 256.

(** [x ? a : b] on an integer. *)
Definition truthy (x : Z) : bool := negb (x =? 0).

(** [VMMPYC_ProcessGetVadMap_Protection]: the six characters it stores into
    [sz[0..5]]. *)
Definition VMMPYC_ProcessGetVadMap_Protection (pVad : VMMDLL_MAP_VADENTRY) : list ascii :=
  let vh := to_BYTE (Z.shiftr (to_BYTE (Protection pVad)) 3) in
  let vl := to_BYTE (Z.land (to_BYTE (Protection pVad)) 7) in
  let sz0 := if fPrivateMemory pVad then "p"%char else "-"%char in
  let sz1 := if truthy (Z.land vh 2)
             then (if truthy (Z.land vh 1) then "m"%char else "g"%char)
             else (if truthy (Z.land vh 1) then "n"%char else "-"%char) in
  let sz2 := if (vl =? 1) || (vl =? 3) || (vl =? 4) || (vl =? 6) then "r"%char else "-"%char in
  let sz3 := if truthy (Z.land vl 4) then "w"%char else "-"%char in
  let sz4 := if truthy (Z.land vl 2) then "x"%char else "-"%char in
  let sz5 := if (vl =? 5) || (vl =? 7) then "c"%char else "-"%char in
  let sz1' := if negb (Ascii.eqb sz1 "-") && Ascii.eqb sz2 "-" && Ascii.eqb sz3 "-"
                 && Ascii.eqb sz4 "-" && Ascii.eqb sz5 "-"
              then "-"%char else sz1 in
  [sz0; sz1'; sz2; sz3; sz4; sz5].

Definition VMMPYC_ProcessGetVadMap_Type (pVad : VMMDLL_MAP_VADENTRY) : string :=
  if fImage pVad then "Image"
  else if fFile pVad then "File "
  else if fHeap pVad then "Heap "
  else if fStack pVad then "Stack"
  else if fTeb pVad then "Teb  "
  else if fPageFile pVad then "Pf   "
  else "     ".

(** ** The file list a directory listing is collected in *)

Definition MAX_PATH : nat := 260.

(** [VMMPYC_VFSLIST]; [FLink] is the tail of the list and [vfs_wszName] what
    the array [wszName] holds before its terminator. *)
Record VMMPYC_VFSLIST := mkVfsEntry {
  vfs_wszName : list WCHAR;
  vfs_fIsDir : BOOL;
  vfs_qwSize : Z
}.

(** [s[i]] for a string given as its characters before the terminator: the
    array is [s ++ [0]], and an index beyond it is outside of the string. *)
Definition char_at (s : list Z) (i : nat) : option Z :=
  if (i <=? List.length s)%nat then Some (nth i s 0) else None.

(** The copy loop of [VMMPYC_VfsList_AddInternal], from index [i] with at most
    [n = MAX_PATH - i] turns left: the code units it stores from [wszName[i]]
    on, or [None] if it reads outside of one of the two strings.  A [char] is
    its signed value and is stored modulo 2^16. *)
Fixpoint copy_name (n i : nat) (szName wszName : option (list Z)) : option (list WCHAR) :=
  match n with
  | O => Some []
  | S n' =>
      match szName with
      | Some s =>
          match char_at s i with
          | None => None
          | Some c =>
              if truthy c then
                option_map (cons (c mod 65536)) (copy_name n' (S i) szName wszName)
              else
                match wszName with
                | None => Some []
                | Some ws =>
                    match char_at ws i with
                    | None => None
                    | Some cw =>
                        if truthy cw then
                          option_map (cons (c mod 65536)) (copy_name n' (S i) szName wszName)
                        else Some []
                    end
                end
          end
      | None =>
          match wszName with
          | None => Some []
          | Some ws =>
              match char_at ws i with
              | None => None
              | Some cw =>
                  if truthy cw then
                    option_map (cons cw) (copy_name n' (S i) szName wszName)
                  else Some []
              end
          end
      end
  end.

(** [VMMPYC_VfsList_AddInternal] on the list [*ppE]; [alloc] is whether
    [LocalAlloc] gives an entry. *)
Definition VMMPYC_VfsList_AddInternal (alloc : bool) (ppE : list VMMPYC_VFSLIST)
    (szName wszName : option (list Z)) (size : Z) (fIsDirectory : BOOL)
    : option (list VMMPYC_VFSLIST) :=
  if alloc then
    match copy_name MAX_PATH 0 szName wszName with
    | Some written =>
        (* pE->wszName[min(i, MAX_PATH - 1)] = 0 *)
        let name := firstn (Nat.min (List.length written) (MAX_PATH - 1)) written in
        Some (mkVfsEntry name fIsDirectory size :: ppE)
    | None => None
    end
  else Some ppE.

Definition VMMPYC_VfsList_AddFile (alloc : bool) (h : list VMMPYC_VFSLIST)
    (szName wszName : option (list Z)) (size : Z) : option (list VMMPYC_VFSLIST) :=
  VMMPYC_VfsList_AddInternal alloc h szName wszName size FALSE.

Definition VMMPYC_VfsList_AddDirectory (alloc : bool) (h : list VMMPYC_VFSLIST)
    (szName wszName : option (list Z)) : option (list VMMPYC_VFSLIST) :=
  VMMPYC_VfsList_AddInternal alloc h szName wszName 0 TRUE.

(** ** Time stamps *)

(** The fields of [SYSTEMTIME] the formatting reads. *)
Record SYSTEMTIME := mkSystemTime {
  wYear : WORD;
  wMonth : WORD;
  wDay : WORD;
  wHour : WORD;
  wMinute : WORD;
  wSecond : WORD
}.

(** The decimal digits of a number that is not negative, most significant
    first; [fuel] bounds their number. *)
Fixpoint digits (fuel : nat) (v : Z) (acc : string) : string :=
  match fuel with
  | O => acc
  | S fuel' =>
      let acc' := String (ascii_of_nat (Z.to_nat (48 + v mod 10))) acc in
      if v / 10 =? 0 then acc' else digits fuel' (v / 10) acc'
  end.

Fixpoint zeros (n : nat) (s : string) : string :=
  match n with O => s | S n' => String "0" (zeros n' s) end.

(** What [sprintf] prints for ["%0<width>i"] and an [int] that is not
    negative: its digits, ten at most, with zeros in front up to the width. *)
Definition fmt_0i (width : nat) (v : Z) : string :=
  let d := digits 10 v EmptyString in
  zeros (width - String.length d) d.

(** [Util_FileTime2String]: the string it leaves in [szTime].
    [FileTimeToSystemTime] is the function of that name of the Windows API. *)
Definition Util_FileTime2String (FileTimeToSystemTime : Z -> SYSTEMTIME) (FileTime : Z)
    : string :=
  if FileTime =? 0 then "                    ***"%string
  else
    let SystemTime := FileTimeToSystemTime FileTime in
    (fmt_0i 4 (wYear SystemTime) ++ "-" ++ fmt_0i 2 (wMonth SystemTime) ++ "-"
     ++ fmt_0i 2 (wDay SystemTime) ++ " " ++ fmt_0i 2 (wHour SystemTime) ++ ":"
     ++ fmt_0i 2 (wMinute SystemTime) ++ ":" ++ fmt_0i 2 (wSecond SystemTime)
     ++ " UTC")%string.

(** * More concrete inputs *)

Module DemoMore.

Import Demo.

Local Open Scope string_scope.

(** An environment in which no library can be loaded. *)
#[export] Instance env_no_library : Environment | 20 := {|
  LocalAlloc_succeeds := @LocalAlloc_succeeds env;
  LoadLibraryExA_result := fun _ _ _ => NULL;
  GetProcAddress_result := @GetProcAddress_result env;
  Util_GetPathDll := @Util_GetPathDll env;
  FindFiles := @FindFiles env;
  builtin_initializer := @builtin_initializer env;
  plugin_entry_point := @plugin_entry_point env;
  pfnList_result := @pfnList_result env;
  pfnRead_result := @pfnRead_result env;
  pfnWrite_result := @pfnWrite_result env
|}.

(** A record of the native library 0x5000 with all capabilities, for root and
    process scope, named "Dd". *)
Definition modD : VMMDLL_PLUGIN_REGINFO :=
  reginfo [68; 100] 208 0x5000 true true (mkRegFn 0x5030 0x5031 0x5032 0x5033 0x5034).

(** A private, guarded page without access, and an image that is also a file,
    mapped execute-writecopy. *)
Definition vad_guard : VMMDLL_MAP_VADENTRY := mkVad 16 false false false true false false false.
Definition vad_image : VMMDLL_MAP_VADENTRY := mkVad 7 true true false false false false false.

(** 2019-03-05 14:07:09 as [FileTimeToSystemTime] would give it, for every
    file time. *)
Definition a_time (_ : Z) : SYSTEMTIME := mkSystemTime 2019 3 5 14 7 9.

(** A name of 300 letters "a". *)
Definition long_name : list Z := repeat 97 300.

End DemoMore.


(** * Properties *)

Section Properties.

Context {HDR : VmmDllHeader} {ENV : Environment}.

(** ** Wide strings *)

#[local] Arguments towlower : simpl never.

Lemma towlower_zero (c : WCHAR) : towlower c = 0 <-> c = 0.
Proof.
  unfold towlower.
  destruct (65 <=? c) eqn:Hlo; destruct (c <=? 90) eqn:Hhi; simpl; lia.
Qed.

Lemma wcsicmp_casefold (a b : LPWSTR) : _wcsicmp a b = 0 <-> casefold a = casefold b.
Proof.
  unfold casefold. revert b.
  induction a as [|c1 t1 IH]; intros [|c2 t2]; simpl.
  - tauto.
  - destruct (Z.eqb_spec c2 0) as [->|Hc2]; simpl.
    + split; auto.
    + split; [intros E; exfalso; apply Hc2, towlower_zero; lia | discriminate].
  - destruct (Z.eqb_spec c1 0) as [->|Hc1]; simpl.
    + split; auto.
    + split; [intros E; exfalso; apply Hc1, towlower_zero; lia | discriminate].
  - pose proof (towlower_zero c1) as Z1. pose proof (towlower_zero c2) as Z2.
    destruct (Z.eqb_spec (towlower c1) (towlower c2)) as [He|Hne].
    + destruct (Z.eqb_spec c1 0) as [->|Hc1].
      * assert (c2 = 0) as -> by (apply Z2; rewrite <- He; reflexivity).
        simpl. tauto.
      * assert (c2 <> 0) by (intros ->; apply Hc1, Z1; rewrite He; reflexivity).
        destruct (Z.eqb_spec c2 0); [contradiction|]. simpl.
        rewrite IH. split; [intros ->; rewrite He; reflexivity | intros E; injection E; auto].
    + destruct (Z.eqb_spec c1 0) as [->|Hc1]; destruct (Z.eqb_spec c2 0) as [->|Hc2]; simpl.
      * contradiction.
      * split; [intros E; exfalso; lia | discriminate].
      * split; [intros E; exfalso; lia | discriminate].
      * split; [intros E; exfalso; lia | intros E; injection E; intros; contradiction].
Qed.

Lemma wcsicmp_eqb_casefold (a b a' b' : LPWSTR) :
  casefold a = casefold a' -> casefold b = casefold b' ->
  (_wcsicmp a b =? 0) = (_wcsicmp a' b' =? 0).
Proof.
  intros Ha Hb.
  destruct (Z.eqb_spec (_wcsicmp a b) 0) as [E|E];
    destruct (Z.eqb_spec (_wcsicmp a' b') 0) as [E'|E']; auto; exfalso.
  - apply E', wcsicmp_casefold. rewrite <- Ha, <- Hb. apply wcsicmp_casefold, E.
  - apply E, wcsicmp_casefold. rewrite Ha, Hb. apply wcsicmp_casefold, E'.
Qed.

Lemma wcslen_nonneg (s : LPWSTR) : 0 <= wcslen s.
Proof. induction s as [|c t IH]; cbn [wcslen]; [lia | destruct (c =? 0); lia]. Qed.

Lemma wcslen_hd (s : LPWSTR) : (1 <=? wcslen s) = nonnull (hd 0 s).
Proof.
  unfold nonnull. destruct s as [|c t]; cbn [wcslen hd]; [reflexivity|].
  pose proof (wcslen_nonneg t).
  destruct (c =? 0); cbn [negb]; [reflexivity | apply Z.leb_le; lia].
Qed.

Lemma wcs_idem (s : LPWSTR) : wcs (wcs s) = wcs s.
Proof.
  induction s as [|c t IH]; simpl; [reflexivity|].
  destruct (c =? 0) eqn:E; simpl; [reflexivity | rewrite E, IH; reflexivity].
Qed.

Lemma wcsncpy_s_fits (n : nat) (s : LPWSTR) (count : nat) :
  wcslen s <= Z.of_nat count -> wcsncpy_s n s count = wcs s.
Proof.
  revert s.
  induction count as [|k IH]; intros [|c t]; cbn [wcslen wcsncpy_s wcs]; intros H;
    try reflexivity.
  - pose proof (wcslen_nonneg t). destruct (c =? 0); [reflexivity | lia].
  - destruct (c =? 0); [reflexivity|]. rewrite IH; [reflexivity | lia].
Qed.

Lemma casefold_wcsncpy_s (s : LPWSTR) :
  wcslen s <= 31 -> casefold (wcsncpy_s 32 s 32) = casefold s.
Proof.
  intros H. unfold casefold.
  rewrite wcsncpy_s_fits by (change (Z.of_nat 32) with 32; lia).
  rewrite wcs_idem. reflexivity.
Qed.

(** ** The registry scans *)

Lemma module_exists_name (name : LPWSTR) (l : list PLUGIN_LISTENTRY) :
  module_exists NULL (Some name) l = name_collides name l.
Proof.
  induction l as [|pm rest IH]; simpl; [reflexivity|].
  rewrite IH. destruct (_wcsicmp name (wszModuleName pm) =? 0); reflexivity.
Qed.

Lemma module_exists_handle (h : HMODULE) (l : list PLUGIN_LISTENTRY) :
  module_exists h None l = nonnull h && existsb (fun pm => pm_hDLL pm =? h) l.
Proof.
  induction l as [|pm rest IH]; simpl; [rewrite andb_false_r; reflexivity|].
  rewrite IH, (Z.eqb_sym (pm_hDLL pm) h).
  destruct (nonnull h); destruct (h =? pm_hDLL pm); reflexivity.
Qed.

Lemma name_collides_casefold (a b : LPWSTR) (l : list PLUGIN_LISTENTRY) :
  casefold a = casefold b -> name_collides a l = name_collides b l.
Proof.
  intros H. unfold name_collides. induction l as [|pm rest IH]; simpl; [reflexivity|].
  rewrite IH, (wcsicmp_eqb_casefold a _ b (wszModuleName pm) H eq_refl). reflexivity.
Qed.

(** ** Registration *)

Lemma Register_run (ri : VMMDLL_PLUGIN_REGINFO) (w : World) :
  PluginManager_Register (Some ri) w =
  if passes_first_tests ri (pVmmVfsModuleList w) then
    if LocalAlloc_succeeds (trace w) then
      if ri_fRootModule (reg_info ri) || ri_fProcessModule (reg_info ri) then
        (TRUE, set_pVmmVfsModuleList (entry_of ri :: pVmmVfsModuleList w)
                 (log (EvLocalAlloc true) w))
      else (FALSE, log (EvLocalAlloc true) w)
    else (FALSE, log (EvLocalAlloc false) w)
  else (FALSE, w).
Proof.
  unfold PluginManager_Register, passes_first_tests.
  rewrite wcslen_hd, (Z.gtb_ltb (wVersion ri)), (Z.ltb_antisym (wVersion ri)).
  rewrite (Z.gtb_ltb (wcslen _)), (Z.ltb_antisym (wcslen _)).
  destruct (magic ri =? VMMDLL_PLUGIN_REGINFO_MAGIC); simpl; [|reflexivity].
  destruct (wVersion ri <=? VMMDLL_PLUGIN_REGINFO_VERSION); simpl; [|reflexivity].
  destruct (nonnull (ri_pfnList (reg_fn ri))); simpl; [|reflexivity].
  destruct (nonnull (hd 0 (ri_wszModuleName (reg_info ri)))); simpl; [|reflexivity].
  destruct (wcslen (ri_wszModuleName (reg_info ri)) <=? 31); simpl; [|reflexivity].
  unfold bind, PluginManager_ModuleExists, gets. simpl.
  rewrite module_exists_name.
  destruct (name_collides (ri_wszModuleName (reg_info ri)) (pVmmVfsModuleList w)); simpl;
    [reflexivity|].
  unfold LocalAlloc, bind, gets, emit, modify, ret. simpl.
  destruct (LocalAlloc_succeeds (trace w)); simpl; [|reflexivity].
  unfold entry_of.
  destruct (ri_fRootModule (reg_info ri)); destruct (ri_fProcessModule (reg_info ri));
    reflexivity.
Qed.

Lemma validation_split (ri : VMMDLL_PLUGIN_REGINFO) (l : list PLUGIN_LISTENTRY) :
  validation_without_size ri l =
  passes_first_tests ri l && (ri_fRootModule (reg_info ri) || ri_fProcessModule (reg_info ri)).
Proof.
  unfold validation_without_size, passes_first_tests.
  destruct (magic ri =? VMMDLL_PLUGIN_REGINFO_MAGIC);
    destruct (wVersion ri <=? VMMDLL_PLUGIN_REGINFO_VERSION);
    destruct (nonnull (ri_pfnList (reg_fn ri)));
    destruct (1 <=? wcslen (ri_wszModuleName (reg_info ri)));
    destruct (wcslen (ri_wszModuleName (reg_info ri)) <=? 31);
    destruct (name_collides (ri_wszModuleName (reg_info ri)) l);
    destruct (ri_fRootModule (reg_info ri));
    destruct (ri_fProcessModule (reg_info ri)); reflexivity.
Qed.

(** C1, as amended.  [PluginManager_Register] returns success exactly when the
    record has the expected magic, a version not above the supported one, a
    module name of 1 to 31 code units, a list capability, one of the two scope
    flags, a name that no registered entry bears case-insensitively, and the
    allocation of the entry succeeds; the declared size is not looked at.  On
    success the new entry is linked in front of the entries already there; on
    failure, and for a null record, the registry is what it was. *)
Theorem PluginManager_Register_validation :
  forall (ri : VMMDLL_PLUGIN_REGINFO) (w : World),
    (fst (PluginManager_Register (Some ri) w) = TRUE <->
       validation_without_size ri (pVmmVfsModuleList w) = true
       /\ LocalAlloc_succeeds (trace w) = true)
    /\ (fst (PluginManager_Register (Some ri) w) = TRUE ->
          pVmmVfsModuleList (snd (PluginManager_Register (Some ri) w))
          = entry_of ri :: pVmmVfsModuleList w)
    /\ (fst (PluginManager_Register (Some ri) w) = FALSE ->
          pVmmVfsModuleList (snd (PluginManager_Register (Some ri) w))
          = pVmmVfsModuleList w)
    /\ PluginManager_Register None w = (FALSE, w).
Proof.
  intros ri w. rewrite Register_run, validation_split.
  destruct (passes_first_tests ri (pVmmVfsModuleList w));
    destruct (LocalAlloc_succeeds (trace w));
    destruct (ri_fRootModule (reg_info ri) || ri_fProcessModule (reg_info ri));
    simpl; repeat split; intros; try reflexivity; try discriminate;
    try match goal with H : _ /\ _ |- _ => destruct H; discriminate end.
Qed.

(** ** Dispatch *)

Lemma name_collides_exists (name : LPWSTR) (l : list PLUGIN_LISTENTRY) :
  name_collides name l = true <->
  exists pm, In pm l /\ casefold name = casefold (wszModuleName pm).
Proof.
  unfold name_collides. rewrite existsb_exists.
  split; intros (pm & Hin & H); exists pm; split; auto.
  - apply wcsicmp_casefold, Z.eqb_eq, H.
  - apply Z.eqb_eq, wcsicmp_casefold, H.
Qed.

Lemma names_distinct_unique (l : list PLUGIN_LISTENTRY) (a b : PLUGIN_LISTENTRY) :
  names_distinct l = true -> In a l -> In b l ->
  casefold (wszModuleName a) = casefold (wszModuleName b) -> a = b.
Proof.
  induction l as [|pm rest IH]; simpl; [contradiction|].
  intros Hd Ha Hb Hab. apply andb_prop in Hd as [Hn Hd].
  apply negb_true_iff in Hn.
  destruct Ha as [<-|Ha]; destruct Hb as [<-|Hb]; auto; exfalso.
  - assert (name_collides (wszModuleName pm) rest = true) as C
      by (apply name_collides_exists; eauto).
    congruence.
  - assert (name_collides (wszModuleName pm) rest = true) as C
      by (apply name_collides_exists; eauto).
    congruence.
Qed.

Lemma dispatch_scan_find (cap : PLUGIN_LISTENTRY -> FNPTR) (pProcess : option VMM_PROCESS)
    (wszModule : LPWSTR) (l : list PLUGIN_LISTENTRY) :
  dispatch_scan cap pProcess wszModule l =
  find (fun pm => scope_matches pProcess pm && nonnull (cap pm)
                  && (_wcsicmp wszModule (wszModuleName pm) =? 0)) l.
Proof.
  induction l as [|pm rest IH]; simpl; [reflexivity|].
  rewrite IH.
  destruct (scope_matches pProcess pm); destruct (nonnull (cap pm));
    destruct (_wcsicmp wszModule (wszModuleName pm) =? 0); reflexivity.
Qed.

(** With the capability present in the entry the lookup finds, the scan stops
    at that entry. *)
Lemma dispatch_scan_capable (cap : PLUGIN_LISTENTRY -> FNPTR) (pProcess : option VMM_PROCESS)
    (wszModule : LPWSTR) (l : list PLUGIN_LISTENTRY) (pm : PLUGIN_LISTENTRY) :
  lookup pProcess wszModule l = Some pm -> nonnull (cap pm) = true ->
  dispatch_scan cap pProcess wszModule l = Some pm.
Proof.
  unfold lookup. induction l as [|x rest IH]; simpl; [discriminate|].
  intros Hf Hc.
  destruct (scope_matches pProcess x); simpl in *; [|auto].
  destruct (_wcsicmp wszModule (wszModuleName x) =? 0); simpl in *.
  - injection Hf as ->. rewrite Hc. reflexivity.
  - rewrite andb_false_r. auto.
Qed.

Lemma dispatch_scan_none (cap : PLUGIN_LISTENTRY -> FNPTR) (pProcess : option VMM_PROCESS)
    (wszModule : LPWSTR) (l : list PLUGIN_LISTENTRY) :
  lookup pProcess wszModule l = None -> dispatch_scan cap pProcess wszModule l = None.
Proof.
  unfold lookup. induction l as [|x rest IH]; simpl; [reflexivity|].
  destruct (scope_matches pProcess x); simpl; [|auto].
  destruct (_wcsicmp wszModule (wszModuleName x) =? 0); simpl; [discriminate|].
  rewrite andb_false_r. auto.
Qed.

(** No entry bears the name: the scan finds nothing, whatever the scope. *)
Lemma dispatch_scan_no_name (cap : PLUGIN_LISTENTRY -> FNPTR) (pProcess : option VMM_PROCESS)
    (wszModule : LPWSTR) (l : list PLUGIN_LISTENTRY) :
  name_collides wszModule l = false -> dispatch_scan cap pProcess wszModule l = None.
Proof.
  unfold name_collides. induction l as [|x rest IH]; simpl; [reflexivity|].
  intros H. apply orb_false_elim in H as [Hx Hr]. rewrite Hx, andb_false_r.
  destruct (negb (scope_matches pProcess x)); auto.
Qed.

(** With the capability absent from the entry the lookup finds, the scan goes
    on and, the names being distinct, finds nothing. *)
Lemma dispatch_scan_incapable (cap : PLUGIN_LISTENTRY -> FNPTR) (pProcess : option VMM_PROCESS)
    (wszModule : LPWSTR) (l : list PLUGIN_LISTENTRY) (pm : PLUGIN_LISTENTRY) :
  names_distinct l = true ->
  lookup pProcess wszModule l = Some pm -> cap pm = NULL ->
  dispatch_scan cap pProcess wszModule l = None.
Proof.
  unfold lookup. induction l as [|x rest IH]; simpl; [discriminate|].
  intros Hd Hf Hc. apply andb_prop in Hd as [Hn Hd]. apply negb_true_iff in Hn.
  destruct (scope_matches pProcess x); simpl in *; [|auto].
  destruct (_wcsicmp wszModule (wszModuleName x) =? 0) eqn:E; simpl in *.
  - injection Hf as ->. unfold nonnull. rewrite Hc. simpl.
    apply dispatch_scan_no_name.
    rewrite (name_collides_casefold wszModule (wszModuleName pm)); [exact Hn|].
    apply wcsicmp_casefold, Z.eqb_eq, E.
  - rewrite andb_false_r. auto.
Qed.

Lemma lookup_some (pProcess : option VMM_PROCESS) (wszModule : LPWSTR)
    (l : list PLUGIN_LISTENTRY) (pm : PLUGIN_LISTENTRY) :
  lookup pProcess wszModule l = Some pm ->
  In pm l /\ scope_matches pProcess pm = true
  /\ casefold wszModule = casefold (wszModuleName pm).
Proof.
  unfold lookup. intros H. apply find_some in H as [Hin H].
  apply andb_prop in H as [Hs Hn].
  repeat split; auto. apply wcsicmp_casefold, Z.eqb_eq, Hn.
Qed.

Lemma lookup_in_scope (pProcess : option VMM_PROCESS) (wszModule : LPWSTR)
    (l : list PLUGIN_LISTENTRY) (pm : PLUGIN_LISTENTRY) :
  names_distinct l = true -> In pm l -> scope_matches pProcess pm = true ->
  _wcsicmp wszModule (wszModuleName pm) = 0 ->
  lookup pProcess wszModule l = Some pm.
Proof.
  intros Hd Hin Hs Hn.
  destruct (lookup pProcess wszModule l) as [pm'|] eqn:E.
  - apply lookup_some in E as (Hin' & _ & Hn').
    f_equal. apply (names_distinct_unique l); auto.
    apply wcsicmp_casefold in Hn. congruence.
  - unfold lookup in E. eapply find_none in E; [|exact Hin].
    simpl in E. rewrite Hs, Hn in E. discriminate.
Qed.

Lemma lookup_out_of_scope (pProcess : option VMM_PROCESS) (wszModule : LPWSTR)
    (l : list PLUGIN_LISTENTRY) (pm : PLUGIN_LISTENTRY) :
  names_distinct l = true -> In pm l -> scope_matches pProcess pm = false ->
  _wcsicmp wszModule (wszModuleName pm) = 0 ->
  lookup pProcess wszModule l = None.
Proof.
  intros Hd Hin Hs Hn.
  destruct (lookup pProcess wszModule l) as [pm'|] eqn:E; [|reflexivity].
  apply lookup_some in E as (Hin' & Hs' & Hn').
  assert (pm' = pm) as ->; [|congruence].
  apply (names_distinct_unique l); auto.
  apply wcsicmp_casefold in Hn. congruence.
Qed.

Lemma entry_ok_pfnList (l : list PLUGIN_LISTENTRY) (pm : PLUGIN_LISTENTRY) :
  forallb entry_ok l = true -> In pm l -> nonnull (pfnList pm) = true.
Proof.
  intros H Hin. rewrite forallb_forall in H. specialize (H pm Hin).
  apply andb_prop in H as [_ H]. exact H.
Qed.

Lemma List_run (pProcess : option VMM_PROCESS) (wszModule : LPWSTR) (wszPath : option LPWSTR)
    (pFileList : HANDLE) (w : World) :
  PluginManager_List pProcess wszModule wszPath pFileList w =
  match dispatch_scan pfnList pProcess wszModule (pVmmVfsModuleList w) with
  | Some pm =>
      let ctx := PluginManager_ContextInitialize pm pProcess (path_or_empty wszPath) in
      (pfnList_result (pfnList pm) ctx pFileList (trace w),
       log (EvList (pfnList pm) ctx pFileList) w)
  | None => (FALSE, w)
  end.
Proof.
  unfold PluginManager_List, bind, gets. simpl.
  destruct (dispatch_scan pfnList pProcess wszModule (pVmmVfsModuleList w)); reflexivity.
Qed.

Lemma Read_run (pProcess : option VMM_PROCESS) (wszModule : LPWSTR) (wszPath : option LPWSTR)
    (cb : DWORD) (cbOffset : QWORD) (w : World) :
  PluginManager_Read pProcess wszModule wszPath cb cbOffset w =
  match dispatch_scan pfnRead pProcess wszModule (pVmmVfsModuleList w) with
  | Some pm =>
      let ctx := PluginManager_ContextInitialize pm pProcess (path_or_empty wszPath) in
      (pfnRead_result (pfnRead pm) ctx cb cbOffset (trace w),
       log (EvRead (pfnRead pm) ctx cb cbOffset) w)
  | None => (mkIo VMMDLL_STATUS_FILE_INVALID None [], w)
  end.
Proof.
  unfold PluginManager_Read, bind, gets. simpl.
  destruct (dispatch_scan pfnRead pProcess wszModule (pVmmVfsModuleList w)); reflexivity.
Qed.

Lemma Write_run (pProcess : option VMM_PROCESS) (wszModule : LPWSTR) (wszPath : option LPWSTR)
    (pb : list BYTE) (cb : DWORD) (cbOffset : QWORD) (w : World) :
  PluginManager_Write pProcess wszModule wszPath pb cb cbOffset w =
  match dispatch_scan pfnWrite pProcess wszModule (pVmmVfsModuleList w) with
  | Some pm =>
      let ctx := PluginManager_ContextInitialize pm pProcess (path_or_empty wszPath) in
      (pfnWrite_result (pfnWrite pm) ctx pb cb cbOffset (trace w),
       log (EvWrite (pfnWrite pm) ctx pb cb cbOffset) w)
  | None => (mkIo VMMDLL_STATUS_FILE_INVALID None [], w)
  end.
Proof.
  unfold PluginManager_Write, bind, gets. simpl.
  destruct (dispatch_scan pfnWrite pProcess wszModule (pVmmVfsModuleList w)); reflexivity.
Qed.

Lemma scope_matches_as_specified (pProcess : option VMM_PROCESS) (pm : PLUGIN_LISTENTRY) :
  scope_matches pProcess pm = in_scope_as_specified pProcess pm.
Proof.
  unfold scope_matches, in_scope_as_specified.
  destruct pProcess; simpl; [apply orb_false_r|reflexivity].
Qed.

Lemma lookup_as_specified_eq (pProcess : option VMM_PROCESS) (wszModule : LPWSTR)
    (l : list PLUGIN_LISTENTRY) :
  lookup_as_specified pProcess wszModule l = lookup pProcess wszModule l.
Proof.
  unfold lookup_as_specified, lookup.
  induction l as [|x rest IH]; simpl; [reflexivity|].
  rewrite IH, scope_matches_as_specified. reflexivity.
Qed.

Lemma dispatch_scan_in (cap : PLUGIN_LISTENTRY -> FNPTR) (pProcess : option VMM_PROCESS)
    (wszModule : LPWSTR) (l : list PLUGIN_LISTENTRY) (pm : PLUGIN_LISTENTRY) :
  dispatch_scan cap pProcess wszModule l = Some pm -> In pm l.
Proof. rewrite dispatch_scan_find. intros H. apply find_some in H. tauto. Qed.

(** The scanning loop stops at the target of the call. *)
Lemma dispatch_target_scan (o : Op) (l : list PLUGIN_LISTENTRY) :
  dispatch_target o l =
  dispatch_scan (op_capability o) (op_pProcess o) (op_wszModule o) l.
Proof.
  rewrite dispatch_scan_find. unfold dispatch_target.
  induction l as [|x rest IH]; simpl; [reflexivity|].
  rewrite IH, scope_matches_as_specified.
  destruct (in_scope_as_specified (op_pProcess o) x);
    destruct (nonnull (op_capability o x));
    destruct (_wcsicmp (op_wszModule o) (wszModuleName x) =? 0); reflexivity.
Qed.

(** C2.  On a registry that satisfies its invariant, [PluginManager_List]
    calls the list capability of the first entry whose scope flag for the
    call shape is set (the root flag for a call without process, the process
    flag for a call with one) and that bears the name case-insensitively,
    once, and returns what it returns; when there is no such entry it returns
    FALSE and changes nothing.  For the entry that bears the name this is
    decided by its two flags alone: with the root flag clear the call without
    process fails and with it set that call reaches the entry; with the
    process flag clear every call with a process fails and with it set every
    such call reaches the entry.  In particular a module registered for the
    process scope only is not found without a process and is called once
    with one, and a module registered for the root scope only the other way
    round. *)
Theorem PluginManager_List_dispatch :
  forall (w : World) (pProcess : option VMM_PROCESS) (wszModule : LPWSTR)
         (wszPath : option LPWSTR) (pFileList : HANDLE),
    registry_inv (pVmmVfsModuleList w) = true ->
    let calls := fun (pm : PLUGIN_LISTENTRY) (q : option VMM_PROCESS) =>
      (pfnList_result (pfnList pm)
         (PluginManager_ContextInitialize pm q (path_or_empty wszPath)) pFileList (trace w),
       log (EvList (pfnList pm)
              (PluginManager_ContextInitialize pm q (path_or_empty wszPath)) pFileList) w) in
    match lookup_as_specified pProcess wszModule (pVmmVfsModuleList w) with
    | Some pm => PluginManager_List pProcess wszModule wszPath pFileList w = calls pm pProcess
    | None => PluginManager_List pProcess wszModule wszPath pFileList w = (FALSE, w)
    end
    /\ (forall pm : PLUGIN_LISTENTRY,
          In pm (pVmmVfsModuleList w) ->
          _wcsicmp wszModule (wszModuleName pm) = 0 ->
          (fRootModule pm = false ->
             PluginManager_List None wszModule wszPath pFileList w = (FALSE, w))
          /\ (fRootModule pm = true ->
                PluginManager_List None wszModule wszPath pFileList w = calls pm None)
          /\ (fProcessModule pm = false ->
                forall p : VMM_PROCESS,
                  PluginManager_List (Some p) wszModule wszPath pFileList w = (FALSE, w))
          /\ (fProcessModule pm = true ->
                forall p : VMM_PROCESS,
                  PluginManager_List (Some p) wszModule wszPath pFileList w
                  = calls pm (Some p))).
Proof.
  intros w pProcess wszModule wszPath pFileList Hinv calls.
  apply andb_prop in Hinv as [Hd Hok].
  assert (forall q, match lookup q wszModule (pVmmVfsModuleList w) with
    | Some pm => PluginManager_List q wszModule wszPath pFileList w = calls pm q
    | None => PluginManager_List q wszModule wszPath pFileList w = (FALSE, w)
    end) as Hgen.
  { intros q. rewrite List_run.
    destruct (lookup q wszModule (pVmmVfsModuleList w)) as [pm|] eqn:E.
    - rewrite (dispatch_scan_capable pfnList q wszModule _ pm E); [reflexivity|].
      apply (entry_ok_pfnList (pVmmVfsModuleList w)); auto.
      apply lookup_some in E. tauto.
    - rewrite (dispatch_scan_none pfnList q wszModule _ E). reflexivity. }
  split; [rewrite lookup_as_specified_eq; apply Hgen|].
  intros pm Hin Hname. repeat split.
  - intros Hf. specialize (Hgen None).
    rewrite <- (scope_matches_as_specified None) in Hf.
    rewrite (lookup_out_of_scope None wszModule _ pm Hd Hin Hf Hname) in Hgen.
    exact Hgen.
  - intros Hf. specialize (Hgen None).
    rewrite <- (scope_matches_as_specified None) in Hf.
    rewrite (lookup_in_scope None wszModule _ pm Hd Hin Hf Hname) in Hgen.
    exact Hgen.
  - intros Hf p. specialize (Hgen (Some p)).
    rewrite <- (scope_matches_as_specified (Some p)) in Hf.
    rewrite (lookup_out_of_scope (Some p) wszModule _ pm Hd Hin Hf Hname) in Hgen.
    exact Hgen.
  - intros Hf p. specialize (Hgen (Some p)).
    rewrite <- (scope_matches_as_specified (Some p)) in Hf.
    rewrite (lookup_in_scope (Some p) wszModule _ pm Hd Hin Hf Hname) in Hgen.
    exact Hgen.
Qed.

(** C3, as amended.  On a registry that satisfies its invariant, a read (a
    write) whose lookup finds a module without the read (write) capability
    returns what it returns when the lookup finds nothing: the invalid-target
    status with the byte count not written and the state unchanged.  When the
    module found has the capability the call is that capability's: one call
    of it, and its status and byte count handed back as they are, whatever
    the status.  So the byte count is written only when the lookup found a
    module with the capability, and then by that capability; the dispatcher
    does not tie it to success. *)
Theorem PluginManager_Read_Write_invalid_target :
  forall (w : World) (pProcess : option VMM_PROCESS) (wszModule : LPWSTR)
         (wszPath : option LPWSTR) (pb : list BYTE) (cb : DWORD) (cbOffset : QWORD),
    registry_inv (pVmmVfsModuleList w) = true ->
    let not_found := (mkIo VMMDLL_STATUS_FILE_INVALID None [], w) in
    let found := lookup_as_specified pProcess wszModule (pVmmVfsModuleList w) in
    let rd := PluginManager_Read pProcess wszModule wszPath cb cbOffset w in
    let wr := PluginManager_Write pProcess wszModule wszPath pb cb cbOffset w in
    (found = None -> rd = not_found /\ wr = not_found)
    /\ (forall pm, found = Some pm ->
          let ctx := PluginManager_ContextInitialize pm pProcess (path_or_empty wszPath) in
          (pfnRead pm = NULL -> rd = not_found)
          /\ (pfnWrite pm = NULL -> wr = not_found)
          /\ (pfnRead pm <> NULL ->
                rd = (pfnRead_result (pfnRead pm) ctx cb cbOffset (trace w),
                      log (EvRead (pfnRead pm) ctx cb cbOffset) w))
          /\ (pfnWrite pm <> NULL ->
                wr = (pfnWrite_result (pfnWrite pm) ctx pb cb cbOffset (trace w),
                      log (EvWrite (pfnWrite pm) ctx pb cb cbOffset) w)))
    /\ (forall n, io_pcb (fst rd) = Some n ->
          exists pm ctx,
            found = Some pm
            /\ pfnRead pm <> NULL
            /\ fst rd = pfnRead_result (pfnRead pm) ctx cb cbOffset (trace w)
            /\ snd rd = log (EvRead (pfnRead pm) ctx cb cbOffset) w)
    /\ (forall n, io_pcb (fst wr) = Some n ->
          exists pm ctx,
            found = Some pm
            /\ pfnWrite pm <> NULL
            /\ fst wr = pfnWrite_result (pfnWrite pm) ctx pb cb cbOffset (trace w)
            /\ snd wr = log (EvWrite (pfnWrite pm) ctx pb cb cbOffset) w).
Proof.
  intros w pProcess wszModule wszPath pb cb cbOffset Hinv not_found found rd wr.
  apply andb_prop in Hinv as [Hd _].
  subst not_found found rd wr. rewrite lookup_as_specified_eq, Read_run, Write_run.
  assert (forall p : Z, p <> NULL -> nonnull p = true) as Hnn
    by (intros p Hp; unfold nonnull; apply negb_true_iff, Z.eqb_neq, Hp).
  split; [|split; [|split]].
  - intros E. rewrite !dispatch_scan_none by exact E. auto.
  - intros pm E ctx. subst ctx. repeat split; intros Hc.
    + rewrite (dispatch_scan_incapable _ pProcess wszModule _ pm Hd E Hc). reflexivity.
    + rewrite (dispatch_scan_incapable _ pProcess wszModule _ pm Hd E Hc). reflexivity.
    + rewrite (dispatch_scan_capable pfnRead pProcess wszModule _ pm E (Hnn _ Hc)).
      reflexivity.
    + rewrite (dispatch_scan_capable pfnWrite pProcess wszModule _ pm E (Hnn _ Hc)).
      reflexivity.
  - intros n.
    destruct (lookup pProcess wszModule (pVmmVfsModuleList w)) as [pm|] eqn:E.
    + destruct (Z.eqb_spec (pfnRead pm) 0) as [Hc|Hc].
      * rewrite (dispatch_scan_incapable _ pProcess wszModule _ pm Hd E Hc). discriminate.
      * rewrite (dispatch_scan_capable pfnRead pProcess wszModule _ pm E (Hnn _ Hc)).
        intros _. eexists pm, _. repeat split; auto.
    + rewrite dispatch_scan_none by exact E. discriminate.
  - intros n.
    destruct (lookup pProcess wszModule (pVmmVfsModuleList w)) as [pm|] eqn:E.
    + destruct (Z.eqb_spec (pfnWrite pm) 0) as [Hc|Hc].
      * rewrite (dispatch_scan_incapable _ pProcess wszModule _ pm Hd E Hc). discriminate.
      * rewrite (dispatch_scan_capable pfnWrite pProcess wszModule _ pm E (Hnn _ Hc)).
        intros _. eexists pm, _. repeat split; auto.
    + rewrite dispatch_scan_none by exact E. discriminate.
Qed.

(** C9.  A dispatch call (List, Read, Write) without target calls nothing.
    With a target it calls once the capability of that target it asks for,
    and the context it hands to it bears the target's name and a
    process-context reference that is null when the target has a native
    library, for every process argument, and the process of the call when
    the target has none; so the reference is non-null only for a target
    without library. *)
Theorem dispatch_context_isolation :
  forall (o : Op) (w : World),
    is_dispatch o = true ->
    match dispatch_target o (pVmmVfsModuleList w) with
    | None => exec o w = w
    | Some pm =>
        exists (ctx : VMMDLL_PLUGIN_CONTEXT) (e : Event),
          capability_call o (op_capability o pm) ctx = Some e
          /\ exec o w = log e w
          /\ ctx_wszModule ctx = wszModuleName pm
          /\ (pm_hDLL pm <> NULL -> ctx_pProcess ctx = None)
          /\ (pm_hDLL pm = NULL -> ctx_pProcess ctx = op_pProcess o)
          /\ (ctx_pProcess ctx <> None -> pm_hDLL pm = NULL)
    end.
Proof.
  assert (forall pm pProcess wszPath,
    (pm_hDLL pm <> NULL ->
     ctx_pProcess (PluginManager_ContextInitialize pm pProcess wszPath) = None)
    /\ (pm_hDLL pm = NULL ->
        ctx_pProcess (PluginManager_ContextInitialize pm pProcess wszPath) = pProcess)
    /\ (ctx_pProcess (PluginManager_ContextInitialize pm pProcess wszPath) <> None ->
        pm_hDLL pm = NULL)) as Hctx.
  { intros pm pProcess wszPath. simpl. unfold nonnull.
    destruct (Z.eqb_spec (pm_hDLL pm) 0); simpl; repeat split; intros; auto; contradiction. }
  intros o w Hd. rewrite dispatch_target_scan.
  destruct o; try discriminate; cbn [exec op_capability op_pProcess op_wszModule].
  - rewrite List_run.
    destruct (dispatch_scan _ pProcess wszModule (pVmmVfsModuleList w)) as [pm|];
      [|reflexivity].
    eexists _, _. split; [reflexivity|].
    split; [reflexivity|]. split; [reflexivity|]. apply Hctx.
  - rewrite Read_run.
    destruct (dispatch_scan _ pProcess wszModule (pVmmVfsModuleList w)) as [pm|];
      [|reflexivity].
    eexists _, _. split; [reflexivity|].
    split; [reflexivity|]. split; [reflexivity|]. apply Hctx.
  - rewrite Write_run.
    destruct (dispatch_scan _ pProcess wszModule (pVmmVfsModuleList w)) as [pm|];
      [|reflexivity].
    eexists _, _. split; [reflexivity|].
    split; [reflexivity|]. split; [reflexivity|]. apply Hctx.
Qed.

(** ** Notification *)

Lemma notify_loop_run (fEvent : DWORD) (pvEvent : PVOID) (cbEvent : DWORD)
    (l : list PLUGIN_LISTENTRY) (w : World) :
  notify_loop fEvent pvEvent cbEvent l w =
  (tt, mkWorld (pVmmVfsModuleList w) (ctxVmm_tpMemoryModel w) (ctxVmm_tpSystem w)
         (cfg_szPythonPath w)
         (trace w ++ map (fun pm => EvNotify (pfnNotify pm) fEvent pvEvent cbEvent)
                         (filter (fun pm => nonnull (pfnNotify pm)) l))).
Proof.
  revert w. induction l as [|pm rest IH]; intros w; simpl.
  - rewrite app_nil_r. destruct w; reflexivity.
  - unfold bind. destruct (nonnull (pfnNotify pm)); simpl; rewrite IH; simpl.
    + rewrite <- app_assoc. reflexivity.
    + reflexivity.
Qed.

(** C4.  [PluginManager_Notify] returns TRUE and calls, in the order of the
    registry, the notify capability of each entry that has one, once for each
    such entry whatever its scope flags, with the event id, the payload and
    its size as it received them; nothing else changes. *)
Theorem PluginManager_Notify_broadcast :
  forall (fEvent : DWORD) (pvEvent : PVOID) (cbEvent : DWORD) (w : World),
    PluginManager_Notify fEvent pvEvent cbEvent w =
    (TRUE, mkWorld (pVmmVfsModuleList w) (ctxVmm_tpMemoryModel w) (ctxVmm_tpSystem w)
             (cfg_szPythonPath w)
             (trace w ++ map (fun pm => EvNotify (pfnNotify pm) fEvent pvEvent cbEvent)
                             (filter (fun pm => nonnull (pfnNotify pm))
                                     (pVmmVfsModuleList w)))).
Proof.
  intros. unfold PluginManager_Notify, bind, gets, ret. simpl.
  rewrite notify_loop_run. reflexivity.
Qed.

(** ** Teardown *)

Lemma close_loop_run (l : list PLUGIN_LISTENTRY) (w : World) :
  close_loop l w =
  (tt, mkWorld (match l with [] => pVmmVfsModuleList w | _ :: _ => [] end)
         (ctxVmm_tpMemoryModel w) (ctxVmm_tpSystem w) (cfg_szPythonPath w)
         (trace w ++ teardown_events l)).
Proof.
  revert w. induction l as [|pm rest IH]; intros w.
  - simpl. rewrite app_nil_r. destruct w; reflexivity.
  - cbn [close_loop teardown_events].
    unfold bind, when, PluginManager_ModuleExists, FreeLibrary, LocalFree, emit, modify,
      gets, ret, close_events.
    cbn [fst snd]. rewrite !module_exists_handle.
    destruct (nonnull (pfnClose pm)); destruct (nonnull (pm_hDLL pm)) eqn:Hh;
      cbn [fst snd set_pVmmVfsModuleList log pVmmVfsModuleList trace andb negb];
      rewrite ?Hh; cbn [andb negb];
      destruct (existsb (fun pm' => pm_hDLL pm' =? pm_hDLL pm) rest);
      cbn [fst snd set_pVmmVfsModuleList log pVmmVfsModuleList trace andb negb
           ctxVmm_tpMemoryModel ctxVmm_tpSystem cfg_szPythonPath];
      rewrite IH;
      cbn [fst snd set_pVmmVfsModuleList log pVmmVfsModuleList trace andb negb
           ctxVmm_tpMemoryModel ctxVmm_tpSystem cfg_szPythonPath app];
      rewrite <- ?app_assoc; cbn [app];
      destruct rest; reflexivity.
Qed.

Lemma count_app (p : Event -> bool) (a b : list Event) :
  count p (a ++ b) = (count p a + count p b)%nat.
Proof. unfold count. rewrite filter_app, length_app. reflexivity. Qed.

Lemma teardown_close_calls (l : list PLUGIN_LISTENTRY) :
  filter is_Close (teardown_events l) =
  map (fun pm => EvClose (pfnClose pm)) (filter (fun pm => nonnull (pfnClose pm)) l).
Proof.
  induction l as [|pm rest IH]; simpl; [reflexivity|].
  unfold close_events. rewrite !filter_app, IH.
  destruct (nonnull (pfnClose pm));
    destruct (nonnull (pm_hDLL pm)
              && negb (existsb (fun pm' => pm_hDLL pm' =? pm_hDLL pm) rest));
    reflexivity.
Qed.

Lemma teardown_frees_entries (l : list PLUGIN_LISTENTRY) :
  filter is_LocalFree (teardown_events l) = map EvLocalFree l.
Proof.
  induction l as [|pm rest IH]; simpl; [reflexivity|].
  unfold close_events. rewrite !filter_app, IH.
  destruct (nonnull (pfnClose pm));
    destruct (nonnull (pm_hDLL pm)
              && negb (existsb (fun pm' => pm_hDLL pm' =? pm_hDLL pm) rest));
    reflexivity.
Qed.

Lemma teardown_releases_once (l : list PLUGIN_LISTENTRY) (h : HMODULE) :
  count (is_FreeLibrary h) (teardown_events l) =
  if nonnull h && existsb (fun pm => pm_hDLL pm =? h) l then 1%nat else 0%nat.
Proof.
  induction l as [|pm rest IH]; simpl.
  - rewrite andb_false_r. reflexivity.
  - rewrite count_app, IH. unfold close_events. rewrite !count_app.
    assert (forall (b : bool) (e : Event), count (is_FreeLibrary h) (if b then [e] else [])
                        = if b && is_FreeLibrary h e then 1%nat else 0%nat) as Hc.
    { intros b e. unfold count. destruct b; simpl; [|reflexivity].
      destruct (is_FreeLibrary h e); reflexivity. }
    rewrite !Hc. cbn [is_FreeLibrary count filter List.length].
    rewrite andb_false_r. cbn [Nat.add].
    destruct (Z.eqb_spec (pm_hDLL pm) h) as [->|Hne].
    + destruct (nonnull h); destruct (existsb (fun pm' => pm_hDLL pm' =? h) rest);
        reflexivity.
    + rewrite andb_false_r. reflexivity.
Qed.

(** C5.  [PluginManager_Close] leaves the registry handle null.  Its external
    calls are, entry after entry from the head: the close capability of the
    entry when it has one, [FreeLibrary] on its library when it has one that no
    entry still linked shares, and the release of the entry.  So every close
    capability is called once for its entry, every entry is freed, and every
    library some entry refers to is released exactly once, no other ever. *)
Theorem PluginManager_Close_teardown :
  forall (w : World),
    PluginManager_Close w =
    (tt, mkWorld [] (ctxVmm_tpMemoryModel w) (ctxVmm_tpSystem w) (cfg_szPythonPath w)
           (trace w ++ teardown_events (pVmmVfsModuleList w)))
    /\ filter is_Close (teardown_events (pVmmVfsModuleList w)) =
       map (fun pm => EvClose (pfnClose pm))
           (filter (fun pm => nonnull (pfnClose pm)) (pVmmVfsModuleList w))
    /\ filter is_LocalFree (teardown_events (pVmmVfsModuleList w)) =
       map EvLocalFree (pVmmVfsModuleList w)
    /\ forall h : HMODULE,
         count (is_FreeLibrary h) (teardown_events (pVmmVfsModuleList w)) =
         if nonnull h && existsb (fun pm => pm_hDLL pm =? h) (pVmmVfsModuleList w)
         then 1%nat else 0%nat.
Proof.
  intros w. split; [|split; [|split]].
  - unfold PluginManager_Close, bind, gets. cbn [fst snd].
    rewrite close_loop_run. destruct (pVmmVfsModuleList w) eqn:E; reflexivity.
  - apply teardown_close_calls.
  - apply teardown_frees_entries.
  - intros h. apply teardown_releases_once.
Qed.

(** ** Bring-up *)

(** C6.  When the registry is not empty, [PluginManager_Initialize] returns
    FALSE, its "already initialized" answer, and the state after the call is
    the state before it: a second bring-up changes nothing. *)
Theorem PluginManager_Initialize_already_initialized :
  forall (w : World),
    pVmmVfsModuleList w <> [] -> PluginManager_Initialize w = (FALSE, w).
Proof.
  intros w H. unfold PluginManager_Initialize, bind, gets. cbn [fst snd].
  destruct (pVmmVfsModuleList w); [contradiction | reflexivity].
Qed.

(** C10.  When the registry handle is null on entry, [PluginManager_Initialize]
    returns TRUE, whatever the built-in initializers, the plugin directory,
    the loader and the scripting-bridge phase do and whatever ends up
    registered. *)
Theorem PluginManager_Initialize_returns_TRUE :
  forall (w : World),
    pVmmVfsModuleList w = [] -> fst (PluginManager_Initialize w) = TRUE.
Proof.
  intros w H. unfold PluginManager_Initialize.
  unfold bind at 1. unfold gets at 1. cbn [fst snd]. rewrite H.
  repeat (unfold bind at 1; cbn [fst snd]).
  reflexivity.
Qed.

(** ** The invariant of the registry *)

Lemma preserves_of_keeps {A : Type} (m : M A) : keeps_registry m -> preserves m.
Proof. intros H w Hinv. rewrite H. exact Hinv. Qed.

Lemma keeps_ret {A : Type} (a : A) : keeps_registry (ret a).
Proof. intros w. reflexivity. Qed.

Lemma keeps_gets {A : Type} (f : World -> A) : keeps_registry (gets f).
Proof. intros w. reflexivity. Qed.

Lemma keeps_emit (e : Event) : keeps_registry (emit e).
Proof. intros w. reflexivity. Qed.

Lemma keeps_set_szPythonPath (s : string) : keeps_registry (modify (set_szPythonPath s)).
Proof. intros w. reflexivity. Qed.

Lemma keeps_bind {A B : Type} (m : M A) (f : A -> M B) :
  keeps_registry m -> (forall a, keeps_registry (f a)) -> keeps_registry (bind m f).
Proof. intros Hm Hf w. unfold bind. cbn. rewrite Hf, Hm. reflexivity. Qed.

Lemma keeps_when (b : bool) (m : M unit) : keeps_registry m -> keeps_registry (when b m).
Proof. intros H. destruct b; [exact H | apply keeps_ret]. Qed.

Lemma preserves_ret {A : Type} (a : A) : preserves (ret a).
Proof. apply preserves_of_keeps, keeps_ret. Qed.

Lemma preserves_bind {A B : Type} (m : M A) (f : A -> M B) :
  preserves m -> (forall a, preserves (f a)) -> preserves (bind m f).
Proof. intros Hm Hf w Hinv. unfold bind. cbn. apply Hf, Hm, Hinv. Qed.

Ltac keeps :=
  repeat first
    [ apply keeps_ret | apply keeps_gets | apply keeps_emit | apply keeps_set_szPythonPath
    | apply keeps_when
    | apply keeps_bind; [|intros ?]
    | match goal with
      | |- keeps_registry (if ?b then _ else _) => destruct b
      end ].

Lemma keeps_LoadLibraryExA (path : string) (dwFlags : Z) :
  keeps_registry (LoadLibraryExA path dwFlags).
Proof. unfold LoadLibraryExA. keeps. Qed.

Lemma keeps_GetProcAddress (h : HMODULE) (name : string) :
  keeps_registry (GetProcAddress h name).
Proof. unfold GetProcAddress. keeps. Qed.

Lemma keeps_python_fail (a b c : HMODULE) : keeps_registry (python_fail a b c).
Proof. unfold python_fail, FreeLibrary. keeps. Qed.

Lemma keeps_load_first (path : string -> M string) (dwFlags : Z) (names : list string)
    (h : HMODULE) :
  (forall n, keeps_registry (path n)) ->
  keeps_registry (load_first path dwFlags names h).
Proof.
  intros Hp. revert h. induction names as [|n rest IH]; intros h; simpl.
  - apply keeps_ret.
  - apply keeps_bind; [apply Hp|intros p].
    apply keeps_bind; [apply keeps_LoadLibraryExA|intros h'].
    destruct (nonnull h'); [apply keeps_ret | apply IH].
Qed.

Lemma registry_inv_cons (ri : VMMDLL_PLUGIN_REGINFO) (l : list PLUGIN_LISTENTRY) :
  passes_first_tests ri l = true ->
  ri_fRootModule (reg_info ri) || ri_fProcessModule (reg_info ri) = true ->
  registry_inv l = true -> registry_inv (entry_of ri :: l) = true.
Proof.
  unfold passes_first_tests, registry_inv. intros Hp Hs Hinv.
  apply andb_prop in Hinv as [Hd Hok].
  repeat (apply andb_prop in Hp as [Hp ?]).
  cbn [names_distinct forallb entry_of wszModuleName].
  rewrite Hd, Hok, !andb_true_r.
  apply andb_true_intro; split.
  - rewrite (name_collides_casefold _ (ri_wszModuleName (reg_info ri))); [assumption|].
    apply casefold_wcsncpy_s. apply Z.leb_le. assumption.
  - unfold entry_ok. cbn. rewrite Hs. assumption.
Qed.

Lemma preserves_Register (pRegInfo : option VMMDLL_PLUGIN_REGINFO) :
  preserves (PluginManager_Register pRegInfo).
Proof.
  intros w Hinv. destruct pRegInfo as [ri|]; [|exact Hinv].
  rewrite Register_run.
  destruct (passes_first_tests ri (pVmmVfsModuleList w)) eqn:Hp; [|exact Hinv].
  destruct (LocalAlloc_succeeds (trace w)); [|exact Hinv].
  destruct (ri_fRootModule (reg_info ri) || ri_fProcessModule (reg_info ri)) eqn:Hs;
    [|exact Hinv].
  cbn. apply registry_inv_cons; assumption.
Qed.

Lemma preserves_run_init (p : PLUGIN_INIT) : preserves (run_init p).
Proof.
  induction p as [|pRegInfo k IH]; simpl.
  - apply preserves_ret.
  - apply preserves_bind; [apply preserves_Register | intros b; apply IH].
Qed.

Ltac preserve :=
  repeat first
    [ apply preserves_ret | apply preserves_Register | apply preserves_run_init
    | apply preserves_of_keeps;
      first [ apply keeps_LoadLibraryExA | apply keeps_GetProcAddress | apply keeps_python_fail
            | apply keeps_gets | apply keeps_emit | apply keeps_set_szPythonPath
            | apply keeps_when; solve [keeps] ]
    | apply preserves_bind; [|intros ?]
    | match goal with
      | |- preserves (if ?b then _ else _) => destruct b
      end ].

Lemma preserves_call_builtin (m : BUILTIN) (ri : VMMDLL_PLUGIN_REGINFO) :
  preserves (call_builtin m ri).
Proof. unfold call_builtin. preserve. Qed.

Lemma preserves_call_InitializeVmmPlugin (pfn : FNPTR) (ri : VMMDLL_PLUGIN_REGINFO) :
  preserves (call_InitializeVmmPlugin pfn ri).
Proof. unfold call_InitializeVmmPlugin. preserve. Qed.

Lemma preserves_init_builtins (l : list BUILTIN) : preserves (init_builtins l).
Proof.
  induction l as [|m rest IH]; simpl; [apply preserves_ret|].
  unfold PluginManager_Initialize_RegInfoInit.
  preserve; first [apply preserves_call_builtin | apply IH].
Qed.

Lemma preserves_load_plugins (base : string) (files : list string) :
  preserves (load_plugins base files).
Proof.
  induction files as [|f rest IH]; simpl; [apply preserves_ret|].
  unfold PluginManager_Initialize_RegInfoInit, PluginManager_ModuleExists, FreeLibrary.
  preserve; try apply preserves_call_InitializeVmmPlugin; try apply IH.
Qed.

Lemma preserves_Initialize_Python : preserves PluginManager_Initialize_Python.
Proof.
  unfold PluginManager_Initialize_Python, PluginManager_Initialize_RegInfoInit,
    PluginManager_ModuleExists, LoadLibraryA, GetPathDll, FreeLibrary.
  preserve; try apply preserves_call_InitializeVmmPlugin;
    try (apply preserves_of_keeps; first [apply keeps_load_first; intros ?; keeps | keeps]).
Qed.

Lemma preserves_Initialize : preserves PluginManager_Initialize.
Proof.
  unfold PluginManager_Initialize, GetPathDll.
  apply preserves_bind; [apply preserves_of_keeps, keeps_gets|intros l].
  destruct l; [|apply preserves_ret].
  apply preserves_bind; [apply preserves_of_keeps, keeps_emit|intros _].
  apply preserves_bind; [apply preserves_init_builtins|intros _].
  apply preserves_bind; [apply preserves_of_keeps, keeps_gets|intros base].
  apply preserves_bind; [apply preserves_of_keeps, keeps_gets|intros files].
  apply preserves_bind; [apply preserves_load_plugins|intros _].
  apply preserves_bind; [apply preserves_Initialize_Python|intros _].
  apply preserves_bind; [apply preserves_of_keeps, keeps_emit|intros _].
  apply preserves_ret.
Qed.

Lemma exec_preserves (o : Op) (w : World) :
  registry_inv (pVmmVfsModuleList w) = true ->
  registry_inv (pVmmVfsModuleList (exec o w)) = true.
Proof.
  intros Hinv. destruct o; simpl.
  - apply preserves_Register, Hinv.
  - rewrite List_run. destruct (dispatch_scan _ _ _ _); exact Hinv.
  - rewrite Read_run. destruct (dispatch_scan _ _ _ _); exact Hinv.
  - rewrite Write_run. destruct (dispatch_scan _ _ _ _); exact Hinv.
  - unfold PluginManager_Notify, bind, gets, ret. cbn [fst snd].
    rewrite notify_loop_run. exact Hinv.
  - unfold PluginManager_Close, bind, gets. cbn [fst snd].
    rewrite close_loop_run. cbn [snd pVmmVfsModuleList].
    destruct (pVmmVfsModuleList w); [exact Hinv | reflexivity].
  - apply preserves_Initialize, Hinv.
Qed.

(** C8.  In every state reached from a null registry handle by registration,
    dispatch, notification, teardown and bring-up, the names of the registered
    modules are pairwise distinct under case-insensitive comparison and every
    entry has one of the two scope flags and a list capability; and each of
    these operations keeps that property. *)
Theorem registry_invariant :
  (forall w : World, reachable w -> registry_inv (pVmmVfsModuleList w) = true)
  /\ (forall (o : Op) (w : World),
        registry_inv (pVmmVfsModuleList w) = true ->
        registry_inv (pVmmVfsModuleList (exec o w)) = true).
Proof.
  split; [|apply exec_preserves].
  intros w H. induction H as [w H|w o _ IH].
  - rewrite H. reflexivity.
  - apply exec_preserves, IH.
Qed.

End Properties.

(** * Further properties of pluginmanager.c *)

Section MoreProperties.

Context {HDR : VmmDllHeader} {ENV : Environment}.

#[local] Arguments towlower : simpl never.

(** ** Enumeration against dispatch *)


Lemma list_all_loop_filter (pProcess : option VMM_PROCESS) (l : list PLUGIN_LISTENTRY) :
  list_all_loop pProcess l = map wszModuleName (filter (scope_matches pProcess) l).
Proof.
  induction l as [|pm rest IH]; simpl; [reflexivity|].
  destruct (scope_matches pProcess pm); simpl; rewrite IH; reflexivity.
Qed.

Lemma ListAll_run (pProcess : option VMM_PROCESS) (w : World) :
  PluginManager_ListAll pProcess w = (list_all_loop pProcess (pVmmVfsModuleList w), w).
Proof. reflexivity. Qed.


Lemma name_collides_false (name : LPWSTR) (l : list PLUGIN_LISTENTRY) (pm : PLUGIN_LISTENTRY) :
  name_collides name l = false -> In pm l -> casefold name <> casefold (wszModuleName pm).
Proof.
  intros H Hin E.
  assert (name_collides name l = true) by (apply name_collides_exists; eauto).
  congruence.
Qed.

(** X2.  On a registry that satisfies its invariant, no two names that
    [PluginManager_ListAll] enumerates are equal up to case: a directory
    listing built from them has no duplicate. *)
Theorem PluginManager_ListAll_no_duplicates :
  forall (w : World) (pProcess : option VMM_PROCESS),
    registry_inv (pVmmVfsModuleList w) = true ->
    NoDup (map casefold (fst (PluginManager_ListAll pProcess w))).
Proof.
  intros w pProcess Hinv. apply andb_prop in Hinv as [Hd _].
  rewrite ListAll_run. cbn [fst].
  induction (pVmmVfsModuleList w) as [|pm rest IH]; simpl; [constructor|].
  simpl in Hd. apply andb_prop in Hd as [Hn Hd]. apply negb_true_iff in Hn.
  destruct (scope_matches pProcess pm); [|auto].
  simpl. constructor; [|auto].
  intros Hin. apply in_map_iff in Hin as (n & En & Hin).
  rewrite list_all_loop_filter in Hin. apply in_map_iff in Hin as (pm' & <- & Hin).
  apply filter_In in Hin as [Hin _].
  apply (name_collides_false _ _ pm' Hn Hin). congruence.
Qed.

(** ** Registration against lookup *)

Lemma Register_success (ri : VMMDLL_PLUGIN_REGINFO) (w : World) :
  fst (PluginManager_Register (Some ri) w) = TRUE ->
  passes_first_tests ri (pVmmVfsModuleList w) = true
  /\ ri_fRootModule (reg_info ri) || ri_fProcessModule (reg_info ri) = true
  /\ snd (PluginManager_Register (Some ri) w)
     = set_pVmmVfsModuleList (entry_of ri :: pVmmVfsModuleList w) (log (EvLocalAlloc true) w).
Proof.
  rewrite Register_run.
  destruct (passes_first_tests ri (pVmmVfsModuleList w)); [|discriminate].
  destruct (LocalAlloc_succeeds (trace w)); [|discriminate].
  destruct (ri_fRootModule (reg_info ri) || ri_fProcessModule (reg_info ri)); [|discriminate].
  auto.
Qed.

Lemma passes_first_tests_name (ri : VMMDLL_PLUGIN_REGINFO) (l : list PLUGIN_LISTENTRY) :
  passes_first_tests ri l = true ->
  nonnull (ri_pfnList (reg_fn ri)) = true
  /\ casefold (wszModuleName (entry_of ri)) = casefold (ri_wszModuleName (reg_info ri)).
Proof.
  unfold passes_first_tests. intros Hp.
  repeat (apply andb_prop in Hp as [Hp ?]).
  split; [assumption|]. apply casefold_wcsncpy_s, Z.leb_le. assumption.
Qed.

Lemma dispatch_scan_head (cap : PLUGIN_LISTENTRY -> FNPTR) (pProcess : option VMM_PROCESS)
    (wszModule : LPWSTR) (pm : PLUGIN_LISTENTRY) (rest : list PLUGIN_LISTENTRY) :
  scope_matches pProcess pm = true -> nonnull (cap pm) = true ->
  casefold wszModule = casefold (wszModuleName pm) ->
  dispatch_scan cap pProcess wszModule (pm :: rest) = Some pm.
Proof.
  intros Hs Hc Hn. simpl. rewrite Hs, Hc.
  apply wcsicmp_casefold in Hn. rewrite Hn. reflexivity.
Qed.

(** X3.  Registration and dispatch round trip: once [PluginManager_Register]
    has accepted a record, a List call in the scope of the record, under any
    spelling of its name that differs by case only, reaches the list
    capability of the record, whatever was registered before; so do Read and
    Write when the record has these capabilities. *)
Theorem PluginManager_Register_then_dispatch :
  forall (ri : VMMDLL_PLUGIN_REGINFO) (w : World) (pProcess : option VMM_PROCESS)
         (wszModule : LPWSTR) (wszPath : option LPWSTR),
    fst (PluginManager_Register (Some ri) w) = TRUE ->
    scope_matches pProcess (entry_of ri) = true ->
    _wcsicmp wszModule (ri_wszModuleName (reg_info ri)) = 0 ->
    let w1 := snd (PluginManager_Register (Some ri) w) in
    let ctx := PluginManager_ContextInitialize (entry_of ri) pProcess (path_or_empty wszPath) in
    (forall pFileList : HANDLE,
       PluginManager_List pProcess wszModule wszPath pFileList w1 =
       (pfnList_result (ri_pfnList (reg_fn ri)) ctx pFileList (trace w1),
        log (EvList (ri_pfnList (reg_fn ri)) ctx pFileList) w1))
    /\ (ri_pfnRead (reg_fn ri) <> NULL ->
        forall (cb : DWORD) (cbOffset : QWORD),
          PluginManager_Read pProcess wszModule wszPath cb cbOffset w1 =
          (pfnRead_result (ri_pfnRead (reg_fn ri)) ctx cb cbOffset (trace w1),
           log (EvRead (ri_pfnRead (reg_fn ri)) ctx cb cbOffset) w1))
    /\ (ri_pfnWrite (reg_fn ri) <> NULL ->
        forall (pb : list BYTE) (cb : DWORD) (cbOffset : QWORD),
          PluginManager_Write pProcess wszModule wszPath pb cb cbOffset w1 =
          (pfnWrite_result (ri_pfnWrite (reg_fn ri)) ctx pb cb cbOffset (trace w1),
           log (EvWrite (ri_pfnWrite (reg_fn ri)) ctx pb cb cbOffset) w1)).
Proof.
  intros ri w pProcess wszModule wszPath Hok Hs Hn w1 ctx.
  apply Register_success in Hok as (Hp & _ & Hw).
  apply passes_first_tests_name in Hp as [Hl Hcf].
  assert (casefold wszModule = casefold (wszModuleName (entry_of ri))) as Hn'
    by (rewrite Hcf; apply wcsicmp_casefold, Hn).
  assert (pVmmVfsModuleList w1 = entry_of ri :: pVmmVfsModuleList w) as Hreg
    by (subst w1; rewrite Hw; reflexivity).
  split; [|split].
  - intros pFileList. rewrite List_run, Hreg.
    rewrite (dispatch_scan_head pfnList); auto.
  - intros Hc cb cbOffset. rewrite Read_run, Hreg.
    rewrite (dispatch_scan_head pfnRead); auto.
    unfold nonnull. apply negb_true_iff, Z.eqb_neq, Hc.
  - intros Hc pb cb cbOffset. rewrite Write_run, Hreg.
    rewrite (dispatch_scan_head pfnWrite); auto.
    unfold nonnull. apply negb_true_iff, Z.eqb_neq, Hc.
Qed.

(** X4.  [PluginManager_ModuleExists] after a registration that succeeded
    answers TRUE for any spelling of the name that differs by case only, and
    for the library of the record when it has one; asked about neither a
    library nor a name it answers FALSE on every registry. *)
Theorem PluginManager_ModuleExists_after_Register :
  forall (ri : VMMDLL_PLUGIN_REGINFO) (w : World) (wszModule : LPWSTR),
    fst (PluginManager_Register (Some ri) w) = TRUE ->
    _wcsicmp wszModule (ri_wszModuleName (reg_info ri)) = 0 ->
    let w1 := snd (PluginManager_Register (Some ri) w) in
    PluginManager_ModuleExists NULL (Some wszModule) w1 = (TRUE, w1)
    /\ (hDLL ri <> NULL -> PluginManager_ModuleExists (hDLL ri) None w1 = (TRUE, w1))
    /\ PluginManager_ModuleExists NULL None w1 = (FALSE, w1)
    /\ PluginManager_ModuleExists NULL None w = (FALSE, w).
Proof.
  intros ri w wszModule Hok Hn w1.
  apply Register_success in Hok as (Hp & _ & Hw).
  apply passes_first_tests_name in Hp as [_ Hcf].
  assert (pVmmVfsModuleList w1 = entry_of ri :: pVmmVfsModuleList w) as Hreg
    by (subst w1; rewrite Hw; reflexivity).
  unfold PluginManager_ModuleExists, gets. rewrite Hreg.
  split; [|split; [|split]].
  - f_equal. simpl.
    replace (_wcsicmp wszModule (wcsncpy_s 32 (ri_wszModuleName (reg_info ri)) 32) =? 0)
      with true; [reflexivity|].
    symmetry. apply Z.eqb_eq, wcsicmp_casefold.
    change (casefold wszModule = casefold (wszModuleName (entry_of ri))).
    rewrite Hcf. apply wcsicmp_casefold, Hn.
  - intros Hh. f_equal. rewrite module_exists_handle. unfold nonnull.
    apply Z.eqb_neq in Hh. unfold NULL in Hh. rewrite Hh.
    simpl. rewrite Z.eqb_refl. reflexivity.
  - f_equal. rewrite module_exists_handle. reflexivity.
  - f_equal. rewrite module_exists_handle. reflexivity.
Qed.

(** X5.  A module that has just registered is the first that
    [PluginManager_ListAll] enumerates for the call shapes of its scope,
    under its name as registered (the code units before the NUL); the rest of
    the enumeration is what it was, and a registration that fails changes
    nothing of it. *)
Theorem PluginManager_ListAll_after_Register :
  forall (ri : VMMDLL_PLUGIN_REGINFO) (w : World) (pProcess : option VMM_PROCESS),
    let w1 := snd (PluginManager_Register (Some ri) w) in
    (fst (PluginManager_Register (Some ri) w) = TRUE ->
     fst (PluginManager_ListAll pProcess w1)
     = if scope_matches pProcess (entry_of ri)
       then wcs (ri_wszModuleName (reg_info ri)) :: fst (PluginManager_ListAll pProcess w)
       else fst (PluginManager_ListAll pProcess w))
    /\ (fst (PluginManager_Register (Some ri) w) = FALSE ->
        fst (PluginManager_ListAll pProcess w1) = fst (PluginManager_ListAll pProcess w)).
Proof.
  intros ri w pProcess w1. subst w1. rewrite !ListAll_run. cbn [fst]. split.
  - intros Hok. apply Register_success in Hok as (Hp & _ & ->).
    cbn [pVmmVfsModuleList set_pVmmVfsModuleList list_all_loop].
    destruct (scope_matches pProcess (entry_of ri)); [|reflexivity].
    f_equal. cbn [entry_of wszModuleName].
    apply wcsncpy_s_fits. change (Z.of_nat 32) with 32.
    unfold passes_first_tests in Hp. repeat (apply andb_prop in Hp as [Hp ?]).
    assert (wcslen (ri_wszModuleName (reg_info ri)) <= 31) by (apply Z.leb_le; assumption).
    lia.
  - rewrite Register_run.
    destruct (passes_first_tests ri (pVmmVfsModuleList w)); [|reflexivity].
    destruct (LocalAlloc_succeeds (trace w)); [|reflexivity].
    destruct (ri_fRootModule (reg_info ri) || ri_fProcessModule (reg_info ri));
      [discriminate | reflexivity].
Qed.

(** ** The context of a dispatch *)




(** ** After teardown *)

Lemma Close_run (w : World) :
  PluginManager_Close w =
  (tt, mkWorld [] (ctxVmm_tpMemoryModel w) (ctxVmm_tpSystem w) (cfg_szPythonPath w)
         (trace w ++ teardown_events (pVmmVfsModuleList w))).
Proof.
  unfold PluginManager_Close, bind, gets. cbn [fst snd].
  rewrite close_loop_run. destruct (pVmmVfsModuleList w); reflexivity.
Qed.

Lemma dispatch_scan_nil (cap : PLUGIN_LISTENTRY -> FNPTR) (pProcess : option VMM_PROCESS)
    (wszModule : LPWSTR) : dispatch_scan cap pProcess wszModule [] = None.
Proof. reflexivity. Qed.

(** X7.  After [PluginManager_Close] no module is reachable any more: List
    returns FALSE and Read and Write the invalid-target status for every
    process, name and path, a notification reaches nobody, the enumeration is
    empty, no library and no name exists, and none of these calls changes the
    state or calls anything. *)
Theorem nothing_reachable_after_Close :
  forall (w : World) (pProcess : option VMM_PROCESS) (wszModule : LPWSTR)
         (wszPath : option LPWSTR) (pFileList : HANDLE) (pb : list BYTE) (cb : DWORD)
         (cbOffset : QWORD) (fEvent : DWORD) (pvEvent : PVOID) (cbEvent : DWORD)
         (h : HMODULE),
    let w' := snd (PluginManager_Close w) in
    PluginManager_List pProcess wszModule wszPath pFileList w' = (FALSE, w')
    /\ PluginManager_Read pProcess wszModule wszPath cb cbOffset w'
       = (mkIo VMMDLL_STATUS_FILE_INVALID None [], w')
    /\ PluginManager_Write pProcess wszModule wszPath pb cb cbOffset w'
       = (mkIo VMMDLL_STATUS_FILE_INVALID None [], w')
    /\ PluginManager_Notify fEvent pvEvent cbEvent w' = (TRUE, w')
    /\ PluginManager_ListAll pProcess w' = ([], w')
    /\ PluginManager_ModuleExists h (Some wszModule) w' = (FALSE, w').
Proof.
  intros. subst w'. rewrite Close_run. cbn [snd].
  rewrite List_run, Read_run, Write_run, ListAll_run.
  cbn [pVmmVfsModuleList dispatch_scan list_all_loop].
  repeat split.
Qed.

(** X8.  Teardown is idempotent and re-enables bring-up: a second
    [PluginManager_Close] calls nothing and changes nothing, and
    [PluginManager_Initialize] after a teardown is not turned away as already
    initialized, whatever was registered before. *)
Theorem Close_twice_and_reinitialize :
  forall (w : World),
    let w' := snd (PluginManager_Close w) in
    PluginManager_Close w' = (tt, w')
    /\ fst (PluginManager_Initialize w') = TRUE
    /\ pVmmVfsModuleList w' = [].
Proof.
  intros w w'. subst w'. rewrite !Close_run. cbn [snd pVmmVfsModuleList teardown_events
    ctxVmm_tpMemoryModel ctxVmm_tpSystem cfg_szPythonPath trace].
  rewrite app_nil_r. split; [reflexivity|]. split; [|reflexivity].
  unfold PluginManager_Initialize.
  unfold bind at 1. unfold gets at 1. cbn [fst snd pVmmVfsModuleList].
  repeat (unfold bind at 1; cbn [fst snd]).
  reflexivity.
Qed.

(** ** The registration template *)

(** X9.  The template [PluginManager_Initialize_RegInfoInit] prepares always
    passes the tests of magic and version, whatever the header constants: as
    it is, it is rejected without any effect (it has no name and no list
    capability); filled in by a plugin, it is accepted exactly when the name
    has 1 to 31 code units and collides with none, the list capability and a
    scope flag are there and the allocation succeeds, and the entry then
    belongs to the library the template was prepared for. *)
Theorem RegInfoInit_template_registers :
  forall (h : HMODULE) (w : World) (info : REG_INFO) (fn : REG_FN),
    let ri := fst (PluginManager_Initialize_RegInfoInit h w) in
    snd (PluginManager_Initialize_RegInfoInit h w) = w
    /\ PluginManager_Register (Some ri) w = (FALSE, w)
    /\ (fst (PluginManager_Register (Some (fill_in ri info fn)) w) = TRUE <->
          nonnull (ri_pfnList fn)
          && (1 <=? wcslen (ri_wszModuleName info))
          && (wcslen (ri_wszModuleName info) <=? 31)
          && (ri_fRootModule info || ri_fProcessModule info)
          && negb (name_collides (ri_wszModuleName info) (pVmmVfsModuleList w)) = true
          /\ LocalAlloc_succeeds (trace w) = true)
    /\ (fst (PluginManager_Register (Some (fill_in ri info fn)) w) = TRUE ->
          exists pm rest,
            pVmmVfsModuleList (snd (PluginManager_Register (Some (fill_in ri info fn)) w))
            = pm :: rest
            /\ pm_hDLL pm = h /\ rest = pVmmVfsModuleList w).
Proof.
  intros h w info fn ri. subst ri.
  unfold PluginManager_Initialize_RegInfoInit, gets. cbn [fst snd].
  split; [reflexivity|]. rewrite !Register_run.
  unfold passes_first_tests, fill_in, entry_of.
  cbn [magic wVersion reg_info reg_fn ri_pfnList ri_wszModuleName ri_fRootModule
       ri_fProcessModule hDLL wcslen].
  rewrite Z.eqb_refl, Z.leb_refl. cbn [andb nonnull].
  split; [reflexivity|].
  destruct (nonnull (ri_pfnList fn));
    destruct (1 <=? wcslen (ri_wszModuleName info));
    destruct (wcslen (ri_wszModuleName info) <=? 31);
    destruct (name_collides (ri_wszModuleName info) (pVmmVfsModuleList w));
    destruct (LocalAlloc_succeeds (trace w));
    destruct (ri_fRootModule info || ri_fProcessModule info);
    cbn [andb negb fst snd]; split;
    try (split; [discriminate | intros [? ?]; discriminate]);
    try discriminate;
    try (split; [intros _; split; reflexivity | reflexivity]).
  intros _. eexists _, _. cbn [snd pVmmVfsModuleList set_pVmmVfsModuleList].
  split; [reflexivity|]. split; reflexivity.
Qed.

(** ** How bring-up moves the world *)

Lemma steps_up_refl (P : Event -> bool) (w : World) : steps_up P w w.
Proof.
  repeat split; [exists []; reflexivity | exists []; rewrite app_nil_r; auto].
Qed.

Lemma steps_up_trans (P : Event -> bool) (w w1 w2 : World) :
  steps_up P w w1 -> steps_up P w1 w2 -> steps_up P w w2.
Proof.
  intros (M1 & S1 & (a1 & R1) & (n1 & T1 & F1)) (M2 & S2 & (a2 & R2) & (n2 & T2 & F2)).
  repeat split; try congruence.
  - exists (a2 ++ a1). rewrite R2, R1, app_assoc. reflexivity.
  - exists (n1 ++ n2). rewrite T2, T1, app_assoc, forallb_app, F1, F2. auto.
Qed.

Lemma steps_up_weaken (P Q : Event -> bool) (w w' : World) :
  (forall e, P e = true -> Q e = true) -> steps_up P w w' -> steps_up Q w w'.
Proof.
  intros HPQ (M1 & S1 & R1 & (n1 & T1 & F1)). repeat split; auto.
  exists n1. split; [exact T1|].
  rewrite forallb_forall in *. auto.
Qed.

Lemma steps_up_log (P : Event -> bool) (e : Event) (w : World) :
  P e = true -> steps_up P w (log e w).
Proof.
  intros H. repeat split; [exists []; reflexivity|].
  exists [e]. simpl. rewrite H. auto.
Qed.

Lemma bringup_ret (P : Event -> bool) {A : Type} (a : A) : bringup P (ret a).
Proof. intros w. apply steps_up_refl. Qed.

Lemma bringup_gets (P : Event -> bool) {A : Type} (f : World -> A) : bringup P (gets f).
Proof. intros w. apply steps_up_refl. Qed.

Lemma bringup_emit (P : Event -> bool) (e : Event) : P e = true -> bringup P (emit e).
Proof. intros H w. apply steps_up_log, H. Qed.

Lemma bringup_set_szPythonPath (P : Event -> bool) (s : string) :
  bringup P (modify (set_szPythonPath s)).
Proof.
  intros w. repeat split; [exists []; reflexivity | exists []; simpl; rewrite app_nil_r; auto].
Qed.

Lemma bringup_bind (P : Event -> bool) {A B : Type} (m : M A) (f : A -> M B) :
  bringup P m -> (forall a, bringup P (f a)) -> bringup P (bind m f).
Proof.
  intros Hm Hf w. unfold bind. cbn.
  eapply steps_up_trans; [apply Hm | apply Hf].
Qed.

Lemma bringup_when (P : Event -> bool) (b : bool) (m : M unit) :
  bringup P m -> bringup P (when b m).
Proof. intros H. destruct b; [exact H | apply bringup_ret]. Qed.

Lemma bringup_weaken (P Q : Event -> bool) {A : Type} (m : M A) :
  (forall e, P e = true -> Q e = true) -> bringup P m -> bringup Q m.
Proof. intros HPQ H w. eapply steps_up_weaken; [exact HPQ | apply H]. Qed.

Lemma bringup_Register (pRegInfo : option VMMDLL_PLUGIN_REGINFO) :
  bringup is_LocalAlloc (PluginManager_Register pRegInfo).
Proof.
  intros w. destruct pRegInfo as [ri|]; [|apply steps_up_refl].
  rewrite Register_run.
  destruct (passes_first_tests ri (pVmmVfsModuleList w)); [|apply steps_up_refl].
  destruct (LocalAlloc_succeeds (trace w)); [|apply steps_up_log; reflexivity].
  destruct (ri_fRootModule (reg_info ri) || ri_fProcessModule (reg_info ri));
    [|apply steps_up_log; reflexivity].
  cbn [snd]. repeat split.
  - exists [entry_of ri]. reflexivity.
  - exists [EvLocalAlloc true]. split; reflexivity.
Qed.

Lemma bringup_run_init (p : PLUGIN_INIT) : bringup is_LocalAlloc (run_init p).
Proof.
  induction p as [|pRegInfo k IH]; simpl.
  - apply bringup_ret.
  - apply bringup_bind; [apply bringup_Register | intros b; apply IH].
Qed.

Lemma bringup_call_builtin (m : BUILTIN) (ri : VMMDLL_PLUGIN_REGINFO) :
  bringup is_builtin_call (call_builtin m ri).
Proof.
  unfold call_builtin.
  apply bringup_bind; [apply bringup_gets|intros p].
  apply bringup_bind; [apply bringup_emit; reflexivity|intros _].
  apply (bringup_weaken is_LocalAlloc); [|apply bringup_run_init].
  intros [] H; try discriminate; reflexivity.
Qed.

Lemma bringup_call_InitializeVmmPlugin (pfn : FNPTR) (ri : VMMDLL_PLUGIN_REGINFO) :
  bringup is_entry_call (call_InitializeVmmPlugin pfn ri).
Proof.
  unfold call_InitializeVmmPlugin.
  apply bringup_bind; [apply bringup_gets|intros p].
  apply bringup_bind; [apply bringup_emit; reflexivity|intros _].
  apply (bringup_weaken is_LocalAlloc); [|apply bringup_run_init].
  intros [] H; try discriminate; reflexivity.
Qed.

Lemma entry_call_loader (e : Event) : is_entry_call e = true -> is_loader_call e = true.
Proof. destruct e; simpl; auto. Qed.

Lemma bringup_LoadLibraryExA (path : string) (dwFlags : Z) :
  bringup is_loader_call (LoadLibraryExA path dwFlags).
Proof.
  unfold LoadLibraryExA.
  apply bringup_bind; [apply bringup_gets|intros h].
  apply bringup_bind; [apply bringup_emit; reflexivity|intros _]. apply bringup_ret.
Qed.

Lemma bringup_GetProcAddress (h : HMODULE) (name : string) :
  bringup is_loader_call (GetProcAddress h name).
Proof.
  unfold GetProcAddress.
  apply bringup_bind; [apply bringup_gets|intros pfn].
  apply bringup_bind; [apply bringup_emit; reflexivity|intros _]. apply bringup_ret.
Qed.

Lemma bringup_FreeLibrary (h : HMODULE) : bringup is_loader_call (FreeLibrary h).
Proof. apply bringup_emit. reflexivity. Qed.

Ltac bringup_step :=
  first
    [ apply bringup_ret | apply bringup_gets | apply bringup_set_szPythonPath
    | apply bringup_LoadLibraryExA | apply bringup_GetProcAddress | apply bringup_FreeLibrary
    | apply (bringup_weaken is_entry_call);
      [apply entry_call_loader | apply bringup_call_InitializeVmmPlugin]
    | apply bringup_when
    | apply bringup_bind; [|intros ?]
    | match goal with
      | |- bringup _ (if ?b then _ else _) => destruct b
      end ].

Lemma bringup_load_plugins (base : string) (files : list string) :
  bringup is_loader_call (load_plugins base files).
Proof.
  induction files as [|f rest IH]; cbn [load_plugins]; [apply bringup_ret|].
  unfold PluginManager_Initialize_RegInfoInit, PluginManager_ModuleExists.
  apply bringup_bind; [apply bringup_LoadLibraryExA|intros h].
  apply bringup_bind; [|intros _; apply IH].
  repeat bringup_step.
Qed.

Lemma bringup_load_first (path : string -> M string) (dwFlags : Z) (names : list string)
    (h : HMODULE) :
  (forall n, bringup is_loader_call (path n)) ->
  bringup is_loader_call (load_first path dwFlags names h).
Proof.
  intros Hp. revert h. induction names as [|n rest IH]; intros h; cbn [load_first].
  - apply bringup_ret.
  - apply bringup_bind; [apply Hp|intros p].
    apply bringup_bind; [apply bringup_LoadLibraryExA|intros h'].
    destruct (nonnull h'); [apply bringup_ret | apply IH].
Qed.

Lemma bringup_python_fail (a b c : HMODULE) : bringup is_loader_call (python_fail a b c).
Proof. unfold python_fail. repeat bringup_step. Qed.

Lemma bringup_Initialize_Python : bringup is_loader_call PluginManager_Initialize_Python.
Proof.
  unfold PluginManager_Initialize_Python, PluginManager_Initialize_RegInfoInit,
    PluginManager_ModuleExists, LoadLibraryA, GetPathDll.
  repeat first
    [ apply bringup_python_fail
    | apply bringup_load_first; intros ?
    | bringup_step ].
Qed.

Lemma bringup_init_builtins (l : list BUILTIN) : bringup is_builtin_call (init_builtins l).
Proof.
  induction l as [|m rest IH]; cbn [init_builtins]; [apply bringup_ret|].
  unfold PluginManager_Initialize_RegInfoInit.
  apply bringup_bind; [apply bringup_gets|intros ri].
  apply bringup_bind; [apply bringup_call_builtin|intros _; apply IH].
Qed.

(** ** Counting calls *)

Lemma count_log (q : Event -> bool) (e : Event) (w : World) :
  count q (trace (log e w)) = (count q (trace w) + (if q e then 1 else 0))%nat.
Proof. simpl. rewrite count_app. unfold count. simpl. destruct (q e); reflexivity. Qed.

Lemma filter_none (P q : Event -> bool) (l : list Event) :
  (forall e, P e = true -> q e = false) -> forallb P l = true -> filter q l = [].
Proof.
  intros HPq. induction l as [|e rest IH]; simpl; [reflexivity|].
  intros H. apply andb_prop in H as [He Hr]. rewrite (HPq e He). auto.
Qed.

Lemma steps_up_count_same (P q : Event -> bool) (w w' : World) :
  (forall e, P e = true -> q e = false) -> steps_up P w w' ->
  count q (trace w') = count q (trace w).
Proof.
  intros HPq (_ & _ & _ & (n & T & F)). rewrite T, count_app.
  unfold count at 2. rewrite (filter_none P q n HPq F). simpl. lia.
Qed.

Lemma steps_up_count_mono (P q : Event -> bool) (w w' : World) :
  steps_up P w w' -> (count q (trace w) <= count q (trace w'))%nat.
Proof. intros (_ & _ & _ & (n & T & F)). rewrite T, count_app. lia. Qed.

Lemma steps_up_module_exists (P : Event -> bool) (w w' : World) (h : HMODULE) :
  steps_up P w w' ->
  module_exists h None (pVmmVfsModuleList w) = TRUE ->
  module_exists h None (pVmmVfsModuleList w') = TRUE.
Proof.
  intros (_ & _ & (a & R) & _). rewrite R, !module_exists_handle, existsb_app.
  intros H. apply andb_prop in H as [H1 H2]. rewrite H1, H2, orb_true_r. reflexivity.
Qed.

(** ** The directory scan *)

Lemma entry_call_not_load (h : HMODULE) (e : Event) :
  is_entry_call e = true -> is_LoadLibrary h e = false.
Proof. destruct e; simpl; auto; discriminate. Qed.

Lemma entry_call_not_free (h : HMODULE) (e : Event) :
  is_entry_call e = true -> is_FreeLibrary h e = false.
Proof. destruct e; simpl; auto; discriminate. Qed.

Lemma nonnull_false (h : Z) : nonnull h = false -> h = NULL.
Proof. unfold nonnull. intros H. apply negb_false_iff, Z.eqb_eq in H. exact H. Qed.

Lemma load_plugins_step (base f : string) (rest : list string) (w : World) :
  exists w1 : World,
    load_plugins base (f :: rest) w = load_plugins base rest w1
    /\ steps_up is_loader_call w w1
    /\ forall h : HMODULE, h <> NULL ->
         (acquired h (trace w) < acquired h (trace w1))%nat ->
         module_exists h None (pVmmVfsModuleList w1) = TRUE
         \/ (released h (trace w) < released h (trace w1))%nat.
Proof.
  cbn [load_plugins].
  cbv beta zeta delta [bind LoadLibraryExA GetProcAddress FreeLibrary
    PluginManager_ModuleExists PluginManager_Initialize_RegInfoInit when gets emit modify ret].
  cbn [fst snd].
  match goal with |- context [LoadLibraryExA_result ?p ?f ?t] =>
    set (h1 := LoadLibraryExA_result p f t) end.
  match goal with |- context [log (EvLoadLibrary ?p ?f h1) w] =>
    set (wA := log (EvLoadLibrary p f h1) w) end.
  assert (steps_up is_loader_call w wA) as HA by (apply steps_up_log; reflexivity).
  assert (forall h, acquired h (trace wA)
                    = (acquired h (trace w) + (if (h1 =? h)%Z then 1 else 0))%nat) as HAa
    by (intros h; apply count_log).
  assert (forall h, released h (trace wA) = released h (trace w)) as HAr
    by (intros h; unfold released; subst wA; rewrite count_log; simpl; lia).
  destruct (nonnull h1) eqn:Hn; cbn [negb fst snd].
  2: { exists wA. split; [reflexivity|]. split; [exact HA|].
       intros h Hh Hlt. exfalso. rewrite HAa in Hlt.
       apply nonnull_false in Hn. rewrite Hn in Hlt.
       destruct (Z.eqb_spec NULL h); [congruence | lia]. }
  match goal with |- context [GetProcAddress_result ?a ?b ?c] =>
    set (pfn := GetProcAddress_result a b c) end.
  match goal with |- context [log (EvGetProcAddress ?a ?b pfn) wA] =>
    set (wB := log (EvGetProcAddress a b pfn) wA) end.
  assert (steps_up is_loader_call w wB) as HB
    by (eapply steps_up_trans; [exact HA | apply steps_up_log; reflexivity]).
  assert (forall h, acquired h (trace wB) = acquired h (trace wA)) as HBa
    by (intros h; unfold acquired; subst wB; rewrite count_log; simpl; lia).
  assert (forall h, released h (trace wB) = released h (trace wA)) as HBr
    by (intros h; unfold released; subst wB; rewrite count_log; simpl; lia).
  assert (forall v h, released h (trace (log (EvFreeLibrary h1) v))
                      = (released h (trace v) + (if (h1 =? h)%Z then 1 else 0))%nat) as HF
    by (intros v h; apply count_log).
  assert (forall v h, acquired h (trace (log (EvFreeLibrary h1) v)) = acquired h (trace v))
    as HFa by (intros v h; unfold acquired; rewrite count_log; simpl; lia).
  destruct (nonnull pfn) eqn:Hp; cbn [negb fst snd].
  2: { exists (log (EvFreeLibrary h1) wB). split; [reflexivity|]. split.
       - eapply steps_up_trans; [exact HB | apply steps_up_log; reflexivity].
       - intros h Hh Hlt. right. rewrite HF, HBr, HAr. rewrite HFa, HBa, HAa in Hlt.
         destruct (h1 =? h); lia. }
  match goal with |- context [call_InitializeVmmPlugin ?a ?b wB] =>
    pose proof (bringup_call_InitializeVmmPlugin a b wB) as HC;
    set (wC := snd (call_InitializeVmmPlugin a b wB)) in * end.
  assert (forall h, acquired h (trace wC) = acquired h (trace wB)) as HCa
    by (intros h; apply (steps_up_count_same is_entry_call);
        [apply entry_call_not_load | exact HC]).
  assert (forall h, released h (trace wC) = released h (trace wB)) as HCr
    by (intros h; apply (steps_up_count_same is_entry_call);
        [apply entry_call_not_free | exact HC]).
  assert (steps_up is_loader_call w wC) as HC'
    by (eapply steps_up_trans;
        [exact HB | eapply steps_up_weaken; [apply entry_call_loader | exact HC]]).
  destruct (module_exists h1 None (pVmmVfsModuleList wC)) eqn:Hreg; cbn [negb fst snd].
  - exists wC. split; [reflexivity|]. split; [exact HC'|].
    intros h Hh Hlt. left. rewrite HCa, HBa, HAa in Hlt.
    destruct (Z.eqb_spec h1 h) as [<-|]; [exact Hreg | lia].
  - exists (log (EvFreeLibrary h1) wC). split; [reflexivity|]. split.
    + eapply steps_up_trans; [exact HC' | apply steps_up_log; reflexivity].
    + intros h Hh Hlt. right. rewrite HF, HCr, HBr, HAr.
      rewrite HFa, HCa, HBa, HAa in Hlt. destruct (h1 =? h); lia.
Qed.

Lemma load_plugins_loaded (base : string) (files : list string) (w : World) (h : HMODULE) :
  h <> NULL ->
  (acquired h (trace w) < acquired h (trace (snd (load_plugins base files w))))%nat ->
  module_exists h None (pVmmVfsModuleList (snd (load_plugins base files w))) = TRUE
  \/ (released h (trace w) < released h (trace (snd (load_plugins base files w))))%nat.
Proof.
  revert w h. induction files as [|f rest IH]; intros w h Hh Hlt.
  - simpl in Hlt. lia.
  - destruct (load_plugins_step base f rest w) as (w1 & E & Hup & Hstep).
    rewrite E in *.
    pose proof (bringup_load_plugins base rest w1) as Hrest.
    destruct (Nat.lt_ge_cases (acquired h (trace w1))
                (acquired h (trace (snd (load_plugins base rest w1))))) as [Hl|Hl].
    + destruct (IH w1 h Hh Hl) as [Hr|Hr]; [left; exact Hr|right].
      pose proof (steps_up_count_mono is_loader_call (is_FreeLibrary h) w w1 Hup).
      unfold released in *. lia.
    + assert (acquired h (trace w) < acquired h (trace w1))%nat as Hl' by lia.
      destruct (Hstep h Hh Hl') as [Hr|Hr].
      * left. eapply steps_up_module_exists; [exact Hrest | exact Hr].
      * right.
        pose proof (steps_up_count_mono is_loader_call (is_FreeLibrary h) w1 _ Hrest).
        unfold released in *. lia.
Qed.

(** X10.  The directory scan keeps no library that nothing refers to: a
    library it loaded is, when the scan ends, either the library of a
    registered entry or has been handed to [FreeLibrary] (because it lacks the
    entry point, or because its entry point left no entry of that library in
    the registry). *)
Theorem load_plugins_keeps_only_registered :
  forall (base : string) (files : list string) (w : World) (h : HMODULE),
    h <> NULL ->
    (acquired h (trace w) < acquired h (trace (snd (load_plugins base files w))))%nat ->
    module_exists h None (pVmmVfsModuleList (snd (load_plugins base files w))) = TRUE
    \/ (released h (trace w) < released h (trace (snd (load_plugins base files w))))%nat.
Proof. intros. apply load_plugins_loaded; assumption. Qed.

(** X11.  The directory scan and teardown together: a library the scan
    loaded has been handed to [FreeLibrary] once teardown is over, either by
    the scan itself or, when an entry of that library was registered, by
    teardown. *)
Theorem load_plugins_then_Close_releases :
  forall (base : string) (files : list string) (w : World) (h : HMODULE),
    h <> NULL ->
    let w1 := snd (load_plugins base files w) in
    (acquired h (trace w) < acquired h (trace w1))%nat ->
    (released h (trace w) < released h (trace (snd (PluginManager_Close w1))))%nat.
Proof.
  intros base files w h Hh w1 Hlt. rewrite Close_run. cbn [snd trace].
  unfold released. rewrite count_app, teardown_releases_once.
  destruct (load_plugins_loaded base files w h Hh Hlt) as [Hr|Hr]; fold w1 in Hr.
  - rewrite module_exists_handle in Hr. rewrite Hr. unfold TRUE.
    pose proof (steps_up_count_mono is_loader_call (is_FreeLibrary h) w w1
                  (bringup_load_plugins base files w)).
    lia.
  - unfold released in Hr. lia.
Qed.

Lemma is_empty_append (a b : string) :
  is_empty b = false -> is_empty (a ++ b)%string = false.
Proof. destruct a; simpl; auto. Qed.

Lemma load_first_cfg (path : string -> M string) (dwFlags : Z) (names : list string)
    (h : HMODULE) (w : World) :
  (forall n v, snd (path n v) = v) ->
  cfg_szPythonPath (snd (load_first path dwFlags names h w)) = cfg_szPythonPath w.
Proof.
  intros Hp. revert h w. induction names as [|n rest IH]; intros h w; [reflexivity|].
  cbn [load_first]. unfold bind, LoadLibraryExA, gets, emit, modify, ret. cbn [fst snd].
  rewrite Hp.
  destruct (nonnull _); [reflexivity|]. rewrite IH. reflexivity.
Qed.

Lemma cfg_set (s : string) (w : World) : cfg_szPythonPath (set_szPythonPath s w) = s.
Proof. reflexivity. Qed.

(** The control flow of [PluginManager_Initialize_Python], by what the three
    searches for the interpreter return. *)
Lemma Initialize_Python_run (w : World) :
  PluginManager_Initialize_Python w =
  if is_empty (cfg_szPythonPath w) then
    let r2 := load_first python_path_subdir LOAD_WITH_ALTERED_SEARCH_PATH
                szPYTHON_VERSIONS_SUPPORTED NULL w in
    if nonnull (fst r2) then
      python_bridge (fst r2)
        (set_szPythonPath (Util_GetPathDll NULL (trace (snd r2)) ++ "python\")%string (snd r2))
    else
      let r3 := load_first python_path_current 0 szPYTHON_VERSIONS_SUPPORTED (fst r2) (snd r2) in
      if nonnull (fst r3) then
        if is_empty (Util_GetPathDll (fst r3) (trace (snd r3))) then
          python_fail NULL (fst r3) NULL
            (set_szPythonPath (Util_GetPathDll (fst r3) (trace (snd r3))) (snd r3))
        else
          python_bridge (fst r3)
            (set_szPythonPath (Util_GetPathDll (fst r3) (trace (snd r3))) (snd r3))
      else python_fail NULL (fst r3) NULL (snd r3)
  else
    let r1 := load_first (python_path_user (cfg_szPythonPath w)) LOAD_WITH_ALTERED_SEARCH_PATH
                szPYTHON_VERSIONS_SUPPORTED NULL w in
    if nonnull (fst r1) then python_bridge (fst r1) (snd r1)
    else (tt, set_szPythonPath EmptyString (snd r1)).
Proof.
  unfold PluginManager_Initialize_Python, python_bridge, python_path_user, python_path_subdir,
    python_path_current.
  cbv beta zeta delta [bind gets modify ret when GetPathDll].
  cbn [fst snd]. unfold HMODULE.
  destruct (is_empty (cfg_szPythonPath w)) eqn:Hu; cbn [negb andb fst snd].
  - rewrite ?Hu. cbn [fst snd].
    match goal with |- context [load_first ?p ?f ?n NULL w] =>
      set (r2 := load_first p f n NULL w); change (Z * World)%type in (type of r2) end.
    assert (cfg_szPythonPath (snd r2) = cfg_szPythonPath w) as C2
      by (apply load_first_cfg; reflexivity).
    destruct (nonnull (fst r2)) eqn:H2; cbn [fst snd].
    + repeat first [ rewrite cfg_set | rewrite is_empty_append by reflexivity | rewrite H2
                   | progress cbn [negb andb fst snd] ].
      reflexivity.
    + repeat first [ rewrite C2 | rewrite Hu | rewrite H2 | progress cbn [negb andb fst snd] ].
      match goal with |- context [load_first ?p ?f ?n (fst r2) (snd r2)] =>
        set (r3 := load_first p f n (fst r2) (snd r2)); change (Z * World)%type in (type of r3) end.
      assert (cfg_szPythonPath (snd r3) = cfg_szPythonPath w) as C3
        by (subst r3; rewrite load_first_cfg by reflexivity; exact C2).
      destruct (nonnull (fst r3)) eqn:H3; cbn [fst snd].
      * repeat first [ rewrite cfg_set | rewrite H3 | progress cbn [negb andb fst snd] ].
        destruct (is_empty (Util_GetPathDll (fst r3) (trace (snd r3))));
          repeat first [ rewrite H3 | progress cbn [negb andb fst snd] ]; reflexivity.
      * repeat first [ rewrite C3 | rewrite Hu | rewrite H3 | progress cbn [negb andb fst snd] ].
        reflexivity.
  - match goal with |- context [load_first ?p ?f ?n NULL w] =>
      set (r1 := load_first p f n NULL w); change (Z * World)%type in (type of r1) end.
    assert (cfg_szPythonPath (snd r1) = cfg_szPythonPath w) as C1
      by (apply load_first_cfg; reflexivity).
    destruct (nonnull (fst r1)) eqn:H1;
      repeat first [ rewrite C1 | rewrite Hu | rewrite H1 | progress cbn [negb andb fst snd] ];
      reflexivity.
Qed.

Lemma same_handle_NULL (h x : HMODULE) : nonnull h = false -> x <> NULL -> same_handle h x = 0%nat.
Proof.
  intros Hn Hx. apply nonnull_false in Hn. unfold same_handle. rewrite Hn.
  destruct (Z.eqb_spec NULL x); congruence.
Qed.

Lemma acquired_log (x : HMODULE) (e : Event) (w : World) :
  acquired x (trace (log e w))
  = (acquired x (trace w)
     + match e with EvLoadLibrary _ _ h => same_handle h x | _ => 0 end)%nat.
Proof. unfold acquired. rewrite count_log. destruct e; reflexivity. Qed.

Lemma released_log (x : HMODULE) (e : Event) (w : World) :
  released x (trace (log e w))
  = (released x (trace w) + match e with EvFreeLibrary h => same_handle h x | _ => 0 end)%nat.
Proof. unfold released. rewrite count_log. destruct e; reflexivity. Qed.

Lemma entered_log (e : Event) (w : World) :
  count is_InitializeVmmPlugin (trace (log e w))
  = (count is_InitializeVmmPlugin (trace w) + if is_InitializeVmmPlugin e then 1 else 0)%nat.
Proof. apply count_log. Qed.

(** The searches for the interpreter: what [load_first] leaves behind. *)
Lemma load_first_loads (path : string -> M string) (dwFlags : Z) (names : list string)
    (h : HMODULE) (w : World) :
  (forall n v, snd (path n v) = v) -> names <> [] ->
  loads [fst (load_first path dwFlags names h w)] w (snd (load_first path dwFlags names h w)).
Proof.
  intros Hp. revert h w. induction names as [|n rest IH]; intros h w Hne; [contradiction|].
  cbn [load_first].
  cbv beta zeta delta [bind LoadLibraryExA gets emit modify ret]. cbn [fst snd].
  rewrite Hp.
  match goal with |- context [LoadLibraryExA_result ?p ?f ?t] =>
    set (h1 := LoadLibraryExA_result p f t) end.
  match goal with |- context [log (EvLoadLibrary ?p ?f h1) w] =>
    set (wA := log (EvLoadLibrary p f h1) w) end.
  assert (loads [h1] w wA) as HA.
  { repeat split.
    - intros x Hx. subst wA. rewrite acquired_log. unfold same_handle. simpl.
      destruct (Z.eq_dec h1 x) as [->|Hne']; [rewrite Z.eqb_refl; reflexivity|].
      destruct (Z.eqb_spec h1 x); [contradiction | reflexivity].
    - intros x. subst wA. rewrite released_log. lia.
    - subst wA. rewrite entered_log. simpl. lia. }
  destruct (nonnull h1) eqn:Hn; cbn [fst snd]; [exact HA|].
  destruct rest as [|n' rest']; [exact HA|].
  specialize (IH h1 wA ltac:(discriminate)).
  destruct HA as (R1 & A1 & F1 & E1). destruct IH as (R2 & A2 & F2 & E2).
  repeat split; try congruence.
  intros x Hx. rewrite (A2 x Hx), (A1 x Hx). simpl.
  destruct (Z.eq_dec h1 x) as [->|_]; [|lia].
  apply nonnull_false in Hn. contradiction.
Qed.

Lemma python_fail_run (a b c : HMODULE) (w : World) :
  pVmmVfsModuleList (snd (python_fail a b c w)) = pVmmVfsModuleList w
  /\ (forall x, acquired x (trace (snd (python_fail a b c w))) = acquired x (trace w))
  /\ count is_InitializeVmmPlugin (trace (snd (python_fail a b c w)))
     = count is_InitializeVmmPlugin (trace w)
  /\ (forall x, x <> NULL ->
        released x (trace (snd (python_fail a b c w)))
        = (released x (trace w) + same_handle a x + same_handle b x + same_handle c x)%nat).
Proof.
  unfold python_fail. cbv beta zeta delta [bind when FreeLibrary emit modify ret].
  destruct (nonnull a) eqn:Ha; destruct (nonnull b) eqn:Hb; destruct (nonnull c) eqn:Hc;
    cbn [fst snd]; repeat split; intros;
    rewrite ?acquired_log, ?released_log, ?entered_log; cbn [is_InitializeVmmPlugin];
    rewrite ?(same_handle_NULL a), ?(same_handle_NULL b), ?(same_handle_NULL c) by assumption;
    lia.
Qed.

Lemma call_InitializeVmmPlugin_entered (pfn : FNPTR) (ri : VMMDLL_PLUGIN_REGINFO) (w : World) :
  count is_InitializeVmmPlugin (trace (snd (call_InitializeVmmPlugin pfn ri w)))
  = S (count is_InitializeVmmPlugin (trace w)).
Proof.
  unfold call_InitializeVmmPlugin. cbv beta zeta delta [bind gets emit modify ret].
  cbn [fst snd].
  match goal with |- context [run_init ?p ?v] =>
    rewrite (steps_up_count_same is_LocalAlloc is_InitializeVmmPlugin v (snd (run_init p v)))
  end.
  - rewrite entered_log. simpl. lia.
  - intros []; simpl; auto; discriminate.
  - apply bringup_run_init.
Qed.

(** Steps 5 and 6: either the entry point of the bridge is called, once, or
    the registry stays as it is and whatever steps 5 and 6 loaded is freed,
    and [hDllPython3X] with it. *)
Lemma python_bridge_run (h3 : HMODULE) (w : World) :
  let w' := snd (python_bridge h3 w) in
  count is_InitializeVmmPlugin (trace w') = S (count is_InitializeVmmPlugin (trace w))
  \/ (count is_InitializeVmmPlugin (trace w') = count is_InitializeVmmPlugin (trace w)
      /\ pVmmVfsModuleList w' = pVmmVfsModuleList w
      /\ forall x, x <> NULL ->
           (acquired x (trace w') + released x (trace w) + same_handle h3 x
            = acquired x (trace w) + released x (trace w'))%nat).
Proof.
  unfold python_bridge, LoadLibraryA.
  cbv beta zeta delta [bind LoadLibraryExA GetProcAddress PluginManager_ModuleExists
    PluginManager_Initialize_RegInfoInit GetPathDll gets emit modify ret].
  cbn [fst snd]. unfold HMODULE.
  match goal with |- context [LoadLibraryExA_result ?p ?f (trace w)] =>
    set (h5 := LoadLibraryExA_result p f (trace w)) end.
  match goal with |- context [log (EvLoadLibrary ?p ?f h5) w] =>
    set (wA := log (EvLoadLibrary p f h5) w) end.
  match goal with |- context [LoadLibraryExA_result ?p ?f (trace wA)] =>
    set (h6 := LoadLibraryExA_result p f (trace wA)) end.
  match goal with |- context [log (EvLoadLibrary ?p ?f h6) wA] =>
    set (wB := log (EvLoadLibrary p f h6) wA) end.
  assert (forall x, acquired x (trace wB)
                    = (acquired x (trace w) + same_handle h5 x + same_handle h6 x)%nat) as HBa
    by (intros x; subst wB wA; rewrite !acquired_log; lia).
  assert (forall x, released x (trace wB) = released x (trace w)) as HBr
    by (intros x; subst wB wA; rewrite !released_log; lia).
  assert (count is_InitializeVmmPlugin (trace wB) = count is_InitializeVmmPlugin (trace w))
    as HBe by (subst wB wA; rewrite !entered_log; simpl; lia).
  destruct (nonnull h6) eqn:H6; cbn [negb fst snd].
  2: { right. destruct (python_fail_run h6 h3 h5 wB) as (R & A & E & F).
       split; [congruence|]. split; [exact R|].
       intros x Hx. rewrite A, (F x Hx), HBa, HBr. lia. }
  match goal with |- context [GetProcAddress_result ?a ?b ?c] =>
    set (pfn := GetProcAddress_result a b c) end.
  match goal with |- context [log (EvGetProcAddress ?a ?b pfn) wB] =>
    set (wC := log (EvGetProcAddress a b pfn) wB) end.
  assert (forall x, acquired x (trace wC) = acquired x (trace wB)) as HCa
    by (intros x; subst wC; rewrite acquired_log; lia).
  assert (forall x, released x (trace wC) = released x (trace wB)) as HCr
    by (intros x; subst wC; rewrite released_log; lia).
  assert (count is_InitializeVmmPlugin (trace wC) = count is_InitializeVmmPlugin (trace wB))
    as HCe by (subst wC; rewrite entered_log; simpl; lia).
  destruct (nonnull pfn) eqn:Hp; cbn [negb fst snd].
  2: { right. destruct (python_fail_run h6 h3 h5 wC) as (R & A & E & F).
       split; [congruence|]. split; [exact R|].
       intros x Hx. rewrite A, (F x Hx), HCa, HCr, HBa, HBr. lia. }
  left.
  match goal with |- context [call_InitializeVmmPlugin ?a ?b wC] =>
    pose proof (call_InitializeVmmPlugin_entered a b wC) as HD;
    set (wD := snd (call_InitializeVmmPlugin a b wC)) in * end.
  destruct (module_exists h6 None (pVmmVfsModuleList wD)); cbn [negb fst snd].
  - unfold when, FreeLibrary, emit, modify, ret.
    destruct (nonnull h3); cbn [snd]; rewrite ?entered_log; simpl; lia.
  - lia.
Qed.

Lemma names_supported : szPYTHON_VERSIONS_SUPPORTED <> [].
Proof. discriminate. Qed.

Lemma trace_set (s : string) (w : World) : trace (set_szPythonPath s w) = trace w.
Proof. reflexivity. Qed.

Lemma loads_set (got : list HMODULE) (w v : World) (s : string) :
  loads got w v -> loads got w (set_szPythonPath s v).
Proof. intros H. exact H. Qed.

Lemma count_occ_one (h x : HMODULE) : count_occ Z.eq_dec [h] x = same_handle h x.
Proof.
  unfold same_handle. simpl.
  destruct (Z.eq_dec h x) as [->|Hne]; [rewrite Z.eqb_refl; reflexivity|].
  destruct (Z.eqb_spec h x); [contradiction | reflexivity].
Qed.

(** After the searches have loaded [h3] at most, steps 5 and 6 without a call
    of the entry point give back everything. *)
Lemma python_bridge_gives_back (w v : World) (h3 : HMODULE) :
  loads [h3] w v ->
  count is_InitializeVmmPlugin (trace (snd (python_bridge h3 v)))
  = count is_InitializeVmmPlugin (trace w) ->
  pVmmVfsModuleList (snd (python_bridge h3 v)) = pVmmVfsModuleList w
  /\ balanced w (snd (python_bridge h3 v)).
Proof.
  intros (R & A & F & E) Hent.
  destruct (python_bridge_run h3 v) as [Hc|(_ & R' & B)].
  - rewrite E in Hc. lia.
  - split; [rewrite R'; exact R|].
    intros x Hx. specialize (B x Hx). rewrite (A x Hx), F, count_occ_one in B. lia.
Qed.

Lemma python_fail_gives_back (w v : World) (h3 : HMODULE) :
  loads [h3] w v ->
  pVmmVfsModuleList (snd (python_fail NULL h3 NULL v)) = pVmmVfsModuleList w
  /\ balanced w (snd (python_fail NULL h3 NULL v)).
Proof.
  intros (R & A & F & E).
  destruct (python_fail_run NULL h3 NULL v) as (R' & A' & _ & F').
  split; [rewrite R'; exact R|].
  intros x Hx. rewrite A', (F' x Hx), (A x Hx), F, count_occ_one.
  unfold same_handle at 2 4. destruct (Z.eqb_spec NULL x); [congruence | lia].
Qed.

(** X14.  A scripting-bridge phase that returns without having called the
    entry point of the bridge (no interpreter found, bridge library not
    loaded, entry point absent) leaves the registry as it was and has handed
    to [FreeLibrary] every library it loaded, as many times as it loaded it. *)
Theorem PluginManager_Initialize_Python_releases_unless_entered :
  forall (w : World),
    count is_InitializeVmmPlugin (trace (snd (PluginManager_Initialize_Python w)))
    = count is_InitializeVmmPlugin (trace w) ->
    pVmmVfsModuleList (snd (PluginManager_Initialize_Python w)) = pVmmVfsModuleList w
    /\ balanced w (snd (PluginManager_Initialize_Python w)).
Proof.
  intros w. rewrite Initialize_Python_run.
  destruct (is_empty (cfg_szPythonPath w)).
  - cbv zeta.
    pose proof (load_first_loads python_path_subdir LOAD_WITH_ALTERED_SEARCH_PATH
                  szPYTHON_VERSIONS_SUPPORTED NULL w (fun _ _ => eq_refl) names_supported)
      as L2.
    set (r2 := load_first python_path_subdir _ _ NULL w) in *.
    destruct (nonnull (fst r2)) eqn:H2.
    + apply python_bridge_gives_back, loads_set, L2.
    + pose proof (load_first_loads python_path_current 0 szPYTHON_VERSIONS_SUPPORTED
                    (fst r2) (snd r2) (fun _ _ => eq_refl) names_supported) as L3.
      set (r3 := load_first python_path_current 0 _ (fst r2) (snd r2)) in *.
      assert (loads [fst r3] w (snd r3)) as L.
      { destruct L2 as (R2 & A2 & F2 & E2). destruct L3 as (R3 & A3 & F3 & E3).
        repeat split; try congruence.
        intros x Hx. rewrite (A3 x Hx), (A2 x Hx), (count_occ_one (fst r2)).
        rewrite (same_handle_NULL (fst r2) x H2 Hx). lia. }
      destruct (nonnull (fst r3)) eqn:H3.
      * destruct (is_empty (Util_GetPathDll (fst r3) (trace (snd r3)))).
        -- intros _. apply python_fail_gives_back, loads_set, L.
        -- apply python_bridge_gives_back, loads_set, L.
      * intros _. apply python_fail_gives_back, L.
  - cbv zeta.
    pose proof (load_first_loads (python_path_user (cfg_szPythonPath w))
                  LOAD_WITH_ALTERED_SEARCH_PATH szPYTHON_VERSIONS_SUPPORTED NULL w
                  (fun _ _ => eq_refl) names_supported) as L1.
    set (r1 := load_first (python_path_user _) _ _ NULL w) in *.
    destruct (nonnull (fst r1)) eqn:H1.
    + apply python_bridge_gives_back, L1.
    + intros _. cbn [snd]. destruct L1 as (R & A & F & E).
      split; [exact R|]. intros x Hx. rewrite trace_set, (A x Hx), F, count_occ_one.
      rewrite (same_handle_NULL (fst r1) x H1 Hx). lia.
Qed.

Lemma load_first_none (path : string -> M string) (dwFlags : Z) (names : list string)
    (h : HMODULE) (w : World) :
  (forall p f t, LoadLibraryExA_result p f t = NULL) -> names <> [] ->
  fst (load_first path dwFlags names h w) = NULL.
Proof.
  intros Hnone. revert h w. induction names as [|n rest IH]; intros h w Hne; [contradiction|].
  cbn [load_first].
  cbv beta zeta delta [bind LoadLibraryExA gets emit modify ret]. cbn [fst snd].
  rewrite Hnone. cbn [nonnull Z.eqb negb].
  destruct rest as [|n' rest']; [reflexivity|]. apply IH. discriminate.
Qed.

Lemma is_empty_true (s : string) : is_empty s = true -> s = EmptyString.
Proof. destruct s; [reflexivity | discriminate]. Qed.

(** X15.  Where no library can be loaded at all, the scripting-bridge phase
    ends with no Python path configured, whether one was configured before or
    not; it registers nothing, frees nothing, and calls no entry point. *)
Theorem PluginManager_Initialize_Python_without_interpreter :
  forall (w : World),
    (forall p f t, LoadLibraryExA_result p f t = NULL) ->
    cfg_szPythonPath (snd (PluginManager_Initialize_Python w)) = EmptyString
    /\ pVmmVfsModuleList (snd (PluginManager_Initialize_Python w)) = pVmmVfsModuleList w
    /\ (forall x, released x (trace (snd (PluginManager_Initialize_Python w)))
                  = released x (trace w))
    /\ count is_InitializeVmmPlugin (trace (snd (PluginManager_Initialize_Python w)))
       = count is_InitializeVmmPlugin (trace w).
Proof.
  intros w Hnone. rewrite Initialize_Python_run.
  destruct (is_empty (cfg_szPythonPath w)) eqn:Hu; cbv zeta.
  - pose proof (load_first_loads python_path_subdir LOAD_WITH_ALTERED_SEARCH_PATH
                  szPYTHON_VERSIONS_SUPPORTED NULL w (fun _ _ => eq_refl) names_supported)
      as (R2 & _ & F2 & E2).
    pose proof (load_first_cfg python_path_subdir LOAD_WITH_ALTERED_SEARCH_PATH
                  szPYTHON_VERSIONS_SUPPORTED NULL w (fun _ _ => eq_refl)) as C2.
    rewrite (load_first_none python_path_subdir _ _ NULL w Hnone names_supported) in *.
    set (w2 := snd (load_first python_path_subdir _ _ NULL w)) in *.
    cbn [nonnull Z.eqb negb NULL].
    pose proof (load_first_loads python_path_current 0 szPYTHON_VERSIONS_SUPPORTED
                  NULL w2 (fun _ _ => eq_refl) names_supported) as (R3 & _ & F3 & E3).
    pose proof (load_first_cfg python_path_current 0 szPYTHON_VERSIONS_SUPPORTED NULL w2
                  (fun _ _ => eq_refl)) as C3.
    rewrite (load_first_none python_path_current _ _ NULL w2 Hnone names_supported) in *.
    cbn [nonnull Z.eqb negb NULL].
    change (python_fail NULL NULL NULL) with (fun v : World => (tt, v)). cbn [snd].
    split; [|split; [|split]]; try congruence.
    rewrite C3, C2. apply is_empty_true, Hu.
  - pose proof (load_first_loads (python_path_user (cfg_szPythonPath w))
                  LOAD_WITH_ALTERED_SEARCH_PATH szPYTHON_VERSIONS_SUPPORTED NULL w
                  (fun _ _ => eq_refl) names_supported) as (R1 & _ & F1 & E1).
    rewrite (load_first_none (python_path_user _) _ _ NULL w Hnone names_supported) in *.
    cbn [nonnull Z.eqb negb NULL snd].
    split; [reflexivity|]. split; [exact R1|]. split; [exact F1 | exact E1].
Qed.

(** ** The whole of bring-up *)

(** The history of a bring-up from a null registry handle. *)
Lemma Initialize_trace (w : World) :
  pVmmVfsModuleList w = [] ->
  exists n1 n2,
    trace (snd (PluginManager_Initialize w))
    = trace w ++ [EvEnterCriticalSection] ++ n1 ++ n2 ++ [EvLeaveCriticalSection]
    /\ forallb is_builtin_call n1 = true
    /\ forallb is_loader_call n2 = true.
Proof.
  intros H. unfold PluginManager_Initialize.
  cbv beta zeta delta [bind GetPathDll gets emit modify ret]. cbn [fst snd].
  rewrite H.
  pose proof (bringup_init_builtins builtin_modules (log EvEnterCriticalSection w))
    as (_ & _ & _ & (n1 & T1 & F1)).
  set (w1 := snd (init_builtins builtin_modules (log EvEnterCriticalSection w))) in *.
  match goal with |- context [load_plugins ?b ?f w1] =>
    pose proof (bringup_load_plugins b f w1) as (_ & _ & _ & (n2 & T2 & F2));
    set (w2 := snd (load_plugins b f w1)) in * end.
  pose proof (bringup_Initialize_Python w2) as (_ & _ & _ & (n3 & T3 & F3)).
  exists n1, (n2 ++ n3). split; [|split].
  - cbn [snd trace log]. rewrite T3, T2, T1. cbn [trace log].
    rewrite <- !app_assoc. reflexivity.
  - exact F1.
  - rewrite forallb_app, F2, F3. reflexivity.
Qed.

(** X12.  A bring-up from a null registry handle holds the master lock from
    its first call to its last: it takes the lock once, before anything else
    it does to the world, and gives it back once, after everything else;
    while it holds the lock it neither takes nor gives it back again, and it
    calls no capability (list, read, write, notify, close) of a module, those
    it has just registered included. *)
Theorem PluginManager_Initialize_lock_bracket :
  forall (w : World),
    pVmmVfsModuleList w = [] ->
    exists mid,
      trace (snd (PluginManager_Initialize w))
      = trace w ++ [EvEnterCriticalSection] ++ mid ++ [EvLeaveCriticalSection]
      /\ filter is_lock mid = []
      /\ filter is_capability_call mid = [].
Proof.
  intros w H. destruct (Initialize_trace w H) as (n1 & n2 & T & F1 & F2).
  assert (forallb is_bringup_call (n1 ++ n2) = true) as F.
  { rewrite forallb_app. apply andb_true_intro. split.
    - rewrite forallb_forall in *. intros e He. specialize (F1 e He).
      destruct e; simpl in *; auto.
    - rewrite forallb_forall in *. intros e He. specialize (F2 e He).
      destruct e; simpl in *; auto. }
  exists (n1 ++ n2). split; [|split].
  - rewrite T, <- !app_assoc. reflexivity.
  - apply (filter_none is_bringup_call); [|exact F]. intros []; simpl; auto; discriminate.
  - apply (filter_none is_bringup_call); [|exact F]. intros []; simpl; auto; discriminate.
Qed.

End MoreProperties.

(** * Properties of the helpers of the Python binding *)

Section PythonBinding.

Lemma low_bits (p : Z) : to_BYTE (Z.land (to_BYTE p) 7) = Z.land p 7.
Proof.
  unfold to_BYTE. change 7 with (Z.ones 3). rewrite !Z.land_ones by lia.
  change (2 ^ 3) with 8.
  rewrite (Z.mod_mod_divide p 256 8) by (exists 32; reflexivity).
  apply Z.mod_small. pose proof (Z.mod_pos_bound (p mod 8) 256).
  pose proof (Z.mod_pos_bound p 8). lia.
Qed.

Lemma low_bits_range (p : Z) : 0 <= Z.land p 7 < 8.
Proof.
  change 7 with (Z.ones 3). rewrite Z.land_ones by lia. apply Z.mod_pos_bound. reflexivity.
Qed.

(** X16.  The protection column of a VAD listing, by the low three bits of
    the protection: it always has six characters; when those bits are 0 it
    shows nothing but the private-memory flag, whatever the cache and guard
    bits say, and otherwise it shows at least one of r, w, x, c; and a c
    (copy on write) comes with a w and without an r. *)
Theorem VMMPYC_ProcessGetVadMap_Protection_columns :
  forall (pVad : VMMDLL_MAP_VADENTRY),
    let sz := VMMPYC_ProcessGetVadMap_Protection pVad in
    List.length sz = 6%nat
    /\ (Z.land (Protection pVad) 7 = 0 ->
        sz = [if fPrivateMemory pVad then "p"%char else "-"%char;
              "-"%char; "-"%char; "-"%char; "-"%char; "-"%char])
    /\ (Z.land (Protection pVad) 7 <> 0 ->
        nth 2 sz "-"%char = "r"%char \/ nth 3 sz "-"%char = "w"%char
        \/ nth 4 sz "-"%char = "x"%char \/ nth 5 sz "-"%char = "c"%char)
    /\ (nth 5 sz "-"%char = "c"%char ->
        nth 3 sz "-"%char = "w"%char /\ nth 2 sz "-"%char = "-"%char).
Proof.
  intros pVad sz. subst sz. unfold VMMPYC_ProcessGetVadMap_Protection.
  rewrite low_bits.
  pose proof (low_bits_range (Protection pVad)) as Hr.
  set (vl := Z.land (Protection pVad) 7) in *.
  set (vh := to_BYTE (Z.shiftr (to_BYTE (Protection pVad)) 3)).
  assert (vl = 0 \/ vl = 1 \/ vl = 2 \/ vl = 3 \/ vl = 4 \/ vl = 5 \/ vl = 6 \/ vl = 7)
    as Hv by lia.
  clearbody vl vh.
  destruct (truthy (Z.land vh 2)); destruct (truthy (Z.land vh 1));
    destruct (fPrivateMemory pVad);
    repeat (destruct Hv as [->|Hv]); try subst vl;
    cbn; repeat split; intros; try congruence; try lia; auto; try discriminate.
Qed.

(** X17.  The type column of a VAD listing always has five characters; it is
    blank exactly when the entry has none of the six type flags, and an image
    is shown as an image whatever other flags it has. *)
Theorem VMMPYC_ProcessGetVadMap_Type_column :
  forall (pVad : VMMDLL_MAP_VADENTRY),
    String.length (VMMPYC_ProcessGetVadMap_Type pVad) = 5%nat
    /\ (VMMPYC_ProcessGetVadMap_Type pVad = "     "%string <->
        fImage pVad = false /\ fFile pVad = false /\ fHeap pVad = false
        /\ fStack pVad = false /\ fTeb pVad = false /\ fPageFile pVad = false)
    /\ (fImage pVad = true -> VMMPYC_ProcessGetVadMap_Type pVad = "Image"%string).
Proof.
  intros pVad. unfold VMMPYC_ProcessGetVadMap_Type.
  destruct (fImage pVad); destruct (fFile pVad); destruct (fHeap pVad);
    destruct (fStack pVad); destruct (fTeb pVad); destruct (fPageFile pVad);
    cbn; repeat split; intros; try discriminate; try reflexivity;
    repeat match goal with H : _ /\ _ |- _ => destruct H end; try discriminate.
Qed.

(** ** The file list *)

Lemma skipn_nth (s : list Z) (i : nat) :
  (i < List.length s)%nat -> skipn i s = nth i s 0 :: skipn (S i) s.
Proof.
  revert i. induction s as [|c t IH]; intros i Hi; [simpl in Hi; lia|].
  destruct i as [|i]; [reflexivity|]. simpl in Hi.
  change (skipn (S i) (c :: t)) with (skipn i t).
  rewrite (IH i) by lia. reflexivity.
Qed.

Lemma char_at_in (s : list Z) (i : nat) :
  Forall (fun c => c <> 0) s -> (i <= List.length s)%nat ->
  char_at s i = Some (nth i s 0)
  /\ (truthy (nth i s 0) = true <-> (i < List.length s)%nat).
Proof.
  intros Hnz Hi. unfold char_at. rewrite (proj2 (Nat.leb_le _ _) Hi). split; [reflexivity|].
  unfold truthy. rewrite negb_true_iff, Z.eqb_neq. split.
  - intros Hc. destruct (Nat.lt_ge_cases i (List.length s)); [assumption|].
    rewrite nth_overflow in Hc by assumption. contradiction.
  - intros Hlt. rewrite Forall_forall in Hnz. apply Hnz, nth_In, Hlt.
Qed.

Lemma copy_name_wide (s : list Z) (n i : nat) :
  Forall (fun c => c <> 0) s -> (i <= List.length s)%nat ->
  copy_name n i None (Some s) = Some (firstn n (skipn i s)).
Proof.
  intros Hnz. revert i. induction n as [|n IH]; intros i Hi; [reflexivity|].
  cbn [copy_name]. destruct (char_at_in s i Hnz Hi) as [-> Ht].
  destruct (truthy (nth i s 0)) eqn:E.
  - assert (i < List.length s)%nat as Hlt by (apply Ht; reflexivity).
    rewrite IH by lia. rewrite (skipn_nth s i Hlt). reflexivity.
  - assert (~ (i < List.length s)%nat) as Hge by (intros H; apply Ht in H; discriminate).
    rewrite skipn_all2 by lia. reflexivity.
Qed.

Lemma copy_name_narrow (s : list Z) (n i : nat) :
  Forall (fun c => c <> 0) s -> (i <= List.length s)%nat ->
  copy_name n i (Some s) None
  = Some (map (fun c => c mod 65536) (firstn n (skipn i s))).
Proof.
  intros Hnz. revert i. induction n as [|n IH]; intros i Hi; [reflexivity|].
  cbn [copy_name]. destruct (char_at_in s i Hnz Hi) as [-> Ht].
  destruct (truthy (nth i s 0)) eqn:E.
  - assert (i < List.length s)%nat as Hlt by (apply Ht; reflexivity).
    rewrite IH by lia. rewrite (skipn_nth s i Hlt). reflexivity.
  - assert (~ (i < List.length s)%nat) as Hge by (intros H; apply Ht in H; discriminate).
    rewrite skipn_all2 by lia. reflexivity.
Qed.

Lemma terminate_at_259 {A : Type} (s : list A) :
  firstn (Nat.min (List.length (firstn MAX_PATH s)) (MAX_PATH - 1)) (firstn MAX_PATH s)
  = firstn 259 s.
Proof.
  rewrite firstn_firstn, length_firstn. unfold MAX_PATH.
  change (260 - 1)%nat with 259%nat.
  destruct (Nat.le_gt_cases (List.length s) 259).
  - rewrite !firstn_all2 by lia. reflexivity.
  - f_equal. lia.
Qed.

(** X18.  A name given to the file list in one of its two forms comes back
    as the name of the new head entry, cut to 259 code units if it is longer:
    a wide name as it is, a narrow name with each character stored modulo
    2^16.  A file keeps its size; a directory gets size 0.  When the
    allocation fails the list stays as it is and the entry is dropped. *)
Theorem VMMPYC_VfsList_Add_names :
  forall (h : list VMMPYC_VFSLIST) (s : list Z) (size : Z),
    Forall (fun c => c <> 0) s ->
    VMMPYC_VfsList_AddFile true h None (Some s) size
    = Some (mkVfsEntry (firstn 259 s) FALSE size :: h)
    /\ VMMPYC_VfsList_AddFile true h (Some s) None size
       = Some (mkVfsEntry (firstn 259 (map (fun c => c mod 65536) s)) FALSE size :: h)
    /\ VMMPYC_VfsList_AddDirectory true h None (Some s)
       = Some (mkVfsEntry (firstn 259 s) TRUE 0 :: h)
    /\ VMMPYC_VfsList_AddDirectory true h (Some s) None
       = Some (mkVfsEntry (firstn 259 (map (fun c => c mod 65536) s)) TRUE 0 :: h)
    /\ VMMPYC_VfsList_AddFile false h None (Some s) size = Some h
    /\ VMMPYC_VfsList_AddDirectory false h None (Some s) = Some h.
Proof.
  intros h s size Hnz.
  unfold VMMPYC_VfsList_AddFile, VMMPYC_VfsList_AddDirectory, VMMPYC_VfsList_AddInternal.
  rewrite (copy_name_wide s MAX_PATH 0 Hnz), (copy_name_narrow s MAX_PATH 0 Hnz) by lia.
  cbn [skipn]. rewrite <- firstn_map, !terminate_at_259. repeat split.
Qed.

Lemma copy_name_length (n i : nat) (szName wszName : option (list Z)) (written : list WCHAR) :
  copy_name n i szName wszName = Some written -> (List.length written <= n)%nat.
Proof.
  revert i written. induction n as [|n IH]; intros i written; cbn [copy_name].
  - intros [= <-]. simpl. lia.
  - assert (forall c, option_map (cons c) (copy_name n (S i) szName wszName) = Some written ->
                      (List.length written <= S n)%nat) as Hstep.
    { intros c. destruct (copy_name n (S i) szName wszName) as [r|] eqn:E; [|discriminate].
      intros [= <-]. simpl. specialize (IH _ _ E). lia. }
    assert (Some [] = Some written -> (List.length written <= S n)%nat) as Hstop
      by (intros [= <-]; simpl; lia).
    destruct szName as [s|]; destruct wszName as [ws|];
      repeat match goal with
             | |- context [match char_at ?a ?b with _ => _ end] => destruct (char_at a b)
             | |- context [if truthy ?c then _ else _] => destruct (truthy c)
             end; try discriminate; eauto.
Qed.

(** X19.  Whatever names it is given, one or both or none,
    [VMMPYC_VfsList_AddInternal] either leaves the list as it is (no entry
    could be allocated) or puts exactly one entry in front of it, whose name
    has at most 259 code units and so fits the array of [MAX_PATH] with its
    terminator; the entries already there are never touched. *)
Theorem VMMPYC_VfsList_AddInternal_bounds :
  forall (alloc : bool) (h h' : list VMMPYC_VFSLIST) (szName wszName : option (list Z))
         (size : Z) (fIsDirectory : BOOL),
    VMMPYC_VfsList_AddInternal alloc h szName wszName size fIsDirectory = Some h' ->
    (alloc = false /\ h' = h)
    \/ exists pE : VMMPYC_VFSLIST,
         h' = pE :: h
         /\ (List.length (vfs_wszName pE) <= 259)%nat
         /\ vfs_fIsDir pE = fIsDirectory /\ vfs_qwSize pE = size.
Proof.
  intros alloc h h' szName wszName size fIsDirectory.
  unfold VMMPYC_VfsList_AddInternal. destruct alloc.
  - destruct (copy_name MAX_PATH 0 szName wszName) as [written|]; [|discriminate].
    intros [= <-]. right. eexists. split; [reflexivity|]. cbn.
    rewrite length_firstn. split; [|split; reflexivity]. unfold MAX_PATH. lia.
  - intros [= <-]. left. auto.
Qed.

(** ** Time stamps *)

Lemma length_append (a b : string) :
  String.length (a ++ b) = (String.length a + String.length b)%nat.
Proof. induction a as [|c a IH]; simpl; [reflexivity | rewrite IH; reflexivity]. Qed.

Lemma length_zeros (n : nat) (s : string) :
  String.length (zeros n s) = (n + String.length s)%nat.
Proof. induction n as [|n IH]; simpl; [reflexivity | rewrite IH; reflexivity]. Qed.

Lemma div10_zero (v : Z) : 0 <= v < 10 -> v / 10 = 0.
Proof. intros H. apply Z.div_small, H. Qed.

Lemma div10_bound (v b : Z) : 0 <= v < 10 * b -> 0 <= v / 10 < b.
Proof.
  intros H. split; [apply Z.div_pos; lia | apply Z.div_lt_upper_bound; lia].
Qed.

Lemma fmt_0i_2 (v : Z) : 0 <= v <= 99 -> String.length (fmt_0i 2 v) = 2%nat.
Proof.
  intros H. unfold fmt_0i. rewrite length_zeros. cbn [digits].
  destruct (Z.eqb_spec (v / 10) 0); [reflexivity|].
  rewrite (div10_zero (v / 10)) by (apply div10_bound; lia). reflexivity.
Qed.

Lemma fmt_0i_4 (v : Z) : 0 <= v <= 9999 -> String.length (fmt_0i 4 v) = 4%nat.
Proof.
  intros H. unfold fmt_0i. rewrite length_zeros. cbn [digits].
  pose proof (div10_bound v 1000 ltac:(lia)) as H1.
  pose proof (div10_bound (v / 10) 100 ltac:(lia)) as H2.
  pose proof (div10_bound (v / 10 / 10) 10 ltac:(lia)) as H3.
  destruct (Z.eqb_spec (v / 10) 0); [reflexivity|].
  destruct (Z.eqb_spec (v / 10 / 10) 0); [reflexivity|].
  destruct (Z.eqb_spec (v / 10 / 10 / 10) 0); [reflexivity|].
  rewrite (div10_zero (v / 10 / 10 / 10)) by exact H3. reflexivity.
Qed.

(** X20.  A time stamp is always 23 characters wide, the placeholder for the
    zero file time included, as long as the year has at most four digits and
    the other fields at most two; so the columns after it line up. *)
Theorem Util_FileTime2String_width :
  forall (FileTimeToSystemTime : Z -> SYSTEMTIME) (FileTime : Z),
    (FileTime <> 0 ->
     0 <= wYear (FileTimeToSystemTime FileTime) <= 9999
     /\ 0 <= wMonth (FileTimeToSystemTime FileTime) <= 99
     /\ 0 <= wDay (FileTimeToSystemTime FileTime) <= 99
     /\ 0 <= wHour (FileTimeToSystemTime FileTime) <= 99
     /\ 0 <= wMinute (FileTimeToSystemTime FileTime) <= 99
     /\ 0 <= wSecond (FileTimeToSystemTime FileTime) <= 99) ->
    String.length (Util_FileTime2String FileTimeToSystemTime FileTime) = 23%nat.
Proof.
  intros sys ft H. unfold Util_FileTime2String.
  destruct (Z.eqb_spec ft 0) as [->|Hne]; [reflexivity|].
  destruct (H Hne) as (Hy & Hmo & Hd & Hh & Hmi & Hs).
  rewrite !length_append, fmt_0i_4, !fmt_0i_2 by assumption. reflexivity.
Qed.

End PythonBinding.

(** * The properties on concrete runs *)

Section Runs.

Import Demo.

(** C1 as the specification states it fails on the record "S": its declared
    size is 0, not the size of the record, and it is registered. *)
Lemma Register_ignores_declared_size :
  ~ (fst (@PluginManager_Register header env (Some modS) w0) = TRUE <->
     @validation_as_specified header modS (pVmmVfsModuleList w0) = true).
Proof.
  intros [H _]. specialize (H eq_refl). vm_compute in H. discriminate H.
Qed.

Lemma PluginManager_Register_validation_witness :
  fst (@PluginManager_Register header env (Some mod_a) w_abc) = FALSE
  /\ pVmmVfsModuleList (snd (@PluginManager_Register header env (Some mod_a) w_abc))
     = pVmmVfsModuleList w_abc.
Proof.
  split; [reflexivity|].
  apply (@PluginManager_Register_validation header env mod_a w_abc).
  reflexivity.
Defined.

Lemma PluginManager_List_dispatch_witness :
  registry_inv (pVmmVfsModuleList w_abc) = true
  /\ @PluginManager_List header env None [97] None 5 w_abc = (FALSE, w_abc)
  /\ @PluginManager_List header env (Some proc) [97] None 5 w_abc
     = (TRUE, log (EvList 0x2000
                     (@PluginManager_ContextInitialize header (@entry_of modA) (Some proc) [])
                     5) w_abc)
  /\ @PluginManager_List header env (Some proc) [99] None 5 w_abc = (FALSE, w_abc)
  /\ @PluginManager_List header env None [99] None 5 w_abc
     = (TRUE, log (EvList 0x5020
                     (@PluginManager_ContextInitialize header (@entry_of modC) None [])
                     5) w_abc).
Proof.
  split; [reflexivity|].
  pose proof (proj2 (@PluginManager_List_dispatch header env w_abc None [97] None 5 eq_refl)
                (@entry_of modA) (or_intror (or_intror (or_introl eq_refl))) eq_refl)
    as (HA0 & _ & _ & HA1).
  pose proof (proj2 (@PluginManager_List_dispatch header env w_abc None [99] None 5 eq_refl)
                (@entry_of modC) (or_introl eq_refl) eq_refl)
    as (_ & HC0 & HC1 & _).
  split; [exact (HA0 eq_refl)|].
  split; [exact (HA1 eq_refl proc)|].
  split; [exact (HC1 eq_refl proc)|exact (HC0 eq_refl)].
Defined.

(** C3 as the specification states it fails on a read of "A" whose read
    capability reports the end of the file: the status handed back is not the
    success status, and the byte count is written. *)
Lemma Read_count_without_success :
  ~ @count_only_on_success header
      (fst (@PluginManager_Read header env_end_of_file (Some proc) [65] None 16 0 w_abc)).
Proof.
  intros [H _]. vm_compute in H.
  assert (Some 0 <> @None Z) as Hw by discriminate.
  specialize (H Hw). discriminate H.
Qed.

Lemma PluginManager_Read_Write_invalid_target_witness :
  registry_inv (pVmmVfsModuleList w_abc) = true
  /\ @PluginManager_Write header env_end_of_file (Some proc) [97] None [1; 2] 2 0 w_abc
     = (mkIo 0xC0000098 None [], w_abc)
  /\ @PluginManager_Read header env_end_of_file (Some proc) [97] None 2 0 w_abc
     = (mkIo STATUS_END_OF_FILE (Some 0) [],
        log (EvRead 0x2001
               (@PluginManager_ContextInitialize header (@entry_of modA) (Some proc) [])
               2 0) w_abc).
Proof.
  split; [reflexivity|].
  pose proof (proj1 (proj2 (@PluginManager_Read_Write_invalid_target header env_end_of_file
                              w_abc (Some proc) [97] None [1; 2] 2 0 eq_refl))
                (@entry_of modA) eq_refl) as (_ & Hw & Hr & _).
  split; [exact (Hw eq_refl)|].
  apply Hr. discriminate.
Defined.

Lemma dispatch_context_isolation_witness :
  is_dispatch (Op_Read (Some proc) [98] None 16 0) = true
  /\ dispatch_target (Op_Read (Some proc) [98] None 16 0) (pVmmVfsModuleList w_abc)
     = Some (@entry_of modB)
  /\ exists ctx : VMMDLL_PLUGIN_CONTEXT,
       @exec header env (Op_Read (Some proc) [98] None 16 0) w_abc
       = log (EvRead 0x5011 ctx 16 0) w_abc
       /\ ctx_wszModule ctx = [66]
       /\ ctx_pProcess ctx = None.
Proof.
  split; [reflexivity|]. split; [reflexivity|].
  pose proof (@dispatch_context_isolation header env (Op_Read (Some proc) [98] None 16 0)
                w_abc eq_refl) as H.
  change (dispatch_target (Op_Read (Some proc) [98] None 16 0) (pVmmVfsModuleList w_abc))
    with (Some (@entry_of modB)) in H.
  destruct H as (ctx & e & He & Hx & Hn & Hnat & _).
  injection He as <-.
  exists ctx. split; [exact Hx|]. split; [exact Hn|].
  apply Hnat. discriminate.
Defined.

Lemma PluginManager_Initialize_already_initialized_witness :
  pVmmVfsModuleList (snd (@PluginManager_Initialize header env w0)) <> []
  /\ @PluginManager_Initialize header env (snd (@PluginManager_Initialize header env w0))
     = (FALSE, snd (@PluginManager_Initialize header env w0)).
Proof.
  assert (pVmmVfsModuleList (snd (@PluginManager_Initialize header env w0)) <> []) as H
    by (vm_compute; discriminate).
  split; [exact H|].
  apply (@PluginManager_Initialize_already_initialized header env _ H).
Defined.

Lemma PluginManager_Initialize_returns_TRUE_witness :
  pVmmVfsModuleList w0 = [] /\ fst (@PluginManager_Initialize header env w0) = TRUE.
Proof.
  split; [reflexivity|].
  apply (@PluginManager_Initialize_returns_TRUE header env w0). reflexivity.
Defined.

Lemma registry_invariant_witness :
  registry_inv (pVmmVfsModuleList w_abc) = true
  /\ registry_inv (pVmmVfsModuleList (@exec header env (Op_Register (Some mod_a)) w_abc)) = true.
Proof.
  split; [reflexivity|].
  apply (proj2 (@registry_invariant header env)). reflexivity.
Defined.

(** C7 does not hold of the code.  With Python on the user-defined path and
    a bridge library whose entry point registers nothing, the phase returns
    without the bridge in the registry, and of the three libraries it loaded
    it has released none. *)
Theorem PluginManager_Initialize_Python_keeps_handles :
  let w' := snd (@PluginManager_Initialize_Python header env w_py) in
  @module_exists hPyPlugin None (pVmmVfsModuleList w') = FALSE
  /\ (acquired hPython36 (trace w') = 1 /\ released hPython36 (trace w') = 0)%nat
  /\ (acquired hPython3 (trace w') = 1 /\ released hPython3 (trace w') = 0)%nat
  /\ (acquired hPyPlugin (trace w') = 1 /\ released hPyPlugin (trace w') = 0)%nat.
Proof. vm_compute. repeat split. Qed.

(** The neighbouring failure, a bridge library without entry point, goes
    through the label [fail] and releases the three of them. *)
Example PluginManager_Initialize_Python_corrupt_bridge :
  let w' := snd (@PluginManager_Initialize_Python header env_corrupt_bridge w_py) in
  @module_exists hPyPlugin None (pVmmVfsModuleList w') = FALSE
  /\ (acquired hPython36 (trace w') = 1 /\ released hPython36 (trace w') = 1)%nat
  /\ (acquired hPython3 (trace w') = 1 /\ released hPython3 (trace w') = 1)%nat
  /\ (acquired hPyPlugin (trace w') = 1 /\ released hPyPlugin (trace w') = 1)%nat.
Proof. vm_compute. repeat split. Qed.

End Runs.

(** * The further properties on concrete runs *)

Section MoreRuns.

Import Demo DemoMore.


Lemma PluginManager_ListAll_no_duplicates_witness :
  registry_inv (pVmmVfsModuleList w_abc) = true
  /\ NoDup (map casefold (fst (PluginManager_ListAll None w_abc))).
Proof.
  split; [reflexivity|].
  apply (PluginManager_ListAll_no_duplicates w_abc None eq_refl).
Defined.

Lemma PluginManager_Register_then_dispatch_witness :
  fst (PluginManager_Register (HDR:=header) (ENV:=env) (Some modD) w_abc) = TRUE
  /\ scope_matches None (entry_of modD) = true
  /\ _wcsicmp [100; 68] (ri_wszModuleName (reg_info modD)) = 0
  /\ fst (PluginManager_List (ENV:=env) None [100; 68] None 5
            (snd (PluginManager_Register (HDR:=header) (ENV:=env) (Some modD) w_abc)))
     = TRUE.
Proof.
  split; [reflexivity|]. split; [reflexivity|]. split; [reflexivity|].
  exact (f_equal fst
           (proj1 (PluginManager_Register_then_dispatch (HDR:=header) (ENV:=env)
                     modD w_abc None [100; 68] None eq_refl eq_refl eq_refl) 5)).
Defined.

Lemma PluginManager_ModuleExists_after_Register_witness :
  fst (PluginManager_Register (HDR:=header) (ENV:=env) (Some modD) w_abc) = TRUE
  /\ _wcsicmp [100; 68] (ri_wszModuleName (reg_info modD)) = 0
  /\ fst (PluginManager_ModuleExists NULL (Some [100; 68])
            (snd (PluginManager_Register (HDR:=header) (ENV:=env) (Some modD) w_abc)))
     = TRUE.
Proof.
  split; [reflexivity|]. split; [reflexivity|].
  exact (f_equal fst
           (proj1 (PluginManager_ModuleExists_after_Register (HDR:=header) (ENV:=env)
                     modD w_abc [100; 68] eq_refl eq_refl))).
Defined.

Lemma RegInfoInit_template_registers_witness :
  fst (PluginManager_Register (HDR:=header) (ENV:=env)
         (Some (fill_in (fst (PluginManager_Initialize_RegInfoInit (HDR:=header) 0x5000 w0))
                        (mkRegInfoName [68] true false) (mkRegFn 0x5030 0 0 0 0))) w0) = TRUE
  /\ exists pm rest,
       pVmmVfsModuleList
         (snd (PluginManager_Register (HDR:=header) (ENV:=env)
                 (Some (fill_in (fst (PluginManager_Initialize_RegInfoInit (HDR:=header)
                                        0x5000 w0))
                                (mkRegInfoName [68] true false) (mkRegFn 0x5030 0 0 0 0))) w0))
       = pm :: rest
       /\ pm_hDLL pm = 0x5000 /\ rest = pVmmVfsModuleList w0.
Proof.
  split; [reflexivity|].
  apply (proj2 (proj2 (proj2 (RegInfoInit_template_registers (HDR:=header) (ENV:=env)
                                0x5000 w0 (mkRegInfoName [68] true false)
                                (mkRegFn 0x5030 0 0 0 0))))).
  reflexivity.
Defined.

Lemma load_plugins_keeps_only_registered_witness :
  hNoEntry <> NULL
  /\ (acquired hNoEntry (trace w0)
      < acquired hNoEntry
          (trace (snd (load_plugins (ENV:=env) (HDR:=header) "C:\mfs\"
                         ["m_good.dll"; "m_noentry.dll"; "m_missing.dll"]%string w0))))%nat
  /\ (module_exists hNoEntry None
        (pVmmVfsModuleList
           (snd (load_plugins (ENV:=env) (HDR:=header) "C:\mfs\"
                   ["m_good.dll"; "m_noentry.dll"; "m_missing.dll"]%string w0))) = TRUE
      \/ (released hNoEntry (trace w0)
          < released hNoEntry
              (trace (snd (load_plugins (ENV:=env) (HDR:=header) "C:\mfs\"
                             ["m_good.dll"; "m_noentry.dll"; "m_missing.dll"]%string w0))))%nat).
Proof.
  assert (hNoEntry <> NULL) as H1 by discriminate.
  assert (acquired hNoEntry (trace w0)
          < acquired hNoEntry
              (trace (snd (load_plugins (ENV:=env) (HDR:=header) "C:\mfs\"
                             ["m_good.dll"; "m_noentry.dll"; "m_missing.dll"]%string w0))))%nat
    as H2 by (vm_compute; lia).
  split; [exact H1|]. split; [exact H2|].
  apply (load_plugins_keeps_only_registered (HDR:=header) (ENV:=env) _ _ w0 hNoEntry H1 H2).
Defined.

Lemma PluginManager_Initialize_lock_bracket_witness :
  pVmmVfsModuleList w0 = []
  /\ exists mid,
       trace (snd (PluginManager_Initialize (HDR:=header) (ENV:=env) w0))
       = trace w0 ++ [EvEnterCriticalSection] ++ mid ++ [EvLeaveCriticalSection]
       /\ filter is_lock mid = []
       /\ filter is_capability_call mid = [].
Proof.
  split; [reflexivity|].
  apply (PluginManager_Initialize_lock_bracket (HDR:=header) (ENV:=env) w0). reflexivity.
Defined.

Lemma PluginManager_Initialize_Python_releases_unless_entered_witness :
  count is_InitializeVmmPlugin
    (trace (snd (PluginManager_Initialize_Python (HDR:=header) (ENV:=env_corrupt_bridge) w_py)))
  = count is_InitializeVmmPlugin (trace w_py)
  /\ pVmmVfsModuleList
       (snd (PluginManager_Initialize_Python (HDR:=header) (ENV:=env_corrupt_bridge) w_py))
     = pVmmVfsModuleList w_py
  /\ balanced w_py
       (snd (PluginManager_Initialize_Python (HDR:=header) (ENV:=env_corrupt_bridge) w_py)).
Proof.
  split; [reflexivity|].
  apply (PluginManager_Initialize_Python_releases_unless_entered
           (HDR:=header) (ENV:=env_corrupt_bridge) w_py).
  reflexivity.
Defined.

Lemma PluginManager_Initialize_Python_without_interpreter_witness :
  (forall p f t, LoadLibraryExA_result (Environment:=env_no_library) p f t = NULL)
  /\ cfg_szPythonPath
       (snd (PluginManager_Initialize_Python (HDR:=header) (ENV:=env_no_library) w_py))
     = EmptyString.
Proof.
  split; [intros; reflexivity|].
  apply (PluginManager_Initialize_Python_without_interpreter
           (HDR:=header) (ENV:=env_no_library) w_py).
  intros; reflexivity.
Defined.

Lemma VMMPYC_ProcessGetVadMap_Protection_columns_witness :
  Z.land (Protection vad_guard) 7 = 0
  /\ VMMPYC_ProcessGetVadMap_Protection vad_guard
     = ["p"%char; "-"%char; "-"%char; "-"%char; "-"%char; "-"%char].
Proof.
  split; [reflexivity|].
  apply (proj1 (proj2 (VMMPYC_ProcessGetVadMap_Protection_columns vad_guard))). reflexivity.
Defined.

Lemma VMMPYC_ProcessGetVadMap_Type_column_witness :
  fImage vad_image = true /\ VMMPYC_ProcessGetVadMap_Type vad_image = "Image"%string.
Proof.
  split; [reflexivity|].
  apply (proj2 (proj2 (VMMPYC_ProcessGetVadMap_Type_column vad_image))). reflexivity.
Defined.

Lemma VMMPYC_VfsList_Add_names_witness :
  Forall (fun c => c <> 0) long_name
  /\ VMMPYC_VfsList_AddFile true [] None (Some long_name) 5
     = Some [mkVfsEntry (firstn 259 long_name) FALSE 5].
Proof.
  assert (Forall (fun c => c <> 0) long_name) as H.
  { apply Forall_forall. intros x Hx. apply repeat_spec in Hx. subst x. discriminate. }
  split; [exact H|].
  apply (proj1 (VMMPYC_VfsList_Add_names [] long_name 5 H)).
Defined.

Lemma VMMPYC_VfsList_AddInternal_bounds_witness :
  VMMPYC_VfsList_AddInternal true [] (Some [97; 98]) (Some [97; 98]) 3 TRUE
  = Some [mkVfsEntry [97; 98] TRUE 3]
  /\ ((true = false /\ [mkVfsEntry [97; 98] TRUE 3] = [])
      \/ exists pE : VMMPYC_VFSLIST,
           [mkVfsEntry [97; 98] TRUE 3] = [pE]
           /\ (List.length (vfs_wszName pE) <= 259)%nat
           /\ vfs_fIsDir pE = TRUE /\ vfs_qwSize pE = 3).
Proof.
  split; [reflexivity|].
  apply (VMMPYC_VfsList_AddInternal_bounds true [] _ (Some [97; 98]) (Some [97; 98]) 3 TRUE).
  reflexivity.
Defined.

Lemma Util_FileTime2String_width_witness :
  (1 <> 0 ->
   0 <= wYear (a_time 1) <= 9999 /\ 0 <= wMonth (a_time 1) <= 99
   /\ 0 <= wDay (a_time 1) <= 99 /\ 0 <= wHour (a_time 1) <= 99
   /\ 0 <= wMinute (a_time 1) <= 99 /\ 0 <= wSecond (a_time 1) <= 99)
  /\ String.length (Util_FileTime2String a_time 1) = 23%nat.
Proof.
  assert (1 <> 0 ->
          0 <= wYear (a_time 1) <= 9999 /\ 0 <= wMonth (a_time 1) <= 99
          /\ 0 <= wDay (a_time 1) <= 99 /\ 0 <= wHour (a_time 1) <= 99
          /\ 0 <= wMinute (a_time 1) <= 99 /\ 0 <= wSecond (a_time 1) <= 99) as H
    by (intros _; simpl; lia).
  split; [exact H|].
  apply (Util_FileTime2String_width a_time 1 H).
Defined.

Lemma PluginManager_ListAll_after_Register_witness :
  fst (PluginManager_Register (HDR:=header) (ENV:=env) (Some modD) w_abc) = TRUE
  /\ fst (PluginManager_ListAll None
            (snd (PluginManager_Register (HDR:=header) (ENV:=env) (Some modD) w_abc)))
     = [68; 100] :: fst (PluginManager_ListAll None w_abc).
Proof.
  split; [reflexivity|].
  exact (proj1 (PluginManager_ListAll_after_Register (HDR:=header) (ENV:=env)
                  modD w_abc None) eq_refl).
Defined.


Lemma load_plugins_then_Close_releases_witness :
  hGood <> NULL
  /\ (acquired hGood (trace w0)
      < acquired hGood
          (trace (snd (load_plugins (ENV:=env) (HDR:=header) "C:\mfs\"
                         ["m_good.dll"; "m_noentry.dll"; "m_missing.dll"]%string w0))))%nat
  /\ (released hGood (trace w0)
      < released hGood
          (trace (snd (PluginManager_Close
                         (snd (load_plugins (ENV:=env) (HDR:=header) "C:\mfs\"
                                 ["m_good.dll"; "m_noentry.dll"; "m_missing.dll"]%string
                                 w0))))))%nat.
Proof.
  assert (hGood <> NULL) as H1 by discriminate.
  assert (acquired hGood (trace w0)
          < acquired hGood
              (trace (snd (load_plugins (ENV:=env) (HDR:=header) "C:\mfs\"
                             ["m_good.dll"; "m_noentry.dll"; "m_missing.dll"]%string w0))))%nat
    as H2 by (vm_compute; lia).
  split; [exact H1|]. split; [exact H2|].
  apply (load_plugins_then_Close_releases (HDR:=header) (ENV:=env) _ _ w0 hGood H1 H2).
Defined.

End MoreRuns.
